(** * Interestingness analysis base, video fading and CLI helpers

    A shallow embedding of
    - [cameleon/utils/env.py] (the helpers that read command-line strings),
    - [interestingness_xdrl/util/video.py] ([fade_video]),
    - [interestingness_xdrl/analysis/__init__.py] ([AnalysisBase]),
    followed by the properties established about them.

    Python values are modelled as follows: [int] as [Z], [float] as the
    IEEE-754 binary64 instance of [spec_float], [str] as [string], lists and
    one-dimensional arrays as [list], objects reachable through several
    references as cells of a store.  A computation that may raise returns a
    [result]; a method that also mutates objects or touches the file system
    runs in the state-and-exception monad [M]. *)

From Stdlib Require Import ZArith List String Ascii Lia Bool Sorted.
From Stdlib Require Import Floats.SpecFloat.
From stdpp Require Import gmap strings list.

Local Open Scope Z_scope.

(** ** Python runtime: exceptions, results, the method monad *)

Module Py.

(** The exception classes that the embedded code can raise: built-in ones,
    those of [pickle] and numpy's [LinAlgError]. *)
Inductive exn : Type :=
| ValueError
| TypeError
| IndexError
| KeyError
| AttributeError
| ZeroDivisionError
| OverflowError
| AssertionError
| OSError
| PicklingError
| NotImplementedError
| EOFError
| LinAlgError.

Inductive result (A : Type) : Type :=
| Ok (a : A)
| Raise (e : exn).
Arguments Ok {A} a.
Arguments Raise {A} e.

Definition rbind {A B} (r : result A) (k : A -> result B) : result B :=
  match r with
  | Ok a => k a
  | Raise e => Raise e
  end.

(** State and exceptions.  A raised exception keeps the state reached so
    far: assignments made before the [raise] stay visible afterwards. *)
Definition M (W A : Type) : Type := W -> result A * W.

Definition ret {W A} (a : A) : M W A := fun w => (Ok a, w).

Definition bind {W A B} (c : M W A) (k : A -> M W B) : M W B :=
  fun w =>
    match c w with
    | (Ok a, w') => k a w'
    | (Raise e, w') => (Raise e, w')
    end.

Definition raise {W A} (e : exn) : M W A := fun w => (Raise e, w).
Definition gets {W A} (f : W -> A) : M W A := fun w => (Ok (f w), w).
Definition modify {W} (f : W -> W) : M W unit := fun w => (Ok tt, f w).
Definition lift {W A} (r : result A) : M W A := fun w => (r, w).

(** [for x in xs: body x] *)
Fixpoint for_each {W A} (xs : list A) (body : A -> M W unit) : M W unit :=
  match xs with
  | [] => ret tt
  | x :: xs' => bind (body x) (fun _ => for_each xs' body)
  end.

(** [enumerate(xs)] *)
Definition enumerate {A} (xs : list A) : list (nat * A) :=
  combine (seq 0 (length xs)) xs.

(** [xs[lo:hi]] for indices that are not negative. *)
Definition slice {A} (xs : list A) (lo hi : nat) : list A :=
  firstn (hi - lo) (skipn lo xs).

End Py.

Import Py.

Declare Scope py_scope.
Delimit Scope py_scope with py.
Notation "x <- c ;; k" := (bind c (fun x => k))
  (at level 100, c at next level, right associativity) : py_scope.
Notation "c ;;; k" := (bind c (fun _ => k))
  (at level 100, right associativity) : py_scope.
Notation "x <~ r ;; k" := (rbind r (fun x => k))
  (at level 100, r at next level, right associativity) : py_scope.

(** ** Built-in conversions and float arithmetic *)

Module Builtins.

(** The characters that [int] skips around a literal.  A character of a
    [string] is a code point below 256: these are the ASCII blanks (tab,
    line feed, vertical tab, form feed, carriage return, space) and, beyond
    ASCII, next-line ([chr(133)]) and no-break space ([chr(160)]).  The
    separators [chr(28)] to [chr(31)] are not skipped, although
    [str.isspace] holds for them. *)
Definition is_space (c : ascii) : bool :=
  let n := nat_of_ascii c in
  ((9 <=? n)%nat && (n <=? 13)%nat)
  || (n =? 32)%nat || (n =? 133)%nat || (n =? 160)%nat.

Definition is_digit (c : ascii) : bool :=
  let n := nat_of_ascii c in (48 <=? n)%nat && (n <=? 57)%nat.

Definition digit_val (c : ascii) : Z := Z.of_nat (nat_of_ascii c) - 48.

Fixpoint lstrip (l : list ascii) : list ascii :=
  match l with
  | c :: r => if is_space c then lstrip r else l
  | [] => []
  end.

Definition strip (l : list ascii) : list ascii :=
  rev (lstrip (rev (lstrip l))).

(** Decimal digits, single underscores allowed between two digits.
    [after_digit] tells whether the previous character was a digit. *)
Fixpoint digits (acc : Z) (after_digit : bool) (l : list ascii) : option Z :=
  match l with
  | [] => if after_digit then Some acc else None
  | c :: r =>
      if is_digit c then digits (10 * acc + digit_val c) true r
      else if Ascii.eqb c "_"%char && after_digit then digits acc false r
      else None
  end.

(** [int(s)] for a [str] argument, base 10: surrounding whitespace is
    stripped, one sign is accepted, anything else is a [ValueError].  Below
    code point 256 the decimal digits are [0] to [9]; the interpreter's cap
    on the number of digits is left out. *)
Definition int_of_str (s : string) : result Z :=
  let body := strip (list_ascii_of_string s) in
  let parsed :=
    match body with
    | "-"%char :: r => option_map Z.opp (digits 0 false r)
    | "+"%char :: r => digits 0 false r
    | _ => digits 0 false body
    end in
  match parsed with
  | Some n => Ok n
  | None => Raise ValueError
  end.

(** Truthiness of an [int]. *)
Definition truthy (n : Z) : bool := negb (n =? 0).

(** Python's [float] is IEEE-754 binary64. *)
Abbreviation float := spec_float.
Definition prec : Z := 53.
Definition emax : Z := 1024.

(** [float(n)] for an [int]; exact below [2^53], rounded to nearest even
    above, [OverflowError] when the magnitude does not fit. *)
Definition float_of_int (n : Z) : result float :=
  match binary_normalize prec emax n 0 false with
  | S754_infinity _ => Raise OverflowError
  | x => Ok x
  end.

Definition fmul : float -> float -> float := SFmul prec emax.
Definition fsub : float -> float -> float := SFsub prec emax.
Definition fdiv : float -> float -> float := SFdiv prec emax.
Definition isnan (x : float) : bool :=
  match x with S754_nan => true | _ => false end.

(** [x >= y] and [x <= y] on floats: false as soon as one side is NaN. *)
Definition fge (x y : float) : bool := SFleb y x.
Definition fle (x y : float) : bool := SFleb x y.

(** [int(x)] for a [float]: truncation towards zero. *)
Definition int_of_float (x : float) : result Z :=
  match x with
  | S754_zero _ => Ok 0
  | S754_nan => Raise ValueError
  | S754_infinity _ => Raise OverflowError
  | S754_finite s m e =>
      let mag := Z.shiftl (Z.pos m) e in
      Ok (if s then - mag else mag)
  end.

(** [x * n] with [x] a float and [n] an int. *)
Definition fmul_int (x : float) (n : Z) : result float :=
  (y <~ float_of_int n ;; Ok (fmul x y))%py.

(** [a / b] on two ints (true division).  The quotient of the two
    converted operands is the correctly rounded quotient whenever both
    magnitudes are below [2^53], which list indices and lengths are. *)
Definition int_truediv (a b : Z) : result float :=
  if b =? 0 then Raise ZeroDivisionError
  else (x <~ float_of_int a ;; y <~ float_of_int b ;; Ok (fdiv x y))%py.

(** [n - x] with [n] an int and [x] a float. *)
Definition int_fsub (n : Z) (x : float) : result float :=
  (y <~ float_of_int n ;; Ok (fsub y x))%py.

End Builtins.

(** ** cameleon/utils/env.py *)

Module Env.
Import Builtins.

(** [[
    def str2int(s):
        if (s == ''):
            return None
        assert int(s), "ERROR: input is not an integer"
        return int(s)
    ]]
    The return value [None] is [Ok None]. *)
Definition str2int (s : string) : result (option Z) :=
  if String.eqb s EmptyString then Ok None
  else
    (cond <~ int_of_str s ;;
     if truthy cond then (n <~ int_of_str s ;; Ok (Some n))
     else Raise AssertionError)%py.

End Env.

(** ** interestingness_xdrl/util/video.py *)

Module Video.
Import Builtins.

Section FadeVideo.

(** [PIL.Image.Image], and [fade_image] of [interestingness_xdrl.util.image],
    which this module imports. *)
Variable Image : Type.
Variable fade_image : Image -> float -> Image.

Section Loop.
Variables total_frames fade_steps fade_in_frames fade_out_frames : Z.

(** The body of [for t, frame in enumerate(buffer)], up to the [append]. *)
Definition fade_frame (t : Z) (frame : Image) : result Image :=
  if t <? fade_in_frames then
    (q <~ int_truediv t fade_steps ;;
     a <~ int_fsub 1 q ;;
     Ok (fade_image frame a))%py
  else if t >=? total_frames - fade_out_frames then
    (a <~ int_truediv (t - (total_frames - fade_out_frames)) fade_steps ;;
     Ok (fade_image frame a))%py
  else Ok frame.

Fixpoint fade_loop (t : Z) (frames faded_buffer : list Image)
  : result (list Image) :=
  match frames with
  | [] => Ok faded_buffer
  | frame :: rest =>
      (frame' <~ fade_frame t frame ;;
       fade_loop (t + 1) rest (faded_buffer ++ [frame']))%py
  end.

End Loop.

Definition fade_video (buffer : list Image) (fade_ratio : float)
  (fade_in fade_out : bool) : result (list Image) :=
  if negb (fade_in || fade_out) then Ok buffer
  else
    let total_frames := Z.of_nat (length buffer) in
    (prod <~ fmul_int fade_ratio total_frames ;;
     fade_steps <~ int_of_float prod ;;
     let fade_in_frames := if fade_in then fade_steps else 0 in
     let fade_out_frames := if fade_out then fade_steps else total_frames in
     fade_loop total_frames fade_steps fade_in_frames fade_out_frames
       0 buffer [])%py.

End FadeVideo.

End Video.

(** ** numpy, on one-dimensional arrays *)

Module Numpy.
Import Builtins.

(** [np.where(flags)[0]]: the positions of the true entries, ascending. *)
Fixpoint where_from (i : nat) (flags : list bool) : list nat :=
  match flags with
  | [] => []
  | b :: r => if b then i :: where_from (S i) r else where_from (S i) r
  end.

Definition where_ (flags : list bool) : list nat := where_from 0 flags.

(** [np.split(ary, indices)] with a list of indices: the pieces
    [ary[0:i1]], [ary[i1:i2]], ..., [ary[ik:]]. *)
Fixpoint split_from {A} (ary : list A) (prev : nat) (indices : list nat)
  : list (list A) :=
  match indices with
  | [] => [slice ary prev (length ary)]
  | i :: r => slice ary prev i :: split_from ary i r
  end.

Definition split {A} (ary : list A) (indices : list nat) : list (list A) :=
  split_from ary 0 indices.

(** [np.arange(start, stop, step)] on ints. *)
Fixpoint arange_from (fuel : nat) (cur stop step : Z) : list Z :=
  match fuel with
  | O => []
  | S fuel' =>
      if (if 0 <? step then cur <? stop else stop <? cur)
      then cur :: arange_from fuel' (cur + step) stop step
      else []
  end.

Definition arange (start stop step : Z) : result (list Z) :=
  if step =? 0 then Raise ZeroDivisionError
  else Ok (arange_from (Z.abs_nat (stop - start)) start stop step).

(** The number of dimensions of [np.array(rows)] for a list of two-element
    rows: an empty list gives shape [(0,)], a list of [k > 0] rows gives
    shape [(k, 2)]. *)
Definition ndim_of_rows {A} (rows : list A) : nat :=
  match rows with
  | [] => 1%nat
  | _ => 2%nat
  end.

End Numpy.

(** ** list methods *)

Module PyList.

(** [l.remove(x)]: drops the first occurrence, [ValueError] if there is
    none. *)
Fixpoint remove (x : nat) (l : list nat) : result (list nat) :=
  match l with
  | [] => Raise ValueError
  | y :: r =>
      if Nat.eqb y x then Ok r
      else (r' <~ remove x r ;; Ok (y :: r'))%py
  end.

End PyList.

(** ** interestingness_xdrl/analysis/__init__.py *)

Module Analysis.
Import Builtins.

Definition EPISODE_STR : string := "Episode".
Definition TIME_STEP_STR : string := "Timestep".

(** Object references. *)
Definition loc : Type := nat.

(** Modelled from the spec: [InteractionDataPoint], declared in the package
    root, "one timestep's observation/action/value snapshot plus
    episode-boundary flag".  The two attributes below are the ones this
    module reads. *)
Record InteractionDataPoint : Type := {
  new_episode : bool;
  action_factors : list string
}.

(** Modelled from the spec: [AnalysisConfiguration], declared in
    [analysis/config.py], the "parameter bag (thresholds, parallelism degree,
    plotting options) shared by all analyses".  [num_processes] is the one
    attribute this module reads and writes. *)
Record AnalysisConfiguration : Type := {
  num_processes : Z
}.

(** The attributes set by [AnalysisBase.__init__].  [data] is [None] while
    [save] runs; [config] is a reference, so that analyses built from one
    configuration object share it. *)
Record AnalysisBase : Type := {
  data : option (list InteractionDataPoint);
  config : loc;
  img_fmt : string
}.

(** [o] while its data are set aside. *)
Definition detached (o : AnalysisBase) : AnalysisBase :=
  {| data := None; config := config o; img_fmt := img_fmt o |}.

(** [mp.pool.Pool] *)
Record Pool : Type := { processes : Z }.

(** One sub-plot of a multi-panel figure, as drawn by [_plot_elements_sp]:
    the plotted series, the reference lines, the scatter calls (absent when
    skipped; column 0 holds the local timestep) and the x-axis limit. *)
Record Panel : Type := {
  series : list float;
  high_line : option float;
  low_line : option float;
  mean_line : float;
  high_marks : option (list (nat * float));
  low_marks : option (list (nat * float));
  xlim : nat
}.

Record Figure : Type := {
  panels : list Panel;
  suptitle : string * Z;
  ylabel : string;
  legend : list string
}.

Inductive cell : Type :=
| CInt (n : Z)
| CFloat (x : float).

(** [OrderedDict] from column name to column (a list object). *)
Definition odict : Type := list (string * list cell).

(** [pd.DataFrame]: named columns of one common length. *)
Record DataFrame : Type := {
  columns : odict;
  nrows : nat
}.

Inductive fmt_arg : Type :=
| FInt (n : Z)
| FStr (s : string).

(** What a method does to the world outside the object store. *)
Inductive effect : Type :=
| LogInfo (template : string) (args : list fmt_arg)
| GzipOpen (file_path : string)
| PickleDump (file_path : string) (obj : AnalysisBase)
    (cfg : option AnalysisConfiguration)
| NewPool (processes : Z)
| Subplots (widths : list nat)
| SaveFig (output_img : string) (fig : Figure)
| ToCsv (file_name : string) (df : DataFrame).

(** Facts about the host: the detected core count ([os.cpu_count()], which
    may be [None]), which paths can be opened for writing, and which objects
    [pickle] can encode (subclasses add attributes of their own). *)
Record Host : Type := {
  os_cpu_count : option Z;
  can_open : string -> bool;
  picklable : AnalysisBase -> bool
}.

Record World : Type := {
  host : Host;
  configs : gmap loc AnalysisConfiguration;
  objects : gmap loc AnalysisBase;
  effects : list effect
}.

Definition with_configs (w : World) (c : gmap loc AnalysisConfiguration)
  : World :=
  {| host := host w; configs := c; objects := objects w;
     effects := effects w |}.

Definition with_objects (w : World) (o : gmap loc AnalysisBase) : World :=
  {| host := host w; configs := configs w; objects := o;
     effects := effects w |}.

Definition with_effects (w : World) (e : list effect) : World :=
  {| host := host w; configs := configs w; objects := objects w;
     effects := e |}.

Definition emit (e : effect) : M World unit :=
  modify (fun w => with_effects w (effects w ++ [e])).

(** *** Attribute access *)

(** Reading through a reference that holds no object of the expected class
    is an [AttributeError]. *)
Definition get_self (self : loc) : M World AnalysisBase :=
  fun w =>
    match objects w !! self with
    | Some o => (Ok o, w)
    | None => (Raise AttributeError, w)
    end.

(** [self.data = d] *)
Definition set_data (self : loc) (d : option (list InteractionDataPoint))
  : M World unit :=
  (o <- get_self self ;;
   modify (fun w =>
     with_objects w
       (<[self := {| data := d; config := config o; img_fmt := img_fmt o |}]>
          (objects w))))%py.

(** [c.num_processes] *)
Definition get_num_processes (c : loc) : M World Z :=
  fun w =>
    match configs w !! c with
    | Some cfg => (Ok (num_processes cfg), w)
    | None => (Raise AttributeError, w)
    end.

(** [c.num_processes = v] *)
Definition set_num_processes (c : loc) (v : Z) : M World unit :=
  fun w =>
    match configs w !! c with
    | Some cfg =>
        (Ok tt, with_configs w (<[c := {| num_processes := v |}]> (configs w)))
    | None => (Raise AttributeError, w)
    end.

(** *** Library calls *)

(** [gzip.open(file_path, 'wb')] *)
Definition gzip_open_wb (file_path : string) : M World string :=
  (ok <- gets (fun w => can_open (host w) file_path) ;;
   if ok : bool then (emit (GzipOpen file_path) ;;; ret file_path)
   else raise OSError)%py.

(** [pickle.dump(self, file, ...)]: encodes the object as it is now,
    together with the configuration it points to. *)
Definition pickle_dump (self : loc) (file : string) : M World unit :=
  (o <- get_self self ;;
   ok <- gets (fun w => picklable (host w) o) ;;
   cfg <- gets (fun w => configs w !! config o) ;;
   if ok : bool then emit (PickleDump file o cfg)
   else raise PicklingError)%py.

(** [mp.cpu_count()] *)
Definition mp_cpu_count : M World Z :=
  (n <- gets (fun w => os_cpu_count (host w)) ;;
   match n with
   | Some n => ret n
   | None => raise NotImplementedError
   end)%py.

(** [mp.Pool(processes)]: [None] means [os.cpu_count() or 1]. *)
Definition mp_Pool (procs : option Z) : M World Pool :=
  (n <- match procs with
        | Some n => ret n
        | None =>
            (c <- gets (fun w => os_cpu_count (host w)) ;;
             ret (match c with
                  | Some c => if truthy c then c else 1
                  | None => 1
                  end))
        end ;;
   if n <? 1 then raise ValueError
   else (emit (NewPool n) ;;; ret {| processes := n |}))%py.

(** *** Methods *)

(** [[
    def __init__(self, data, analysis_config, img_fmt):
        self.data = data
        self.config = analysis_config
        self.img_fmt = img_fmt
    ]] *)
Definition __init__ (self : loc) (data : list InteractionDataPoint)
  (analysis_config : loc) (img_fmt : string) : M World unit :=
  modify (fun w =>
    with_objects w
      (<[self := {| data := Some data; config := analysis_config;
                    img_fmt := img_fmt |}]> (objects w))).

(** [[
    def save(self, file_path):
        data = self.data
        self.data = None
        with gzip.open(file_path, 'wb') as file:
            pickle.dump(self, file, protocol=pickle.HIGHEST_PROTOCOL)
        self.data = data
    ]] *)
Definition save (self : loc) (file_path : string) : M World unit :=
  (o <- get_self self ;;
   let data := data o in
   set_data self None ;;;
   file <- gzip_open_wb file_path ;;
   pickle_dump self file ;;;
   set_data self data)%py.

(** [[
    def _get_mp_pool(self):
        self.config.num_processes = -1
        pool = mp.Pool(self.config.num_processes
                       if self.config.num_processes > 1 else None)
        logging.info('Set number of processes to {}'.format(
            self.config.num_processes
            if self.config.num_processes > 1 else mp.cpu_count()))
        return pool
    ]] *)
Definition _get_mp_pool (self : loc) : M World Pool :=
  (o <- get_self self ;;
   set_num_processes (config o) (-1) ;;;
   n <- get_num_processes (config o) ;;
   pool <- mp_Pool (if n >? 1 then Some n else None) ;;
   n' <- get_num_processes (config o) ;;
   shown <- (if n' >? 1 then ret n' else mp_cpu_count) ;;
   emit (LogInfo "Set number of processes to {}" [FInt shown]) ;;;
   ret pool)%py.

(** *** Tabular export *)

(** [d[key] = []] while the dictionary literal is built: a key seen before
    keeps its position and gets the new value. *)
Fixpoint od_set (key : string) (v : list cell) (d : odict) : odict :=
  match d with
  | [] => [(key, v)]
  | (k, v0) :: r =>
      if String.eqb k key then (k, v) :: r else (k, v0) :: od_set key v r
  end.

(** [d[key].append(x)]: the list object stored under [key] grows in place;
    [KeyError] if there is no such key. *)
Fixpoint od_append (key : string) (x : cell) (d : odict) : result odict :=
  match d with
  | [] => Raise KeyError
  | (k, v) :: r =>
      if String.eqb k key then Ok ((k, v ++ [x]) :: r)
      else (r' <~ od_append key x r ;; Ok ((k, v) :: r'))%py
  end.

(** [a[t]] for an index that is not negative. *)
Definition getitem {A} (a : list A) (t : nat) : result A :=
  match a !! t with
  | Some x => Ok x
  | None => Raise IndexError
  end.

(** [pd.DataFrame.from_dict(d)]: all columns must have one length. *)
Definition from_dict (d : odict) : result DataFrame :=
  match d with
  | [] => Ok {| columns := []; nrows := 0 |}
  | (_, c) :: r =>
      if forallb (fun kv => Nat.eqb (length (snd kv)) (length c)) r
      then Ok {| columns := d; nrows := length c |}
      else Raise ValueError
  end.

(** [df.to_csv(file_name, index=False)] *)
Definition to_csv (df : DataFrame) (file_name : string) : M World unit :=
  (ok <- gets (fun w => can_open (host w) file_name) ;;
   if ok : bool then emit (ToCsv file_name df) else raise OSError)%py.

(** The text of the log record: the dimension is shown between double
    quotes. *)
Definition CSV_SAVED_MSG : string :=
  ("Saved CSV file with data for dimension "
   ++ String (ascii_of_nat 34) "{}" ++ String (ascii_of_nat 34) " at {}.")%string.

(** The local variables of [_save_time_dataset_csv] that its loop updates. *)
Record csv_locals : Type := {
  ep : Z;
  ep_t : Z;
  tbl : odict
}.

(** One turn of [for t, datapoint in enumerate(self.data)]. *)
Definition csv_body (element_data : list float) (dimension : string)
  (st : csv_locals) (t : nat) (datapoint : InteractionDataPoint)
  : result csv_locals :=
  let '(ep1, ep_t1) :=
    if new_episode datapoint || (ep st =? -1)
    then (ep st + 1, 0)
    else (ep st, ep_t st) in
  (d1 <~ od_append EPISODE_STR (CInt ep1) (tbl st) ;;
   d2 <~ od_append TIME_STEP_STR (CInt ep_t1) d1 ;;
   x <~ getitem element_data t ;;
   d3 <~ od_append dimension (CFloat x) d2 ;;
   Ok {| ep := ep1; ep_t := ep_t1 + 1; tbl := d3 |})%py.

Fixpoint csv_loop (element_data : list float) (dimension : string)
  (st : csv_locals) (items : list (nat * InteractionDataPoint))
  : result csv_locals :=
  match items with
  | [] => Ok st
  | (t, datapoint) :: rest =>
      (st' <~ csv_body element_data dimension st t datapoint ;;
       csv_loop element_data dimension st' rest)%py
  end.

(** Iterating over [self.data]; [None] is not iterable. *)
Definition iter_data (o : AnalysisBase)
  : result (list InteractionDataPoint) :=
  match data o with
  | Some d => Ok d
  | None => Raise TypeError
  end.

(** [[
    def _save_time_dataset_csv(self, element_data, dimension, file_name):
        ep = -1
        ep_t = 0
        data = OrderedDict({EPISODE_STR: [], TIME_STEP_STR: [], dimension: []})
        for t, datapoint in enumerate(self.data):
            if datapoint.new_episode or ep == -1:
                ep += 1
                ep_t = 0
            data[EPISODE_STR].append(ep)
            data[TIME_STEP_STR].append(ep_t)
            data[dimension].append(element_data[t])
            ep_t += 1
        df = pd.DataFrame.from_dict(data)
        df.to_csv(file_name, index=False)
        logging.info(...)
    ]] *)
Definition _save_time_dataset_csv (self : loc) (element_data : list float)
  (dimension file_name : string) : M World unit :=
  (o <- get_self self ;;
   let data0 :=
     od_set dimension [] (od_set TIME_STEP_STR [] (od_set EPISODE_STR [] [])) in
   records <- lift (iter_data o) ;;
   st <- lift (csv_loop element_data dimension
                 {| ep := -1; ep_t := 0; tbl := data0 |}
                 (enumerate records)) ;;
   df <- lift (from_dict (tbl st)) ;;
   to_csv df file_name ;;;
   emit (LogInfo CSV_SAVED_MSG [FStr dimension; FStr file_name]))%py.

(** The values of [ep] and [ep_t] appended by the loop above, turn by turn,
    when it is entered with the given [ep] and [ep_t]. *)
Fixpoint index_from (ep ep_t : Z) (records : list InteractionDataPoint)
  : list (Z * Z) :=
  match records with
  | [] => []
  | datapoint :: rest =>
      let '(ep1, ep_t1) :=
        if new_episode datapoint || (ep =? -1)
        then (ep + 1, 0)
        else (ep, ep_t) in
      (ep1, ep_t1) :: index_from ep1 (ep_t1 + 1) rest
  end.

(** A computation that stops with an error and has done nothing to the
    outside world by then. *)
Definition fails_without_effect {A} (c : M World A) (w : World) : Prop :=
  exists e w', c w = (Raise e, w') /\ effects w' = effects w.

(** The figures saved so far, oldest first. *)
Definition saved_figures (es : list effect) : list Figure :=
  flat_map (fun e => match e with SaveFig _ fig => [fig] | _ => [] end) es.

(** *** Multi-panel plots *)

(** [[[t, ep_data[t]] for t in range(len(ep_data)) if keep(ep_data[t])]] *)
Definition rows_where (keep : float -> bool) (ep_data : list float)
  : list (nat * float) :=
  flat_map
    (fun t =>
       match ep_data !! t with
       | Some v => if keep v then [(t, v)] else []
       | None => []
       end)
    (seq 0 (length ep_data)).

(** Whether position [t] exists in a series and passes the test [keep]. *)
Definition at_index (keep : float -> bool) (ep_data : list float) (t : nat)
  : bool :=
  match ep_data !! t with
  | Some v => keep v
  | None => false
  end.

(** [rows[:, 0]] and [rows[:, 1]] of the array built from [rows]: indexing
    with two subscripts needs a two-dimensional array. *)
Definition two_columns (rows : list (nat * float))
  : result (list (nat * float)) :=
  if Nat.eqb (Numpy.ndim_of_rows rows) 2 then Ok rows else Raise IndexError.

(** [[
    rows = np.array([... if keep(ep_data[t])])
    if len(rows.shape) == 2:
        ax.scatter(rows[:, 0], rows[:, 1], ...)
    ]] *)
Definition scatter_where (keep : float -> bool) (ep_data : list float)
  : result (option (list (nat * float))) :=
  let rows := rows_where keep ep_data in
  if Nat.eqb (Numpy.ndim_of_rows rows) 2
  then (cols <~ two_columns rows ;; Ok (Some cols))%py
  else Ok None.

(** What [plt.subplots(1, ncols, ...)] returns as [axs]: with the default
    [squeeze=True] a single column gives the [Axes] object itself, several
    columns give an array of them. *)
Inductive axes : Type :=
| SingleAxes
| AxesArray (ncols : nat).

(** [plt.subplots(1, len(widths), ..., gridspec_kw={'width_ratios': ...})];
    the widths are the episode lengths.  The figure is created whatever the
    widths are; what widths of zero do to the axes shows when the axes are
    drawn on ([axhline]) and when the figure is rendered ([plt_savefig]). *)
Definition plt_subplots (widths : list nat) : M World axes :=
  match length widths with
  | O => raise ValueError
  | S O => (emit (Subplots widths) ;;; ret SingleAxes)%py
  | n => (emit (Subplots widths) ;;; ret (AxesArray n))%py
  end.

(** The share of the figure's width that
    [width_ratios / width_ratios.sum()] gives to a panel: the length of its
    episode over the summed lengths of the batch.  An empty episode beside
    others gets no width at all; when every episode of the batch is empty
    the shares are [0 / 0], NaN. *)
Inductive share : Type :=
| Positive
| NoWidth
| NaNWidth.

Definition width_share (widths : list nat) (width : nat) : share :=
  if Nat.eqb (list_sum widths) 0 then NaNWidth
  else if Nat.eqb width 0 then NoWidth
  else Positive.

(** [ax.axhline(...)]: to update the data limits, the line is taken
    through the inverse of the axes' transform, which is singular for an
    axes without width; numpy then raises [LinAlgError].  (Inverting a
    transform of NaN entries raises nothing.) *)
Definition axhline (width : share) : result unit :=
  match width with
  | NoWidth => Raise LinAlgError
  | Positive => Ok tt
  | NaNWidth => Ok tt
  end.

(** [plt.savefig(output_img, pad_inches=0, bbox_inches='tight')]: the
    figure is rendered, then written to the path.  With axes of NaN width
    the tick layout fails ([ValueError]: NaN cannot be converted to an
    integer); a path that cannot be opened is an [OSError]. *)
Definition plt_savefig (output_img : string) (widths : list nat)
  (fig : Figure) : M World unit :=
  (if Nat.eqb (list_sum widths) 0 then raise ValueError
   else
     (ok <- gets (fun w => can_open (host w) output_img) ;;
      if ok : bool then emit (SaveFig output_img fig) else raise OSError))%py.

(** The indices [ep] of [for ep, ax in enumerate(axs)]; an [Axes] object is
    not iterable. *)
Definition enumerate_axes (axs : axes) : result (list nat) :=
  match axs with
  | SingleAxes => Raise TypeError
  | AxesArray n => Ok (seq 0 n)
  end.

Section Plots.

(** [np.mean] of a float array (numpy sums pairwise; the value only
    positions a reference line). *)
Variable np_mean : list float -> float.

(** The body of [for ep, ax in enumerate(axs)].  Of the up to three
    [axhline] calls, the one for the mean is always made; on an axes without
    width each of them fails alike. *)
Definition plot_panel (data : list float) (high_limit low_limit : float)
  (plot_eps_data : list (list float)) (ep : nat) : result Panel :=
  (ep_data <~ getitem plot_eps_data ep ;;
   _ <~ axhline (width_share (map (fun ep_data => length ep_data)
                                plot_eps_data)
                   (length ep_data)) ;;
   highs <~ scatter_where (fun v => fge v high_limit) ep_data ;;
   lows <~ scatter_where (fun v => fle v low_limit) ep_data ;;
   Ok {| series := ep_data;
         high_line := if negb (isnan high_limit) then Some high_limit else None;
         low_line := if negb (isnan low_limit) then Some low_limit else None;
         mean_line := np_mean data;
         high_marks := highs;
         low_marks := lows;
         xlim := length ep_data |})%py.

Fixpoint plot_panels (data : list float) (high_limit low_limit : float)
  (plot_eps_data : list (list float)) (eps : list nat)
  : result (list Panel) :=
  match eps with
  | [] => Ok []
  | ep :: rest =>
      (p <~ plot_panel data high_limit low_limit plot_eps_data ep ;;
       ps <~ plot_panels data high_limit low_limit plot_eps_data rest ;;
       Ok (p :: ps))%py
  end.

(** [eps_data[ep_idx:min(ep_idx + eps_per_plot, len(eps_data))]] *)
Definition batch_at (eps_data : list (list float)) (eps_per_plot ep_idx : Z)
  : list (list float) :=
  slice eps_data (Z.to_nat ep_idx)
    (Z.to_nat (Z.min (ep_idx + eps_per_plot) (Z.of_nat (length eps_data)))).

(** The body of [for ep_idx in plot_ep_splits]: one figure. *)
Definition plot_figure (data : list float) (high_limit low_limit : float)
  (output_img high_label low_label title y_label : string)
  (eps_per_plot : Z) (eps_data : list (list float)) (ep_idx : Z)
  : M World unit :=
  (let plot_eps_data := batch_at eps_data eps_per_plot ep_idx in
   let widths := map (fun ep_data => length ep_data) plot_eps_data in
   axs <- plt_subplots widths ;;
   eps <- lift (enumerate_axes axs) ;;
   drawn <- lift (plot_panels data high_limit low_limit plot_eps_data eps) ;;
   plt_savefig output_img widths
     {| panels := drawn;
        suptitle := (title, eps_per_plot);
        ylabel := y_label;
        legend := [y_label; high_label; low_label; "Overall mean"%string]
     |})%py.

(** The marks that the guarded scatter leaves on a panel. *)
Definition marks_of (keep : float -> bool) (ep_data : list float)
  : option (list (nat * float)) :=
  match rows_where keep ep_data with
  | [] => None
  | rows => Some rows
  end.

(** The panel that shows one episode. *)
Definition panel_of (data : list float) (high_limit low_limit : float)
  (ep_data : list float) : Panel :=
  {| series := ep_data;
     high_line := if negb (isnan high_limit) then Some high_limit else None;
     low_line := if negb (isnan low_limit) then Some low_limit else None;
     mean_line := np_mean data;
     high_marks := marks_of (fun v => fge v high_limit) ep_data;
     low_marks := marks_of (fun v => fle v low_limit) ep_data;
     xlim := length ep_data |}.

(** The figure that shows one batch of episodes. *)
Definition figure_of (data : list float) (high_limit low_limit : float)
  (high_label low_label title y_label : string) (eps_per_plot : Z)
  (plot_eps_data : list (list float)) : Figure :=
  {| panels := map (panel_of data high_limit low_limit) plot_eps_data;
     suptitle := (title, eps_per_plot);
     ylabel := y_label;
     legend := [y_label; high_label; low_label; "Overall mean"%string] |}.

(** [[
    def _plot_elements_sp(self, data, high_limit, low_limit, output_img,
                          high_label, low_label, title, y_label,
                          eps_per_plot=10):
        ep_breaks = np.where([datapoint.new_episode
                              for datapoint in self.data])[0].tolist()
        ep_breaks.remove(0)
        eps_data = np.split(data, ep_breaks)
        plot_ep_splits = np.arange(0, len(eps_data), eps_per_plot)
        for ep_idx in plot_ep_splits:
            plot_eps_data = eps_data[ep_idx:min(ep_idx + eps_per_plot,
                                                len(eps_data))]
            ...
            fig, axs = plt.subplots(1, len(plot_eps_data), ...)
            for ep, ax in enumerate(axs):
                ...
            plt.savefig(output_img, pad_inches=0, bbox_inches='tight')
            plt.close()
    ]] *)
Definition _plot_elements_sp (self : loc) (data : list float)
  (high_limit low_limit : float)
  (output_img high_label low_label title y_label : string)
  (eps_per_plot : Z) : M World unit :=
  (o <- get_self self ;;
   records <- lift (iter_data o) ;;
   let ep_breaks := Numpy.where_ (map new_episode records) in
   ep_breaks <- lift (PyList.remove 0%nat ep_breaks) ;;
   let eps_data := Numpy.split data ep_breaks in
   plot_ep_splits <-
     lift (Numpy.arange 0 (Z.of_nat (length eps_data)) eps_per_plot) ;;
   for_each plot_ep_splits
     (plot_figure data high_limit low_limit output_img high_label low_label
        title y_label eps_per_plot eps_data))%py.

End Plots.

End Analysis.

(** ** Sample inputs *)

Module Samples.
Import Builtins Analysis.

(** The floats [0.5], [1.0], [2.0], [3.0]. *)
Definition one_half : float := S754_finite false 4503599627370496 (-53).
Definition f1 : float := S754_finite false 4503599627370496 (-52).
Definition f2 : float := S754_finite false 4503599627370496 (-51).
Definition f3 : float := S754_finite false 6755399441055744 (-51).

(** A host with eight cores where only paths under [/data/] can be written
    and every object can be pickled. *)
Definition host0 : Host :=
  {| os_cpu_count := Some 8;
     can_open := fun path => String.prefix "/data/" path;
     picklable := fun _ => true |}.

Definition rec (flag : bool) : InteractionDataPoint :=
  {| new_episode := flag; action_factors := ["move"; "turn"]%string |}.

(** One configuration object asking for four processes, at reference 0, and
    nothing else. *)
Definition world0 : World :=
  {| host := host0;
     configs := {[ 0%nat := {| num_processes := 4 |} ]};
     objects := ∅;
     effects := [] |}.

(** Two analyses, at references 1 and 2, built from that one configuration. *)
Definition two_analyses : M World unit :=
  (__init__ 1%nat [rec true; rec false; rec true] 0%nat "pdf" ;;;
   __init__ 2%nat [rec true; rec false; rec true] 0%nat "pdf")%py.

Definition world2 : World := snd (two_analyses world0).

(** An analysis at reference 3 whose first record carries no flag. *)
Definition world3 : World :=
  snd (__init__ 3%nat [rec false; rec true; rec false; rec false] 0%nat "pdf"
         world0).

(** Building an analysis over no records at all, then exporting a series. *)
Definition export_nothing : M World unit :=
  (__init__ 1%nat [] 0%nat "pdf" ;;;
   _save_time_dataset_csv 1%nat [] "Value" "/data/value.csv")%py.

(** A single episode of three records, at reference 4. *)
Definition world4 : World :=
  snd (__init__ 4%nat [rec true; rec false; rec false] 0%nat "pdf" world0).

(** Twelve records with episodes starting at positions 1, 4 and 8, and no
    flag on the first record. *)
Definition twelve : list InteractionDataPoint :=
  map rec [false; true; false; false; true; false; false; false;
           true; false; false; false].

(** Two episodes of two records each, at reference 5. *)
Definition world5 : World :=
  snd (__init__ 5%nat [rec true; rec false; rec true; rec false] 0%nat "pdf"
         world0).

End Samples.

(** ** More of cameleon/utils/env.py *)

Module Text.

(** [c.lower()] for an ASCII character. *)
Definition lower_char (c : ascii) : ascii :=
  let n := nat_of_ascii c in
  if (65 <=? n)%nat && (n <=? 90)%nat then ascii_of_nat (n + 32) else c.

(** [s.lower()] *)
Fixpoint lower (s : string) : string :=
  match s with
  | EmptyString => EmptyString
  | String c r => String (lower_char c) (lower r)
  end.

(** [s.split(sep)] for a separator of one character. *)
Fixpoint split (sep : ascii) (s : string) : list string :=
  match s with
  | EmptyString => [EmptyString]
  | String c r =>
      if Ascii.eqb c sep then EmptyString :: split sep r
      else
        match split sep r with
        | head :: tail => String c head :: tail
        | [] => [String c EmptyString]
        end
  end.

(** [sep.join(parts)] *)
Fixpoint join (sep : string) (parts : list string) : string :=
  match parts with
  | [] => EmptyString
  | [p] => p
  | p :: rest => (p ++ sep ++ join sep rest)%string
  end.

(** The number of occurrences of [c], as [s.count(c)]. *)
Fixpoint count (c : ascii) (s : string) : nat :=
  match s with
  | EmptyString => 0%nat
  | String c' r => ((if Ascii.eqb c' c then 1 else 0) + count c r)%nat
  end.

(** [x in words] *)
Definition mem (x : string) (words : list string) : bool :=
  existsb (String.eqb x) words.

End Text.

Module EnvCli.
Import Builtins Text.

(** [[
    def update_config(config, config_update):
        for key, value in config_update.items():
            config[key] = value
        return config
    ]]
    [config] is updated in place and handed back; [items] lists the pairs of
    [config_update] in iteration order. *)
Definition update_config {V : Type} (config : gmap string V)
  (items : list (string * V)) : gmap string V :=
  fold_left (fun config kv => <[fst kv := snd kv]> config) items config.

(** [[
    def str2framework(s):
        if (not s):
            return None
        s = s.lower()
        assert s in ["tf","tf2","torch"], ...
        return s
    ]] *)
Definition str2framework (s : string) : result (option string) :=
  if String.eqb s EmptyString then Ok None
  else
    let s := lower s in
    if mem s ["tf"; "tf2"; "torch"]%string then Ok (Some s)
    else Raise AssertionError.

(** [[
    def str2list(s):
        if (not s) or (s == ''):
            return None
        slist = s.split(",")
        assert len(slist) > 0, ...
        return slist
    ]] *)
Definition str2list (s : string) : result (option (list string)) :=
  if String.eqb s EmptyString || String.eqb s EmptyString then Ok None
  else
    let slist := split "," s in
    if (0 <? length slist)%nat then Ok (Some slist)
    else Raise AssertionError.

(** [[
    def str2str(s):
        if (s == ''):
            return None
        return s
    ]] *)
Definition str2str (s : string) : option string :=
  if String.eqb s EmptyString then None else Some s.

(** [[
    def str2bool(v):
        if isinstance(v, bool):
           return v
        if v.lower() in ('yes', 'true', 't', 'y', '1'):
            return True
        elif v.lower() in ('no', 'false', 'f', 'n', '0'):
            return False
        else:
            assert False, "Error: Input to str2bool unexpected"
    ]]
    The argument is a [bool] or a [str]. *)
Definition str2bool (v : bool + string) : result bool :=
  match v with
  | inl b => Ok b
  | inr v =>
      if mem (lower v) ["yes"; "true"; "t"; "y"; "1"]%string then Ok true
      else if mem (lower v) ["no"; "false"; "f"; "n"; "0"]%string
      then Ok false
      else Raise AssertionError
  end.

(** [str(b)] for a [bool]. *)
Definition str_of_bool (b : bool) : string :=
  if b then "True"%string else "False"%string.

(** The wrapper classes named in [wrapper_zoo]. *)
Inductive wrapper : Type :=
| PartialObsWrapper
| ImgObsWrapper
| RGBImgObsWrapper
| CanniballsOneHotWrapper.

(** [wrapper_zoo[name]]; a missing key is a [KeyError]. *)
Definition wrapper_zoo (name : string) : result wrapper :=
  if String.eqb name "partial_obs" then Ok PartialObsWrapper
  else if String.eqb name "encoding_only" then Ok ImgObsWrapper
  else if String.eqb name "rgb_only" then Ok RGBImgObsWrapper
  else if String.eqb name "canniballs_one_hot" then Ok CanniballsOneHotWrapper
  else Raise KeyError.

(** An entry of the list [str2wrapper] builds: a wrapper class alone, or
    the tuple of a class and a size. *)
Definition wrapper_entry : Type := (wrapper * option Z)%type.

(** [tags[i]] on the list a [split] returned. *)
Definition tag (tags : list string) (i : nat) : result string :=
  match nth_error tags i with
  | Some t => Ok t
  | None => Raise IndexError
  end.

(** The body of [for w in wrappers], up to the [append]. *)
Definition wrapper_of_item (w : string) : result wrapper_entry :=
  let w_tags := split "." w in
  if (1 <? length w_tags)%nat then
    (t1 <~ tag w_tags 1 ;;
     partial_obs_size <~ int_of_str t1 ;;
     t0 <~ tag w_tags 0 ;;
     wrapper <~ wrapper_zoo t0 ;;
     Ok (wrapper, Some partial_obs_size))%py
  else
    (t0 <~ tag w_tags 0 ;;
     wrapper <~ wrapper_zoo t0 ;;
     Ok (wrapper, None))%py.

Fixpoint wrappers_loop (items : list string)
  (final_wrappers : list wrapper_entry) : result (list wrapper_entry) :=
  match items with
  | [] => Ok final_wrappers
  | w :: rest =>
      (entry <~ wrapper_of_item w ;;
       wrappers_loop rest (final_wrappers ++ [entry]))%py
  end.

(** [[
    def str2wrapper(wrappers):
        if wrappers == '':
            return []
        wrappers = wrappers.split(",")
        wrapper_zoo = {...}
        final_wrappers = []
        for w in wrappers:
            w_tags = w.split(".")
            if (len(w_tags) > 1):
                partial_obs_size = int(w_tags[1])
                wrapper = wrapper_zoo[w_tags[0]]
                final_wrappers.append((wrapper, partial_obs_size))
            else:
                final_wrappers.append(wrapper_zoo[w_tags[0]])
        return final_wrappers
    ]] *)
Definition str2wrapper (wrappers : string) : result (list wrapper_entry) :=
  if String.eqb wrappers EmptyString then Ok []
  else wrappers_loop (split "," wrappers) [].

Section WrapEnv.

(** The environments of [gym_minigrid], and what calling a wrapper class on
    one gives: [construct w None env] is [w(env)], [construct w (Some n) env]
    is [w(env, agent_view_size=n)].  The classes are imported by this
    module; a constructor may refuse its arguments. *)
Variable GymEnv : Type.
Variable construct : wrapper -> option Z -> GymEnv -> result GymEnv.

(** [[
    def wrap_env(env, wrappers):
        for i in range(len(wrappers)):
            if isinstance(wrappers[i], tuple):
                env = wrappers[i][0](env, agent_view_size = wrappers[i][1])
            else:
                env = wrappers[i](env)
        return env
    ]] *)
Fixpoint wrap_env (env : GymEnv) (wrappers : list wrapper_entry)
  : result GymEnv :=
  match wrappers with
  | [] => Ok env
  | (w, size) :: rest =>
      (env' <~ construct w size env ;; wrap_env env' rest)%py
  end.

End WrapEnv.

End EnvCli.

(** ** More of interestingness_xdrl/analysis/__init__.py *)

Module AnalysisRest.
Import Builtins Analysis.

(** *** Archives *)

(** What a file holds, as far as reading an archive can tell: a gzip stream
    with one pickled analysis (the object as it was, and the configuration it
    pointed to), a gzip stream with nothing in it, or something that is no
    gzip stream. *)
Inductive content : Type :=
| Pickled (obj : AnalysisBase) (cfg : option AnalysisConfiguration)
| EmptyGzip
| NotGzip.

(** The file at [path] after one effect: opening an archive for writing
    leaves an empty stream, a finished dump fills it, a saved figure or
    table replaces it.  ([pickle_dump] writes the stream when the object
    has been encoded, so a dump that fails leaves the stream empty.) *)
Definition written (path : string) (before : option content) (e : effect)
  : option content :=
  match e with
  | GzipOpen p => if String.eqb p path then Some EmptyGzip else before
  | PickleDump p obj cfg =>
      if String.eqb p path then Some (Pickled obj cfg) else before
  | SaveFig p _ => if String.eqb p path then Some NotGzip else before
  | ToCsv p _ => if String.eqb p path then Some NotGzip else before
  | LogInfo _ _ => before
  | NewPool _ => before
  | Subplots _ => before
  end.

Definition file_after (es : list effect) (path : string)
  (before : option content) : option content :=
  fold_left (written path) es before.

Section Load.

(** The files present before the run ([None]: no such file). *)
Variable disk : string -> option content.

(** [[
    @classmethod
    def load(cls, file_path):
        with gzip.open(file_path, 'rb') as file:
            return pickle.load(file)
    ]]
    A missing file and a file that is no gzip stream are [OSError]s (the
    latter once it is read); [pickle.load] raises [EOFError] on a stream
    with nothing in it.  Unpickling builds new objects: the analysis and,
    with it, a configuration of its own. *)
Definition load (file_path : string) : M World loc :=
  (file <- gets (fun w => file_after (effects w) file_path (disk file_path)) ;;
   match file with
   | None => raise OSError
   | Some NotGzip => raise OSError
   | Some EmptyGzip => raise EOFError
   | Some (Pickled obj cfg) =>
       (c <- gets (fun w => fresh (dom (configs w))) ;;
        match cfg with
        | Some cfg =>
            modify (fun w => with_configs w (<[c := cfg]> (configs w)))
        | None => ret tt
        end ;;;
        self <- gets (fun w => fresh (dom (objects w))) ;;
        modify (fun w =>
          with_objects w
            (<[self := {| data := data obj; config := c;
                          img_fmt := img_fmt obj |}]> (objects w))) ;;;
        ret self)
   end)%py.

End Load.

(** *** Single-panel plot and bar chart *)

(** What [_plot_elements] draws: the curve, the horizontal reference lines
    with their labels, the vertical lines at episode starts, the two scatter
    calls and the upper end of the x-axis. *)
Record LinePlot : Type := {
  curve : list float;
  curve_label : string;
  hlines : list (float * string);
  vlines : list nat;
  above_marks : list (nat * float);
  below_marks : list (nat * float);
  x_max : nat
}.

(** [[data[t] for t in ts]] *)
Fixpoint values_at (data : list float) (ts : list nat)
  : result (list float) :=
  match ts with
  | [] => Ok []
  | t :: rest =>
      (v <~ getitem data t ;;
       vs <~ values_at data rest ;;
       Ok (v :: vs))%py
  end.

Section OnePlot.

Variable np_mean : list float -> float.

(** [distinct_colors] of [interestingness_xdrl.util.plot], which this
    module imports. *)
Variable Color : Type.
Variable distinct_colors : nat -> list Color.

(** What [_plot_action_factor_divs] draws. *)
Record BarChart : Type := {
  bars : list float;
  bar_colors : list Color;
  tick_labels : list string
}.

Inductive Axes : Type :=
| Lines (p : LinePlot)
| Bars (b : BarChart).

(** [format_and_save_plot] of the same module: the axes, the title, the
    image path, the two axis labels and, when given, a sixth argument. *)
Variable format_and_save_plot :
  Axes -> string -> string -> string -> string -> option bool -> M World unit.

(** [plt.xticks(ticks, labels, ...)] of matplotlib. *)
Variable plt_xticks : list nat -> list string -> result unit.

(** [[
    def _plot_elements(self, data, above_outliers, below_outliers,
                       high_limit, low_limit, output_img,
                       high_label, low_label, title, y_label):
        ax.plot(data, label=y_label)
        if not np.isnan(high_limit):
            ax.axhline(y=high_limit, label=high_label, ...)
        if not np.isnan(low_limit):
            ax.axhline(y=low_limit, label=low_label, ...)
        ax.axhline(y=np.mean(data), label='Overall mean', ...)
        ep_breaks = np.where([datapoint.new_episode
                              for datapoint in self.data])[0]
        for ep in ep_breaks:
            ax.axvline(x=ep, ...)
        high_means = [data[t] for t in above_outliers]
        plt.scatter(above_outliers, high_means, ...)
        low_means = [data[t] for t in below_outliers]
        plt.scatter(below_outliers, low_means, ...)
        ax.set_xlim(0, len(self.data))
        format_and_save_plot(ax, title, output_img, 'Timesteps', y_label)
    ]] *)
Definition _plot_elements (self : loc) (data : list float)
  (above_outliers below_outliers : list nat) (high_limit low_limit : float)
  (output_img high_label low_label title y_label : string) : M World unit :=
  (o <- get_self self ;;
   let lines :=
     (if negb (isnan high_limit) then [(high_limit, high_label)] else [])
     ++ (if negb (isnan low_limit) then [(low_limit, low_label)] else [])
     ++ [(np_mean data, "Overall mean"%string)] in
   records <- lift (iter_data o) ;;
   let ep_breaks := Numpy.where_ (map new_episode records) in
   high_means <- lift (values_at data above_outliers) ;;
   low_means <- lift (values_at data below_outliers) ;;
   format_and_save_plot
     (Lines {| curve := data;
               curve_label := y_label;
               hlines := lines;
               vlines := ep_breaks;
               above_marks := combine above_outliers high_means;
               below_marks := combine below_outliers low_means;
               x_max := length records |})
     title output_img "Timesteps" y_label None)%py.

(** [self.data[0]] *)
Definition first_record (o : AnalysisBase) : result InteractionDataPoint :=
  match data o with
  | None => Raise TypeError
  | Some records => getitem records 0
  end.

(** [[
    def _plot_action_factor_divs(self, divs, output_img, title, y_label):
        num_factors = divs.shape[0]
        colors = distinct_colors(num_factors)
        ax.bar(np.arange(num_factors), divs, color=colors, ...)
        plt.xticks(np.arange(num_factors), self.data[0].action_factors, ...)
        format_and_save_plot(ax, title, output_img, '', y_label, False)
        plt.close()
    ]] *)
Definition _plot_action_factor_divs (self : loc) (divs : list float)
  (output_img title y_label : string) : M World unit :=
  (o <- get_self self ;;
   let num_factors := length divs in
   let colors := distinct_colors num_factors in
   first <- lift (first_record o) ;;
   lift (plt_xticks (seq 0 num_factors) (action_factors first)) ;;;
   format_and_save_plot
     (Bars {| bars := divs;
              bar_colors := colors;
              tick_labels := action_factors first |})
     title output_img EmptyString y_label (Some false))%py.

End OnePlot.

(** *** Orders and counts used in the statements *)

(** The rows a [scatter] call was given; none when the call was skipped. *)
Definition marked (marks : option (list (nat * float)))
  : list (nat * float) :=
  match marks with
  | Some rows => rows
  | None => []
  end.

(** [marks] are exactly the positions of [ep_data] whose value passes
    [keep], each with its own value and in ascending order, and the
    [scatter] call is skipped exactly when no position passes. *)
Definition marks_exactly (keep : float -> bool) (ep_data : list float)
  (marks : option (list (nat * float))) : Prop :=
  (forall t v,
     In (t, v) (marked marks) <-> ep_data !! t = Some v /\ keep v = true)
  /\ StronglySorted lt (map fst (marked marks))
  /\ (marks = None <-> forall t v, ep_data !! t = Some v -> keep v = false).

(** The outlier marks of a panel against the two limits: above, the
    positions with [series[t] >= high_limit]; below, those with
    [series[t] <= low_limit].  An undefined (NaN) limit marks nothing; a
    value sitting on a limit is marked. *)
Definition outliers_marked (high_limit low_limit : float) (panel : Panel)
  : Prop :=
  marks_exactly (fun v => fge v high_limit) (series panel) (high_marks panel)
  /\ marks_exactly (fun v => fle v low_limit) (series panel)
       (low_marks panel)
  /\ (isnan high_limit = true -> high_marks panel = None)
  /\ (isnan low_limit = true -> low_marks panel = None)
  /\ (forall t,
        isnan high_limit = false ->
        series panel !! t = Some high_limit ->
        In (t, high_limit) (marked (high_marks panel)))
  /\ (forall t,
        isnan low_limit = false ->
        series panel !! t = Some low_limit ->
        In (t, low_limit) (marked (low_marks panel))).

(** The order of the rows of the exported table: by episode, then by local
    timestep. *)
Definition row_lt (p q : Z * Z) : Prop :=
  fst p < fst q \/ (fst p = fst q /\ snd p < snd q).

(** The number of flagged records. *)
Definition flagged (records : list InteractionDataPoint) : nat :=
  length (List.filter new_episode records).

End AnalysisRest.

(** * Properties *)

Import Builtins.

(** ** [str2int] *)

Section Str2Int.
Import Env.

Lemma str2int_nonempty (s : string) :
  s <> EmptyString ->
  str2int s =
    match int_of_str s with
    | Ok n => if n =? 0 then Raise AssertionError else Ok (Some n)
    | Raise e => Raise e
    end.
Proof.
  intros Hs. unfold str2int.
  destruct (String.eqb_spec s EmptyString) as [->|_]; [contradiction|].
  destruct (int_of_str s) as [n|e]; simpl; [|reflexivity].
  unfold truthy. destruct (n =? 0); reflexivity.
Qed.

(** A string that is not a decimal literal makes [int] itself fail: the
    [ValueError] reaches the caller. *)
Lemma str2int_not_a_number (s : string) (e : exn) :
  s <> EmptyString -> int_of_str s = Raise e -> str2int s = Raise e.
Proof. intros Hs He. rewrite str2int_nonempty, He; auto. Qed.

(** C10. [str2int] returns [None] for the empty string; for any other string
    whose parsed integer is zero (the string "0" among them) the assertion
    fails; the parsed integer is returned exactly when it is not zero. *)
Theorem str2int_rejects_zero :
  str2int EmptyString = Ok None
  /\ str2int "0" = Raise AssertionError
  /\ (forall s, s <> EmptyString -> int_of_str s = Ok 0 ->
        str2int s = Raise AssertionError)
  /\ (forall s n, s <> EmptyString -> int_of_str s = Ok n -> n <> 0 ->
        str2int s = Ok (Some n))
  /\ (forall s n, str2int s = Ok (Some n) ->
        s <> EmptyString /\ int_of_str s = Ok n /\ n <> 0).
Proof.
  split; [reflexivity|]. split; [reflexivity|]. split; [|split].
  - intros s Hs H0. rewrite str2int_nonempty, H0; auto.
  - intros s n Hs Hn Hnz. rewrite str2int_nonempty, Hn; auto.
    destruct (Z.eqb_spec n 0); [contradiction|reflexivity].
  - intros s n H.
    assert (Hs : s <> EmptyString) by (intros ->; discriminate H).
    split; [exact Hs|]. rewrite str2int_nonempty in H by exact Hs.
    destruct (int_of_str s) as [m|e]; [|discriminate].
    destruct (Z.eqb_spec m 0); [discriminate|].
    injection H as ->. split; [reflexivity|assumption].
Qed.

Lemma str2int_rejects_zero_witness :
  str2int "000" = Raise AssertionError
  /\ str2int "-12" = Ok (Some (-12)).
Proof.
  destruct str2int_rejects_zero as (_ & _ & Hzero & Hval & _).
  split.
  - apply Hzero; [discriminate|reflexivity].
  - apply Hval; [discriminate|reflexivity|discriminate].
Defined.

End Str2Int.

(** ** [fade_video] *)

Section FadeVideoFacts.
Import Video.

Variable Image : Type.
Variable fade_image : Image -> float -> Image.

(** With neither effect requested the buffer is returned as it is. *)
Lemma fade_video_no_effect (buffer : list Image) (fade_ratio : float) :
  fade_video Image fade_image buffer fade_ratio false false = Ok buffer.
Proof. reflexivity. Qed.

(** The loop appends one frame per turn. *)
Lemma fade_loop_length (total steps fin fout : Z) (frames : list Image) :
  forall t acc out,
    fade_loop Image fade_image total steps fin fout t frames acc = Ok out ->
    length out = (length acc + length frames)%nat.
Proof.
  induction frames as [|frame rest IH]; intros t acc out H; simpl in H.
  - injection H as <-. simpl. lia.
  - destruct (fade_frame Image fade_image total steps fin fout t frame)
      as [frame'|e]; simpl in H; [|discriminate].
    apply IH in H. rewrite H, length_app. simpl. lia.
Qed.

(** Whenever [fade_video] returns, it returns one frame per input frame. *)
Lemma fade_video_length (buffer out : list Image) (fade_ratio : float)
  (fade_in fade_out : bool) :
  fade_video Image fade_image buffer fade_ratio fade_in fade_out = Ok out ->
  length out = length buffer.
Proof.
  unfold fade_video. destruct (negb (fade_in || fade_out)).
  - intros H. injection H as <-. reflexivity.
  - destruct (fmul_int fade_ratio _) as [p|e]; simpl; [|discriminate].
    destruct (int_of_float p) as [steps|e]; simpl; [|discriminate].
    intros H. apply fade_loop_length in H. exact H.
Qed.

(** C9, where the code departs from the claim.  [fade_video] does not return
    a frame list for every configuration: with [fade_in] set and [fade_out]
    cleared, every frame that is not faded in takes the fade-out branch
    ([fade_out_frames] is [total_frames]), and a non-empty buffer short
    enough for [int(fade_ratio * total_frames)] to be zero divides by zero on
    its first frame. *)
Theorem fade_video_zero_steps_raises (frame : Image) (rest : list Image)
  (fade_ratio prod : float) :
  fmul_int fade_ratio (Z.of_nat (length (frame :: rest))) = Ok prod ->
  int_of_float prod = Ok 0 ->
  fade_video Image fade_image (frame :: rest) fade_ratio true false
  = Raise ZeroDivisionError.
Proof.
  intros Hprod Hsteps. unfold fade_video. cbn [negb orb].
  rewrite Hprod. cbn [rbind]. rewrite Hsteps. cbn [rbind fade_loop].
  unfold fade_frame. rewrite Z.ltb_irrefl.
  replace (0 >=? _ - _) with true
    by (symmetry; apply Z.geb_le; lia).
  unfold int_truediv. rewrite Z.eqb_refl. reflexivity.
Qed.

End FadeVideoFacts.

(** One frame, [fade_ratio = 0.5], fade-in only. *)
Lemma fade_video_zero_steps_raises_witness :
  Video.fade_video nat (fun frame _ => frame) [7%nat] Samples.one_half true false
  = Raise ZeroDivisionError.
Proof.
  apply (fade_video_zero_steps_raises nat (fun frame _ => frame) 7%nat []
           Samples.one_half Samples.one_half); reflexivity.
Defined.

(** ** Outlier markers *)

Section Outliers.
Import Analysis.

Lemma rows_where_fst (keep : float -> bool) (ep_data : list float) :
  map fst (rows_where keep ep_data)
  = List.filter (at_index keep ep_data) (seq 0 (length ep_data)).
Proof.
  unfold rows_where. generalize (seq 0 (length ep_data)) as ts.
  induction ts as [|t ts IH]; [reflexivity|].
  cbn [flat_map List.filter]. rewrite map_app, IH. unfold at_index at 2.
  destruct (ep_data !! t) as [v|]; [|reflexivity].
  destruct (keep v); reflexivity.
Qed.

Lemma rows_where_values (keep : float -> bool) (ep_data : list float) :
  forall t v, In (t, v) (rows_where keep ep_data) ->
    ep_data !! t = Some v /\ keep v = true.
Proof.
  intros t v. unfold rows_where. rewrite in_flat_map.
  intros (t' & _ & H). destruct (ep_data !! t') as [v'|] eqn:E; [|contradiction].
  destruct (keep v') eqn:K; [|contradiction].
  destruct H as [H|[]]. injection H as -> ->. auto.
Qed.

Lemma rows_where_index_iff (keep : float -> bool) (ep_data : list float) t :
  In t (map fst (rows_where keep ep_data))
  <-> exists v, ep_data !! t = Some v /\ keep v = true.
Proof.
  rewrite rows_where_fst, filter_In, in_seq. unfold at_index. split.
  - intros [_ H]. destruct (ep_data !! t) as [v|]; [eauto|discriminate].
  - intros (v & Hv & Hk). rewrite Hv. split; [|exact Hk].
    apply lookup_lt_Some in Hv. lia.
Qed.

Lemma rows_where_never (keep : float -> bool) (ep_data : list float) :
  (forall v, keep v = false) -> rows_where keep ep_data = [].
Proof.
  intros Hk. unfold rows_where. generalize (seq 0 (length ep_data)) as ts.
  induction ts as [|t ts IH]; [reflexivity|].
  cbn [flat_map]. rewrite IH. destruct (ep_data !! t) as [v|]; [|reflexivity].
  rewrite Hk. reflexivity.
Qed.

Lemma filter_seq_ascending (p : nat -> bool) (n : nat) :
  forall start, StronglySorted lt (List.filter p (seq start n)).
Proof.
  induction n as [|n IH]; intros start; [constructor|].
  cbn [seq List.filter]. destruct (p start); [|apply IH].
  constructor; [apply IH|].
  apply List.Forall_forall. intros t Ht. apply filter_In in Ht as [Ht _].
  apply in_seq in Ht. lia.
Qed.

(** The scatter call is guarded by the shape test, so it never indexes a
    one-dimensional array. *)
Lemma scatter_where_ok (keep : float -> bool) (ep_data : list float) :
  scatter_where keep ep_data
  = Ok (match rows_where keep ep_data with
        | [] => None
        | rows => Some rows
        end).
Proof.
  unfold scatter_where, two_columns.
  destruct (rows_where keep ep_data); reflexivity.
Qed.

(** Nothing compares with NaN. *)
Lemma fge_nan (v : float) : fge v S754_nan = false.
Proof. destruct v; reflexivity. Qed.

Lemma fle_nan (v : float) : fle v S754_nan = false.
Proof. unfold fle, SFleb, SFcompare. destruct v; reflexivity. Qed.

(** A float that is not NaN compares equal to itself, so a value sitting on
    a limit is marked. *)
Lemma fge_refl (v : float) : isnan v = false -> fge v v = true.
Proof.
  unfold fge, SFleb, SFcompare. destruct v as [s|s| |s m e]; intros H;
    try reflexivity; try discriminate.
  - destruct s; reflexivity.
  - rewrite Z.compare_refl.
    change (PosDef.Pos.compare_cont Eq m m) with (Pos.compare m m).
    rewrite Pos.compare_refl. destruct s; reflexivity.
Qed.

Lemma fle_refl (v : float) : isnan v = false -> fle v v = true.
Proof. apply fge_refl. Qed.

End Outliers.

(** ** The analysis object: [save] and [_get_mp_pool] *)

Section Objects.
Import Analysis.

(** An object with its [data] attribute set to [d]. *)
Lemma set_data_run (w : World) (self : loc) (o : AnalysisBase)
  (d : option (list InteractionDataPoint)) :
  objects w !! self = Some o ->
  set_data self d w
  = (Ok tt,
     with_objects w
       (<[self := {| data := d; config := config o; img_fmt := img_fmt o |}]>
          (objects w))).
Proof. intros H. unfold set_data, bind, get_self, modify. rewrite H. reflexivity. Qed.

(** X11: On the path where nothing fails, the archive holds the object without
    its data and the data are back in place afterwards. *)
Lemma save_restores_on_success (w : World) (self : loc) (o : AnalysisBase)
  (file_path : string) :
  objects w !! self = Some o ->
  can_open (host w) file_path = true ->
  picklable (host w) (detached o) = true ->
  save self file_path w
  = (Ok tt,
     with_effects w
       (effects w ++ [GzipOpen file_path;
                      PickleDump file_path (detached o)
                        (configs w !! config o)])).
Proof.
  intros Hself Hopen Hpickle. unfold save, bind at 1, get_self at 1.
  rewrite Hself. unfold bind at 1. rewrite (set_data_run w self o None Hself).
  fold (detached o). set (w1 := with_objects w _).
  unfold bind at 1, gzip_open_wb, bind at 1, gets at 1. cbn [host w1 with_objects].
  rewrite Hopen. unfold bind at 1, emit, modify, ret.
  set (w2 := with_effects w1 _).
  unfold bind at 1, pickle_dump, bind at 1, get_self.
  assert (H2 : objects w2 !! self = Some (detached o)) by apply lookup_insert_eq.
  rewrite H2. unfold bind at 1, gets at 1. cbn [host w2 w1 with_effects with_objects].
  rewrite Hpickle. unfold bind at 1, gets at 1.
  unfold emit, modify. set (w3 := with_effects w2 _).
  rewrite (set_data_run w3 self (detached o) (data o) H2).
  f_equal. unfold with_objects, with_effects, w3, w2, w1; cbn.
  rewrite insert_insert_eq. destruct o as [d c f]; cbn.
  rewrite insert_id by exact Hself.
  rewrite <- app_assoc. destruct w; reflexivity.
Qed.

(** C1, where the code departs from the claim.  [save] sets the data aside
    before encoding, but puts them back only after the encoding has
    returned: when the archive cannot be opened, or the object cannot be
    pickled, the error leaves [save] with the data attribute still [None]. *)
Theorem save_failure_leaves_data_detached (w : World) (self : loc)
  (o : AnalysisBase) (file_path : string) :
  objects w !! self = Some o ->
  can_open (host w) file_path = false
  \/ picklable (host w) (detached o) = false ->
  exists e w',
    save self file_path w = (Raise e, w')
    /\ objects w' !! self = Some (detached o).
Proof.
  intros Hself Hfail. unfold save, bind at 1, get_self at 1.
  rewrite Hself. unfold bind at 1. rewrite (set_data_run w self o None Hself).
  fold (detached o). set (w1 := with_objects w _).
  assert (H1 : objects w1 !! self = Some (detached o)) by apply lookup_insert_eq.
  unfold bind at 1, gzip_open_wb, bind at 1, gets at 1. cbn [host w1 with_objects].
  destruct (can_open (host w) file_path) eqn:Hopen.
  - destruct Hfail as [Hfail|Hpickle]; [discriminate|].
    unfold bind at 1, emit, modify, ret. set (w2 := with_effects w1 _).
    unfold bind at 1, pickle_dump, bind at 1, get_self.
    assert (H2 : objects w2 !! self = Some (detached o)) by exact H1.
    rewrite H2. unfold bind at 1, gets at 1.
    cbn [host w2 w1 with_effects with_objects].
    rewrite Hpickle. unfold bind at 1, gets at 1, raise.
    exists PicklingError, w2. split; [reflexivity|exact H2].
  - unfold raise. exists OSError, w1. split; [reflexivity|exact H1].
Qed.

(** The first analysis of [world2] holds three records; saving it to a path
    that cannot be opened leaves it with none. *)
Lemma save_failure_leaves_data_detached_witness :
  (data <$> objects Samples.world2 !! 1%nat)
    = Some (Some [Samples.rec true; Samples.rec false; Samples.rec true])
  /\ exists e w',
       save 1%nat "/missing/analysis.pkl.gz" Samples.world2 = (Raise e, w')
       /\ (data <$> objects w' !! 1%nat) = Some None.
Proof.
  split; [reflexivity|].
  destruct (save_failure_leaves_data_detached Samples.world2 1%nat
              {| data := Some [Samples.rec true; Samples.rec false;
                               Samples.rec true];
                 config := 0%nat; img_fmt := "pdf" |}
              "/missing/analysis.pkl.gz")
    as (e & w' & Hrun & Hobj).
  - reflexivity.
  - left. reflexivity.
  - exists e, w'. split; [exact Hrun|].
    exact (f_equal (fmap data) Hobj).
Defined.

(** What [_get_mp_pool] does on a host that reports [n] cores: the stored
    count is overwritten with [-1] before it is read, so the test
    [num_processes > 1] fails and the pool is built with [None]. *)
Lemma get_mp_pool_run (w : World) (self : loc) (o : AnalysisBase)
  (cfg : AnalysisConfiguration) (n : Z) :
  objects w !! self = Some o ->
  configs w !! config o = Some cfg ->
  os_cpu_count (host w) = Some n ->
  1 <= n ->
  _get_mp_pool self w
  = (Ok {| processes := n |},
     {| host := host w;
        configs := <[config o := {| num_processes := -1 |}]> (configs w);
        objects := objects w;
        effects := (effects w ++ [NewPool n])
                   ++ [LogInfo "Set number of processes to {}" [FInt n]] |}).
Proof.
  intros Hself Hcfg Hcpu Hn.
  unfold _get_mp_pool, bind at 1, get_self. rewrite Hself.
  unfold bind at 1, set_num_processes. rewrite Hcfg.
  set (w1 := with_configs w _).
  assert (H1 : configs w1 !! config o = Some {| num_processes := -1 |})
    by apply lookup_insert_eq.
  unfold bind at 1, get_num_processes at 1. rewrite H1. cbn [num_processes].
  change (-1 >? 1) with false. cbv iota.
  unfold bind at 1, mp_Pool, bind at 1, bind at 1, gets at 1.
  cbn [host w1 with_configs]. rewrite Hcpu. unfold ret at 1.
  assert (Ht : truthy n = true).
  { unfold truthy. destruct (Z.eqb_spec n 0); [lia|reflexivity]. }
  rewrite Ht. destruct (Z.ltb_spec n 1) as [?|_]; [lia|].
  unfold bind at 1, emit, modify, ret at 1.
  set (w2 := with_effects w1 _).
  unfold bind at 1, get_num_processes.
  assert (H2 : configs w2 !! config o = Some {| num_processes := -1 |})
    by exact H1.
  rewrite H2. cbn [num_processes]. change (-1 >? 1) with false. cbv iota.
  unfold bind at 1, mp_cpu_count, bind at 1, gets.
  cbn [host w2 w1 with_effects with_configs]. rewrite Hcpu.
  unfold ret at 1, bind at 1, ret. reflexivity.
Qed.

(** C2, where the code departs from the claim.  The worker count stored in
    the configuration does not size the pool: whatever count is configured
    (four, say), the pool has as many workers as the host reports cores. *)
Theorem get_mp_pool_ignores_configured_count (w : World) (self : loc)
  (o : AnalysisBase) (cfg : AnalysisConfiguration) (n : Z) :
  objects w !! self = Some o ->
  configs w !! config o = Some cfg ->
  os_cpu_count (host w) = Some n ->
  1 <= n ->
  fst (_get_mp_pool self w) = Ok {| processes := n |}.
Proof.
  intros Hself Hcfg Hcpu Hn.
  rewrite (get_mp_pool_run w self o cfg n) by assumption. reflexivity.
Qed.

(** Four processes configured, eight cores: eight workers. *)
Lemma get_mp_pool_ignores_configured_count_witness :
  (num_processes <$> configs Samples.world2 !! 0%nat) = Some 4
  /\ fst (_get_mp_pool 1%nat Samples.world2) = Ok {| processes := 8 |}.
Proof.
  split; [reflexivity|].
  apply (get_mp_pool_ignores_configured_count Samples.world2 1%nat
           {| data := Some [Samples.rec true; Samples.rec false;
                            Samples.rec true];
              config := 0%nat; img_fmt := "pdf" |}
           {| num_processes := 4 |} 8);
    [reflexivity | reflexivity | reflexivity | lia].
Defined.

(** C3, where the code departs from the claim.  Creating the pool writes
    [-1] into the worker-count field of the configuration object, and an
    analysis built from the same configuration reads [-1] from then on. *)
Theorem get_mp_pool_overwrites_shared_config (w : World) (self sibling : loc)
  (o o' : AnalysisBase) (cfg : AnalysisConfiguration) (n : Z) :
  objects w !! self = Some o ->
  objects w !! sibling = Some o' ->
  config o' = config o ->
  configs w !! config o = Some cfg ->
  os_cpu_count (host w) = Some n ->
  1 <= n ->
  let w' := snd (_get_mp_pool self w) in
  objects w' !! sibling = Some o'
  /\ configs w' !! config o' = Some {| num_processes := -1 |}
  /\ fst (get_num_processes (config o') w') = Ok (-1).
Proof.
  intros Hself Hsib Hshared Hcfg Hcpu Hn.
  rewrite (get_mp_pool_run w self o cfg n) by assumption.
  cbn [snd configs objects]. rewrite Hshared.
  split; [exact Hsib|].
  assert (H : <[config o := {| num_processes := -1 |}]> (configs w)
              !! config o = Some {| num_processes := -1 |})
    by apply lookup_insert_eq.
  split; [exact H|].
  unfold get_num_processes. cbn [configs]. rewrite H. reflexivity.
Qed.

(** In [world2] the configuration asks for four processes; after the first
    analysis has created its pool, the second one finds [-1]. *)
Lemma get_mp_pool_overwrites_shared_config_witness :
  fst (get_num_processes 0%nat Samples.world2) = Ok 4
  /\ fst (get_num_processes 0%nat (snd (_get_mp_pool 1%nat Samples.world2)))
     = Ok (-1).
Proof.
  split; [reflexivity|].
  pose (o := {| data := Some [Samples.rec true; Samples.rec false;
                              Samples.rec true];
                config := 0%nat; img_fmt := "pdf" |}).
  destruct (get_mp_pool_overwrites_shared_config Samples.world2 1%nat 2%nat
              o o {| num_processes := 4 |} 8) as (_ & _ & H);
    [reflexivity | reflexivity | reflexivity | reflexivity | reflexivity
    | lia | exact H].
Defined.

End Objects.

(** ** Tabular export *)

Section TabularExport.
Import Analysis.

Lemma index_from_length (records : list InteractionDataPoint) :
  forall ep ep_t, length (index_from ep ep_t records) = length records.
Proof.
  induction records as [|d r IH]; intros ep ep_t; [reflexivity|].
  cbn [index_from]. destruct (new_episode d || (ep =? -1)); cbn; rewrite IH;
    reflexivity.
Qed.

(** The first record opens episode 0 at local timestep 0, flagged or not. *)
Lemma index_from_first (d : InteractionDataPoint)
  (rest : list InteractionDataPoint) :
  index_from (-1) 0 (d :: rest) !! 0%nat = Some (0, 0).
Proof. cbn [index_from]. rewrite orb_true_r. reflexivity. Qed.

Lemma index_from_head_nonneg (ep ep_t : Z) (d : InteractionDataPoint) :
  -1 <= ep ->
  0 <= fst (if new_episode d || (ep =? -1) then (ep + 1, 0) else (ep, ep_t)).
Proof.
  intros H. destruct (new_episode d); cbn; [lia|].
  destruct (Z.eqb_spec ep (-1)); cbn; lia.
Qed.

(** From one row to the next: a flagged record opens the next episode at
    local timestep 0, any other record continues the current one. *)
Lemma index_from_step (records : list InteractionDataPoint) :
  forall ep ep_t i d e t,
    -1 <= ep ->
    records !! S i = Some d ->
    index_from ep ep_t records !! i = Some (e, t) ->
    index_from ep ep_t records !! S i
    = Some (if new_episode d then (e + 1, 0) else (e, t + 1)).
Proof.
  induction records as [|d0 r IH]; intros ep ep_t i d e t Hep Hd Hi;
    [discriminate|].
  cbn [index_from] in *.
  pose proof (index_from_head_nonneg ep ep_t d0 Hep) as Hnn.
  destruct (if new_episode d0 || (ep =? -1) then (ep + 1, 0) else (ep, ep_t))
    as [e0 t0]. cbn [fst] in Hnn.
  destruct i as [|i].
  - injection Hi as -> ->. destruct r as [|d1 r]; [discriminate|].
    injection Hd as ->. cbn [index_from].
    change (((e, t) :: ?l) !! 1%nat) with (l !! 0%nat).
    destruct (Z.eqb_spec e (-1)); [lia|]. rewrite orb_false_r.
    destruct (new_episode d); reflexivity.
  - change (((e0, t0) :: ?l) !! S (S i)) with (l !! S i).
    apply (IH e0 (t0 + 1) i d e t); [lia|exact Hd|exact Hi].
Qed.

(** The loop, started anywhere in a table with the three expected columns. *)
Lemma csv_loop_run (element_data : list float) (dimension : string) :
  dimension <> EPISODE_STR ->
  dimension <> TIME_STEP_STR ->
  forall records k ep ep_t a b c,
    (k + length records <= length element_data)%nat ->
    exists ep' ep_t',
      csv_loop element_data dimension
        {| ep := ep; ep_t := ep_t;
           tbl := [(EPISODE_STR, a); (TIME_STEP_STR, b); (dimension, c)] |}
        (combine (seq k (length records)) records)
      = Ok {| ep := ep'; ep_t := ep_t';
              tbl := [(EPISODE_STR,
                       a ++ map (fun p => CInt (fst p))
                              (index_from ep ep_t records));
                      (TIME_STEP_STR,
                       b ++ map (fun p => CInt (snd p))
                              (index_from ep ep_t records));
                      (dimension,
                       c ++ map CFloat
                              (slice element_data k (k + length records)))] |}.
Proof.
  intros HdE HdT.
  assert (E1 : String.eqb EPISODE_STR dimension = false)
    by (apply String.eqb_neq; congruence).
  assert (E2 : String.eqb TIME_STEP_STR dimension = false)
    by (apply String.eqb_neq; congruence).
  induction records as [|d r IH]; intros k ep ep_t a b c Hlen.
  - exists ep, ep_t. cbn. unfold slice.
    replace (k + 0 - k)%nat with 0%nat by lia. cbn. rewrite !app_nil_r.
    reflexivity.
  - cbn [length seq combine csv_loop index_from] in *.
    unfold csv_body. cbn [Analysis.ep Analysis.ep_t Analysis.tbl].
    destruct (if new_episode d || (ep =? -1) then (ep + 1, 0) else (ep, ep_t))
      as [e0 t0].
    cbn [od_append rbind]. rewrite String.eqb_refl. cbn [rbind od_append].
    change (String.eqb EPISODE_STR TIME_STEP_STR) with false. cbv iota.
    rewrite String.eqb_refl. cbn [rbind].
    destruct (lookup_lt_is_Some_2 element_data k ltac:(lia)) as [x Hx].
    unfold getitem. rewrite Hx. cbn [rbind od_append].
    rewrite E1. cbn [od_append]. rewrite E2. cbn [od_append].
    rewrite String.eqb_refl. cbn [rbind].
    destruct (IH (S k) e0 (t0 + 1) (a ++ [CInt e0]) (b ++ [CInt t0])
                (c ++ [CFloat x]) ltac:(lia)) as (ep' & ep_t' & Hrun).
    exists ep', ep_t'. rewrite Hrun. cbn [map fst snd].
    rewrite <- !app_assoc. cbn [app]. repeat f_equal.
    unfold slice.
    replace (k + S (length r) - k)%nat with (S (length r)) by lia.
    replace (S k + length r - S k)%nat with (length r) by lia.
    rewrite (drop_S _ _ _ Hx). reflexivity.
Qed.

(** The whole export, for a value column named apart from the two index
    columns. *)
Lemma save_time_dataset_csv_run (w : World) (self : loc) (o : AnalysisBase)
  (records : list InteractionDataPoint) (element_data : list float)
  (dimension file_name : string) :
  objects w !! self = Some o ->
  data o = Some records ->
  length element_data = length records ->
  dimension <> EPISODE_STR ->
  dimension <> TIME_STEP_STR ->
  can_open (host w) file_name = true ->
  _save_time_dataset_csv self element_data dimension file_name w
  = (Ok tt,
     with_effects w
       ((effects w
         ++ [ToCsv file_name
               {| columns :=
                    [(EPISODE_STR,
                      map (fun p => CInt (fst p)) (index_from (-1) 0 records));
                     (TIME_STEP_STR,
                      map (fun p => CInt (snd p)) (index_from (-1) 0 records));
                     (dimension, map CFloat element_data)];
                  nrows := length records |}])
        ++ [LogInfo CSV_SAVED_MSG [FStr dimension; FStr file_name]])).
Proof.
  intros Hself Hdata Hlen HdE HdT Hopen.
  assert (E1 : String.eqb EPISODE_STR dimension = false)
    by (apply String.eqb_neq; congruence).
  assert (E2 : String.eqb TIME_STEP_STR dimension = false)
    by (apply String.eqb_neq; congruence).
  unfold _save_time_dataset_csv, bind at 1, get_self. rewrite Hself.
  unfold bind at 1, lift at 1, iter_data. rewrite Hdata.
  cbn [od_set]. change (String.eqb EPISODE_STR TIME_STEP_STR) with false.
  cbv iota. cbn [od_set]. rewrite E1. cbn [od_set]. rewrite E2. cbn [od_set].
  destruct (csv_loop_run element_data dimension HdE HdT records 0%nat (-1) 0
              [] [] [] ltac:(lia)) as (ep' & ep_t' & Hrun).
  unfold bind at 1, lift at 1, enumerate. rewrite Hrun.
  cbn [Analysis.tbl app]. unfold slice.
  replace (0 + length records - 0)%nat with (length records) by lia.
  rewrite drop_0, <- Hlen, firstn_all.
  unfold bind at 1, lift at 1, from_dict. cbn [forallb snd].
  rewrite !length_map, index_from_length, Hlen, Nat.eqb_refl. cbn [andb].
  unfold bind at 1, to_csv, bind at 1, gets. rewrite Hopen.
  unfold emit, modify. reflexivity.
Qed.

(** C7. For [n] records and a derived series of [n] values, the exported
    table has [n] rows; its value column is the series; the first row is
    episode 0, local timestep 0, whether or not the first record is flagged;
    at each later record the episode index grows by one and the local
    timestep restarts at 0 if the record is flagged, and otherwise the
    episode index stays and the local timestep grows by one.  (The value
    column is named apart from the two index columns, and the file can be
    written.) *)
Theorem save_time_dataset_csv_follows_convention (w : World) (self : loc)
  (o : AnalysisBase) (records : list InteractionDataPoint)
  (element_data : list float) (dimension file_name : string) :
  objects w !! self = Some o ->
  data o = Some records ->
  length element_data = length records ->
  dimension <> EPISODE_STR ->
  dimension <> TIME_STEP_STR ->
  can_open (host w) file_name = true ->
  exists (df : DataFrame) (rows : list (Z * Z)),
    _save_time_dataset_csv self element_data dimension file_name w
    = (Ok tt,
       with_effects w
         ((effects w ++ [ToCsv file_name df])
          ++ [LogInfo CSV_SAVED_MSG [FStr dimension; FStr file_name]]))
    /\ nrows df = length records
    /\ columns df
       = [(EPISODE_STR, map (fun p => CInt (fst p)) rows);
          (TIME_STEP_STR, map (fun p => CInt (snd p)) rows);
          (dimension, map CFloat element_data)]
    /\ length rows = length records
    /\ (records <> [] -> rows !! 0%nat = Some (0, 0))
    /\ (forall i d e t,
          records !! S i = Some d ->
          rows !! i = Some (e, t) ->
          rows !! S i
          = Some (if new_episode d then (e + 1, 0) else (e, t + 1))).
Proof.
  intros Hself Hdata Hlen HdE HdT Hopen.
  exists {| columns :=
              [(EPISODE_STR,
                map (fun p => CInt (fst p)) (index_from (-1) 0 records));
               (TIME_STEP_STR,
                map (fun p => CInt (snd p)) (index_from (-1) 0 records));
               (dimension, map CFloat element_data)];
            nrows := length records |}, (index_from (-1) 0 records).
  split; [apply (save_time_dataset_csv_run w self o); assumption|].
  split; [reflexivity|]. split; [reflexivity|].
  split; [apply index_from_length|]. split.
  - destruct records as [|d r]; [congruence|]. intros _.
    apply index_from_first.
  - intros i d e t Hd Hi. apply (index_from_step records (-1) 0); [lia| |];
      assumption.
Qed.

(** Four records, the first one not flagged. *)
Lemma save_time_dataset_csv_follows_convention_witness :
  exists (df : DataFrame) (rows : list (Z * Z)),
    fst (_save_time_dataset_csv 3%nat
           [Samples.f1; Samples.f2; Samples.f3; Samples.f1]
           "Value" "/data/value.csv" Samples.world3) = Ok tt
    /\ nrows df = 4%nat
    /\ length rows = 4%nat
    /\ rows !! 0%nat = Some (0, 0).
Proof.
  destruct (save_time_dataset_csv_follows_convention Samples.world3 3%nat
              {| data := Some [Samples.rec false; Samples.rec true;
                               Samples.rec false; Samples.rec false];
                 config := 0%nat; img_fmt := "pdf" |}
              [Samples.rec false; Samples.rec true;
               Samples.rec false; Samples.rec false]
              [Samples.f1; Samples.f2; Samples.f3; Samples.f1]
              "Value" "/data/value.csv")
    as (df & rows & Hrun & Hn & _ & Hlen & Hfirst & _);
    [reflexivity | reflexivity | reflexivity | discriminate | discriminate
    | reflexivity |].
  exists df, rows. rewrite Hrun.
  split; [reflexivity|]. split; [exact Hn|]. split; [exact Hlen|].
  apply Hfirst. discriminate.
Defined.

(** The rows written for those four records. *)
Example index_from_unflagged_start :
  index_from (-1) 0
    [Samples.rec false; Samples.rec true; Samples.rec false; Samples.rec false]
  = [(0, 0); (1, 0); (1, 1); (1, 2)].
Proof. reflexivity. Qed.

(** ** The empty record sequence *)

(** The dictionary literal of the export: three empty columns at most. *)
Lemma from_dict_empty_columns (dimension : string) :
  exists df,
    from_dict
      (od_set dimension []
         (od_set TIME_STEP_STR [] (od_set EPISODE_STR [] [])))
    = Ok df
    /\ nrows df = 0%nat.
Proof.
  cbn [od_set]. change (String.eqb EPISODE_STR TIME_STEP_STR) with false.
  cbv iota. cbn [od_set].
  destruct (String.eqb EPISODE_STR dimension); cbn [od_set];
    [eexists; split; reflexivity|].
  destruct (String.eqb TIME_STEP_STR dimension); cbn [od_set];
    eexists; split; reflexivity.
Qed.

(** The constructor checks nothing about the sequence it is given. *)
Lemma init_run (w : World) (self : loc)
  (records : list InteractionDataPoint) (analysis_config : loc)
  (img_fmt : string) :
  __init__ self records analysis_config img_fmt w
  = (Ok tt,
     with_objects w
       (<[self := {| data := Some records; config := analysis_config;
                     img_fmt := img_fmt |}]> (objects w))).
Proof. reflexivity. Qed.

Lemma export_of_empty_sequence_run (w : World) (self analysis_config : loc)
  (img_fmt : string) (element_data : list float)
  (dimension file_name : string) :
  can_open (host w) file_name = true ->
  exists (df : DataFrame) (w' : World),
    bind (__init__ self [] analysis_config img_fmt)
      (fun _ => _save_time_dataset_csv self element_data dimension file_name)
      w
    = (Ok tt, w')
    /\ nrows df = 0%nat
    /\ objects w' !! self
       = Some {| data := Some []; config := analysis_config;
                 img_fmt := img_fmt |}
    /\ effects w'
       = (effects w ++ [ToCsv file_name df])
         ++ [LogInfo CSV_SAVED_MSG [FStr dimension; FStr file_name]].
Proof.
  intros Hopen.
  destruct (from_dict_empty_columns dimension) as (df & Hdf & Hn).
  exists df. eexists. unfold bind at 1. rewrite init_run.
  set (w1 := with_objects w _).
  assert (H1 : objects w1 !! self
               = Some {| data := Some []; config := analysis_config;
                         img_fmt := img_fmt |}) by apply lookup_insert_eq.
  unfold _save_time_dataset_csv, bind at 1, get_self. rewrite H1.
  unfold bind at 1, lift at 1, iter_data. cbn [data].
  unfold bind at 1, lift at 1. cbn [enumerate length seq combine csv_loop].
  cbn [Analysis.tbl]. unfold bind at 1, lift at 1. rewrite Hdf.
  unfold bind at 1, to_csv, bind at 1, gets. cbn [host w1 with_objects].
  rewrite Hopen. unfold emit, modify.
  split; [reflexivity|]. split; [exact Hn|]. split; [exact H1|reflexivity].
Qed.

(** C8, as the code has it: for the empty record sequence the analysis is
    constructed without any check, and the tabular export then goes through,
    writing a table with no rows. *)
Theorem empty_sequence_is_accepted_and_exported (w : World)
  (self analysis_config : loc) (img_fmt : string)
  (element_data : list float) (dimension file_name : string) :
  can_open (host w) file_name = true ->
  exists (df : DataFrame) (w' : World),
    bind (__init__ self [] analysis_config img_fmt)
      (fun _ => _save_time_dataset_csv self element_data dimension file_name)
      w
    = (Ok tt, w')
    /\ nrows df = 0%nat
    /\ In (ToCsv file_name df) (effects w').
Proof.
  intros Hopen.
  destruct (export_of_empty_sequence_run w self analysis_config img_fmt
              element_data dimension file_name Hopen)
    as (df & w' & Hrun & Hn & _ & Heff).
  exists df, w'. split; [exact Hrun|]. split; [exact Hn|].
  rewrite Heff, !in_app_iff. left. right. left. reflexivity.
Qed.

Lemma empty_sequence_is_accepted_and_exported_witness :
  exists (df : DataFrame) (w' : World),
    Samples.export_nothing Samples.world0 = (Ok tt, w')
    /\ nrows df = 0%nat
    /\ In (ToCsv "/data/value.csv" df) (effects w').
Proof.
  apply (empty_sequence_is_accepted_and_exported Samples.world0 1%nat 0%nat
           "pdf" [] "Value" "/data/value.csv").
  reflexivity.
Defined.

(** The claim as it is worded fails on that input: the run neither stops
    with an error nor leaves the outside world untouched. *)
Lemma empty_sequence_not_rejected :
  ~ fails_without_effect Samples.export_nothing Samples.world0.
Proof.
  intros (e & w' & Hrun & _).
  destruct (export_of_empty_sequence_run Samples.world0 1%nat 0%nat "pdf" []
              "Value" "/data/value.csv" eq_refl) as (df & w'' & Hok & _).
  unfold Samples.export_nothing in Hrun. rewrite Hok in Hrun. discriminate.
Qed.

End TabularExport.

(** ** Multi-panel plots: episode boundaries and batches *)

Section Panels.
Import Analysis.

Variable np_mean : list float -> float.

Lemma where_from_ge (flags : list bool) :
  forall i t, In t (Numpy.where_from i flags) -> (i <= t)%nat.
Proof.
  induction flags as [|b r IH]; intros i t Ht; [contradiction|].
  cbn [Numpy.where_from] in Ht. destruct b.
  - destruct Ht as [<-|Ht]; [lia|]. apply IH in Ht. lia.
  - apply IH in Ht. lia.
Qed.

Lemma where_from_all_false (flags : list bool) :
  List.Forall (fun b => b = false) flags ->
  forall i, Numpy.where_from i flags = [].
Proof.
  induction 1 as [|b r Hb _ IH]; intros i; [reflexivity|].
  cbn [Numpy.where_from]. rewrite Hb. apply IH.
Qed.

Lemma remove_absent (x : nat) (l : list nat) :
  ~ In x l -> PyList.remove x l = Raise ValueError.
Proof.
  induction l as [|y r IH]; intros Hx; [reflexivity|].
  cbn [PyList.remove]. destruct (Nat.eqb_spec y x) as [->|_].
  - exfalso. apply Hx. left. reflexivity.
  - rewrite IH; [reflexivity|]. intros H. apply Hx. right. exact H.
Qed.

(** C4, where the code departs from the claim.  The tabular export treats an
    unflagged first record as the start of episode 0, but the multi-panel
    splitting does not: it drops position 0 from the list of flagged
    positions, and when the first record is not flagged there is no such
    entry, so that [remove] raises before anything is drawn. *)
Theorem plot_elements_sp_needs_flagged_first_record (w : World) (self : loc)
  (o : AnalysisBase) (d : InteractionDataPoint)
  (rest : list InteractionDataPoint) (series : list float)
  (high_limit low_limit : float)
  (output_img high_label low_label title y_label : string)
  (eps_per_plot : Z) :
  objects w !! self = Some o ->
  data o = Some (d :: rest) ->
  new_episode d = false ->
  _plot_elements_sp np_mean self series high_limit low_limit output_img
    high_label low_label title y_label eps_per_plot w
  = (Raise ValueError, w).
Proof.
  intros Hself Hdata Hflag.
  unfold _plot_elements_sp, bind at 1, get_self. rewrite Hself.
  unfold bind at 1, lift at 1, iter_data. rewrite Hdata.
  unfold bind at 1, lift at 1, Numpy.where_. cbn [map Numpy.where_from].
  rewrite Hflag. rewrite remove_absent; [reflexivity|].
  intros H. apply where_from_ge in H. lia.
Qed.

(** *** Batches of episodes *)

Section Batches.

Variable eps_data : list (list float).
Variable b : Z.
Hypothesis b_pos : 0 < b.

Local Abbreviation E := (Z.of_nat (length eps_data)).

Lemma arange_from_unfold (fuel : nat) (cur stop : Z) :
  Numpy.arange_from (S fuel) cur stop b
  = if cur <? stop then cur :: Numpy.arange_from fuel (cur + b) stop b else [].
Proof.
  cbn [Numpy.arange_from]. destruct (Z.ltb_spec 0 b); [reflexivity|lia].
Qed.

(** [np.arange(cur, stop, b)] has [ceil((stop - cur) / b)] entries. *)
Lemma arange_from_length (fuel : nat) :
  forall cur stop,
    stop - cur <= Z.of_nat fuel ->
    length (Numpy.arange_from fuel cur stop b)
    = Z.to_nat ((stop - cur + b - 1) / b).
Proof.
  induction fuel as [|fuel IH]; intros cur stop Hfuel.
  - cbn [Numpy.arange_from length].
    assert ((stop - cur + b - 1) / b <= 0); [|lia].
    apply Z.lt_succ_r. apply Z.div_lt_upper_bound; lia.
  - rewrite arange_from_unfold. destruct (Z.ltb_spec cur stop) as [Hlt|Hge].
    + cbn [length]. rewrite IH by lia.
      replace (stop - cur + b - 1) with ((stop - (cur + b) + b - 1) + 1 * b)
        by lia.
      rewrite Z.div_add by lia.
      assert (0 <= (stop - (cur + b) + b - 1) / b)
        by (apply Z.div_pos; lia).
      lia.
    + cbn [length].
      assert ((stop - cur + b - 1) / b <= 0); [|lia].
      apply Z.lt_succ_r. apply Z.div_lt_upper_bound; lia.
Qed.

(** Its entries are the multiples of [b] below [stop], counted from [cur]. *)
Lemma arange_from_members (fuel : nat) :
  forall cur stop i,
    In i (Numpy.arange_from fuel cur stop b) ->
    cur <= i < stop /\ (i - cur) mod b = 0.
Proof.
  induction fuel as [|fuel IH]; intros cur stop i Hi; [contradiction|].
  rewrite arange_from_unfold in Hi.
  destruct (Z.ltb_spec cur stop) as [Hlt|Hge]; [|contradiction].
  destruct Hi as [<-|Hi].
  - rewrite Z.sub_diag. split; [lia|reflexivity].
  - apply IH in Hi as [Hr Hm]. split; [lia|].
    replace (i - cur) with ((i - (cur + b)) + 1 * b) by lia.
    rewrite Z.mod_add by lia. exact Hm.
Qed.

Lemma batch_at_eq (i : Z) :
  0 <= i ->
  batch_at eps_data b i
  = firstn (Z.to_nat b) (skipn (Z.to_nat i) eps_data).
Proof.
  intros Hi. unfold batch_at, slice.
  destruct (Z.le_gt_cases (i + b) E) as [Hle|Hgt].
  - rewrite Z.min_l by lia. f_equal. lia.
  - rewrite Z.min_r by lia.
    rewrite !List.firstn_all2; [reflexivity| |];
      rewrite List.length_skipn; lia.
Qed.

Lemma batch_at_length (i : Z) :
  0 <= i <= E ->
  Z.of_nat (length (batch_at eps_data b i)) = Z.min b (E - i).
Proof.
  intros Hi. rewrite batch_at_eq by lia.
  rewrite List.length_firstn, List.length_skipn. lia.
Qed.

(** Laid end to end, the batches are the episodes, each one once and in
    order. *)
Lemma batches_concat_from (fuel : nat) :
  forall cur,
    0 <= cur ->
    E - cur <= Z.of_nat fuel ->
    concat (map (batch_at eps_data b) (Numpy.arange_from fuel cur E b))
    = skipn (Z.to_nat cur) eps_data.
Proof.
  induction fuel as [|fuel IH]; intros cur Hcur Hfuel.
  - cbn. rewrite List.skipn_all2; [reflexivity|]. lia.
  - rewrite arange_from_unfold. destruct (Z.ltb_spec cur E) as [Hlt|Hge].
    + cbn [map concat]. rewrite IH by lia. rewrite batch_at_eq by lia.
      replace (Z.to_nat (cur + b)) with (Z.to_nat b + Z.to_nat cur)%nat by lia.
      rewrite <- List.skipn_skipn. apply List.firstn_skipn.
    + cbn. rewrite List.skipn_all2; [reflexivity|]. lia.
Qed.

Lemma arange_ok :
  Numpy.arange 0 E b = Ok (Numpy.arange_from (Z.to_nat E) 0 E b).
Proof.
  unfold Numpy.arange. destruct (Z.eqb_spec b 0); [lia|].
  rewrite Z.sub_0_r, Zabs2Nat.abs_nat_nonneg by lia.
  reflexivity.
Qed.

(** The batching of [_plot_elements_sp]: [ceil(E / b)] batches whose sizes
    add up to [E] and whose concatenation is the list of episodes. *)
Lemma batches_cover :
  exists plot_ep_splits,
    Numpy.arange 0 E b = Ok plot_ep_splits
    /\ length plot_ep_splits = Z.to_nat ((E + b - 1) / b)
    /\ concat (map (batch_at eps_data b) plot_ep_splits) = eps_data
    /\ list_sum (map (fun i => length (batch_at eps_data b i)) plot_ep_splits)
       = length eps_data.
Proof.
  exists (Numpy.arange_from (Z.to_nat E) 0 E b).
  assert (Hc : concat (map (batch_at eps_data b)
                         (Numpy.arange_from (Z.to_nat E) 0 E b)) = eps_data).
  { rewrite batches_concat_from by lia. reflexivity. }
  split; [apply arange_ok|]. split.
  - rewrite arange_from_length by lia. f_equal. f_equal. lia.
  - split; [exact Hc|].
    pose proof (f_equal (@length _) Hc) as Hl.
    rewrite List.length_concat, map_map in Hl. exact Hl.
Qed.

(** A batch has a single panel only as the last one, when [E mod b = 1]. *)
Lemma batch_at_two_panels (fuel : nat) (i : Z) :
  2 <= b ->
  E mod b <> 1 ->
  In i (Numpy.arange_from fuel 0 E b) ->
  (2 <= length (batch_at eps_data b i))%nat.
Proof.
  intros Hb Hmod Hi. apply arange_from_members in Hi as [Hr Hm].
  rewrite Z.sub_0_r in Hm.
  pose proof (batch_at_length i ltac:(lia)) as Hlen.
  destruct (Z.le_gt_cases b (E - i)) as [Hfull|Hlast]; [lia|].
  rewrite Z.min_r in Hlen by lia.
  assert (Hrem : E mod b = E - i).
  { apply Z.mod_divide in Hm as [q Hq]; [|lia].
    symmetry. apply (Z.mod_unique_pos E b q (E - i)); lia. }
  lia.
Qed.

End Batches.

(** *** Rendering the batches *)

Lemma saved_figures_app (es es' : list effect) :
  saved_figures (es ++ es') = saved_figures es ++ saved_figures es'.
Proof. unfold saved_figures. apply flat_map_app. Qed.

Section Rendering.

Variables (series : list float) (high_limit low_limit : float).
Variables (output_img high_label low_label title y_label : string).
Variable eps_per_plot : Z.
Variable eps_data : list (list float).

Local Abbreviation draw :=
  (plot_figure np_mean series high_limit low_limit output_img high_label
     low_label title y_label eps_per_plot eps_data).
Local Abbreviation figure_at :=
  (fun ep_idx =>
     figure_of np_mean series high_limit low_limit high_label low_label
       title y_label eps_per_plot (batch_at eps_data eps_per_plot ep_idx)).
Local Abbreviation widths_at :=
  (fun ep_idx =>
     map (fun ep_data : list float => length ep_data)
       (batch_at eps_data eps_per_plot ep_idx)).
Local Abbreviation drawing_at :=
  (fun ep_idx =>
     [Subplots (widths_at ep_idx); SaveFig output_img (figure_at ep_idx)]).

Lemma list_sum_lookup (ns : list nat) (i n : nat) :
  ns !! i = Some n -> (n <= list_sum ns)%nat.
Proof.
  revert i. induction ns as [|m ns IH]; intros [|i] H; try discriminate;
    change (list_sum (m :: ns)) with (m + list_sum ns)%nat.
  - injection H as ->. lia.
  - specialize (IH i H). lia.
Qed.

(** An episode with values gets a positive share of the width. *)
Lemma width_share_positive (plot_eps_data : list (list float)) (ep : nat)
  (ep_data : list float) :
  plot_eps_data !! ep = Some ep_data ->
  ep_data <> [] ->
  width_share (map (fun ep_data => length ep_data) plot_eps_data)
    (length ep_data)
  = Positive.
Proof.
  intros Hep Hne.
  assert (Hlen : (0 < length ep_data)%nat)
    by (destruct ep_data; [contradiction|cbn; lia]).
  pose proof (list_sum_lookup
                (map (fun ep_data => length ep_data) plot_eps_data) ep
                (length ep_data)) as Hsum.
  rewrite list_lookup_fmap, Hep in Hsum. specialize (Hsum eq_refl).
  unfold width_share.
  destruct (Nat.eqb_spec (list_sum (map (fun ep_data => length ep_data)
                                      plot_eps_data)) 0); [lia|].
  destruct (Nat.eqb_spec (length ep_data) 0); [lia|reflexivity].
Qed.

Lemma plot_panel_eq (plot_eps_data : list (list float)) (ep : nat)
  (ep_data : list float) :
  plot_eps_data !! ep = Some ep_data ->
  ep_data <> [] ->
  plot_panel np_mean series high_limit low_limit plot_eps_data ep
  = Ok (panel_of np_mean series high_limit low_limit ep_data).
Proof.
  intros Hep Hne. unfold plot_panel, getitem. rewrite Hep. cbn [rbind].
  rewrite (width_share_positive _ _ _ Hep Hne). cbn [axhline rbind].
  rewrite !scatter_where_ok. reflexivity.
Qed.

Lemma plot_panels_from (rest : list (list float)) :
  List.Forall (fun ep_data => ep_data <> []) rest ->
  forall pre,
    plot_panels np_mean series high_limit low_limit (pre ++ rest)
      (seq (length pre) (length rest))
    = Ok (map (panel_of np_mean series high_limit low_limit) rest).
Proof.
  induction 1 as [|ep_data rest Hne _ IH]; intros pre; [reflexivity|].
  cbn [length seq plot_panels map].
  rewrite (plot_panel_eq _ _ ep_data)
    by (try apply list_lookup_middle; auto).
  cbn [rbind]. specialize (IH (pre ++ [ep_data])).
  rewrite <- app_assoc, length_app in IH. cbn [app length] in IH.
  replace (length pre + 1)%nat with (S (length pre)) in IH by lia.
  rewrite IH. reflexivity.
Qed.

(** A batch that can be rendered: two panels or more, none of them over an
    empty episode. *)
Local Abbreviation renderable :=
  (fun ep_idx =>
     (2 <= length (batch_at eps_data eps_per_plot ep_idx))%nat
     /\ List.Forall (fun ep_data : list float => ep_data <> [])
          (batch_at eps_data eps_per_plot ep_idx)).

Lemma widths_positive (ep_idx : Z) :
  renderable ep_idx -> list_sum (widths_at ep_idx) <> 0%nat.
Proof.
  intros [Hlen Hne].
  destruct (batch_at eps_data eps_per_plot ep_idx) as [|ep_data l];
    [cbn in Hlen; lia|].
  inversion Hne as [|? ? Hfirst _]; subst.
  destruct ep_data; [contradiction|]. cbn. lia.
Qed.

(** Up to [plt.savefig]: the figure is created and its panels are drawn. *)
Lemma plot_figure_drawn (w : World) (ep_idx : Z) :
  renderable ep_idx ->
  draw ep_idx w
  = plt_savefig output_img (widths_at ep_idx) (figure_at ep_idx)
      (with_effects w (effects w ++ [Subplots (widths_at ep_idx)])).
Proof.
  intros [Hlen Hne]. unfold plot_figure.
  set (plot_eps_data := batch_at eps_data eps_per_plot ep_idx) in *.
  unfold bind at 1, plt_subplots. rewrite length_map.
  destruct (length plot_eps_data) as [|[|n]] eqn:Hn; [lia|lia|].
  unfold bind at 1, emit, modify, ret.
  unfold bind at 1, lift at 1, enumerate_axes.
  unfold bind at 1, lift at 1. rewrite <- Hn.
  pose proof (plot_panels_from plot_eps_data Hne []) as Hdrawn.
  cbn [app length] in Hdrawn. rewrite Hdrawn. reflexivity.
Qed.

(** A renderable batch is drawn and saved when the path can be written. *)
Lemma plot_figure_run (w : World) (ep_idx : Z) :
  renderable ep_idx ->
  can_open (host w) output_img = true ->
  draw ep_idx w
  = (Ok tt, with_effects w (effects w ++ drawing_at ep_idx)).
Proof.
  intros Hr Hopen. rewrite (plot_figure_drawn w ep_idx Hr).
  unfold plt_savefig.
  destruct (Nat.eqb_spec (list_sum (widths_at ep_idx)) 0) as [H0|_];
    [exfalso; exact (widths_positive ep_idx Hr H0)|].
  unfold bind, gets. cbn [host with_effects]. rewrite Hopen.
  unfold emit, modify, with_effects; cbn. rewrite <- app_assoc. reflexivity.
Qed.


Lemma plot_figures_run (plot_ep_splits : list Z) :
  List.Forall renderable plot_ep_splits ->
  forall w,
    can_open (host w) output_img = true ->
    for_each plot_ep_splits draw w
    = (Ok tt,
       with_effects w (effects w ++ flat_map drawing_at plot_ep_splits)).
Proof.
  induction 1 as [|ep_idx rest Hr _ IH]; intros w Hopen.
  - cbn. rewrite app_nil_r. destruct w; reflexivity.
  - cbn [for_each flat_map]. unfold bind.
    rewrite (plot_figure_run w ep_idx Hr Hopen), IH by exact Hopen.
    unfold with_effects; cbn. rewrite <- !app_assoc. reflexivity.
Qed.

Lemma saved_figures_drawn (plot_ep_splits : list Z) :
  saved_figures (flat_map drawing_at plot_ep_splits)
  = map figure_at plot_ep_splits.
Proof.
  induction plot_ep_splits as [|ep_idx rest IH]; [reflexivity|].
  cbn [flat_map map]. rewrite saved_figures_app, IH. reflexivity.
Qed.

Lemma batch_at_nonempty (ep_idx : Z) :
  List.Forall (fun ep_data : list float => ep_data <> []) eps_data ->
  List.Forall (fun ep_data : list float => ep_data <> [])
    (batch_at eps_data eps_per_plot ep_idx).
Proof.
  intros Hne. unfold batch_at, slice. apply Forall_take, Forall_drop, Hne.
Qed.

End Rendering.

(** The run of [_plot_elements_sp] up to its loop over the batches. *)
Lemma plot_elements_sp_start (w : World) (self : loc) (o : AnalysisBase)
  (d : InteractionDataPoint) (rest : list InteractionDataPoint)
  (series : list float) (high_limit low_limit : float)
  (output_img high_label low_label title y_label : string)
  (eps_per_plot : Z) :
  objects w !! self = Some o ->
  data o = Some (d :: rest) ->
  new_episode d = true ->
  0 < eps_per_plot ->
  let eps_data :=
    Numpy.split series (Numpy.where_from 1 (map new_episode rest)) in
  let E := Z.of_nat (length eps_data) in
  _plot_elements_sp np_mean self series high_limit low_limit output_img
    high_label low_label title y_label eps_per_plot w
  = for_each (Numpy.arange_from (Z.to_nat E) 0 E eps_per_plot)
      (plot_figure np_mean series high_limit low_limit output_img
         high_label low_label title y_label eps_per_plot eps_data) w.
Proof.
  intros Hself Hdata Hflag Hpos eps_data E.
  unfold _plot_elements_sp, bind at 1, get_self. rewrite Hself.
  unfold bind at 1, lift at 1, iter_data. rewrite Hdata.
  unfold bind at 1, lift at 1, Numpy.where_. cbn [map Numpy.where_from].
  rewrite Hflag. cbn [PyList.remove Nat.eqb].
  fold eps_data. unfold bind at 1, lift at 1.
  rewrite (arange_ok eps_data eps_per_plot Hpos). reflexivity.
Qed.

(** With no empty episode, a batch size of at least two, no batch of one
    panel and a path that can be written, every batch is drawn and saved:
    the panels of the saved figures are those of the episodes, in order. *)
Lemma plot_elements_sp_figures (w : World) (self : loc) (o : AnalysisBase)
  (d : InteractionDataPoint) (rest : list InteractionDataPoint)
  (series : list float) (high_limit low_limit : float)
  (output_img high_label low_label title y_label : string)
  (eps_per_plot : Z) :
  objects w !! self = Some o ->
  data o = Some (d :: rest) ->
  new_episode d = true ->
  2 <= eps_per_plot ->
  let eps_data :=
    Numpy.split series (Numpy.where_from 1 (map new_episode rest)) in
  let E := Z.of_nat (length eps_data) in
  E mod eps_per_plot <> 1 ->
  List.Forall (fun ep_data => ep_data <> []) eps_data ->
  can_open (host w) output_img = true ->
  exists (w' : World) (figs : list Figure),
    _plot_elements_sp np_mean self series high_limit low_limit output_img
      high_label low_label title y_label eps_per_plot w
    = (Ok tt, w')
    /\ saved_figures (effects w') = saved_figures (effects w) ++ figs
    /\ length figs = Z.to_nat ((E + eps_per_plot - 1) / eps_per_plot)
    /\ concat (map panels figs)
       = map (panel_of np_mean series high_limit low_limit) eps_data.
Proof.
  intros Hself Hdata Hflag Hb eps_data E Hmod Hne Hopen.
  assert (Hpos : 0 < eps_per_plot) by lia.
  destruct (batches_cover eps_data eps_per_plot Hpos)
    as (plot_ep_splits & Hsplits & Hcount & Hconcat & _).
  rewrite (arange_ok eps_data eps_per_plot Hpos) in Hsplits.
  injection Hsplits as <-.
  eexists. eexists. split.
  - rewrite (plot_elements_sp_start w self o d rest series high_limit
               low_limit output_img high_label low_label title y_label
               eps_per_plot Hself Hdata Hflag Hpos).
    apply plot_figures_run; [|exact Hopen].
    apply List.Forall_forall. intros i Hi. split.
    + apply (batch_at_two_panels eps_data eps_per_plot Hpos _ i Hb Hmod Hi).
    + apply batch_at_nonempty. exact Hne.
  - cbn [effects with_effects]. rewrite saved_figures_app, saved_figures_drawn.
    split; [reflexivity|]. split.
    + rewrite length_map. exact Hcount.
    + rewrite map_map. cbn [panels figure_of].
      transitivity
        (map (panel_of np_mean series high_limit low_limit)
           (concat (map (batch_at eps_data eps_per_plot)
                      (Numpy.arange_from (Z.to_nat E) 0 E eps_per_plot)))).
      * rewrite concat_map, map_map. reflexivity.
      * f_equal. exact Hconcat.
Qed.


(** C5, where the code departs from the claim.  A figure with a single
    panel is not rendered: for one column [plt.subplots] hands back the
    [Axes] object itself, and the loop over the panels cannot iterate over
    it.  A record sequence that forms one episode (with its series of one
    value per record) stops there, whatever the batch size. *)
Theorem plot_elements_sp_single_panel_raises (w : World) (self : loc)
  (o : AnalysisBase) (d : InteractionDataPoint)
  (rest : list InteractionDataPoint) (series : list float)
  (high_limit low_limit : float)
  (output_img high_label low_label title y_label : string)
  (eps_per_plot : Z) :
  objects w !! self = Some o ->
  data o = Some (d :: rest) ->
  length series = length (d :: rest) ->
  new_episode d = true ->
  List.Forall (fun r => new_episode r = false) rest ->
  1 <= eps_per_plot ->
  _plot_elements_sp np_mean self series high_limit low_limit output_img
    high_label low_label title y_label eps_per_plot w
  = (Raise TypeError,
     with_effects w (effects w ++ [Subplots [length series]])).
Proof.
  intros Hself Hdata _ Hflag Hrest Hb.
  unfold _plot_elements_sp, bind at 1, get_self. rewrite Hself.
  unfold bind at 1, lift at 1, iter_data. rewrite Hdata.
  unfold bind at 1, lift at 1, Numpy.where_. cbn [map Numpy.where_from].
  rewrite Hflag. rewrite where_from_all_false
    by (apply List.Forall_map; exact Hrest).
  cbn [PyList.remove Nat.eqb]. unfold Numpy.split. cbn [Numpy.split_from length].
  unfold bind at 1, lift at 1, Numpy.arange.
  destruct (Z.eqb_spec eps_per_plot 0) as [?|_]; [lia|].
  change (Z.abs_nat (Z.of_nat 1 - 0)) with 1%nat. change (Z.of_nat 1) with 1.
  cbn [Numpy.arange_from].
  destruct (Z.ltb_spec 0 eps_per_plot) as [_|?]; [|lia].
  change (0 <? 1) with true. cbv iota. cbn [for_each].
  unfold bind at 1, plot_figure, batch_at. cbn [length].
  change (Z.of_nat 1) with 1.
  replace (Z.min (0 + eps_per_plot) 1) with 1 by lia.
  unfold slice. change (Z.to_nat 1 - Z.to_nat 0)%nat with 1%nat.
  change (Z.to_nat 0) with 0%nat. cbn [skipn firstn].
  rewrite Nat.sub_0_r, firstn_all.
  cbn [map]. unfold bind at 1, plt_subplots. cbn [length].
  unfold bind at 1, emit, modify, ret, lift, enumerate_axes. reflexivity.
Qed.

End Panels.

(** The analysis of [world3] starts on an unflagged record. *)
Lemma plot_elements_sp_needs_flagged_first_record_witness :
  Analysis._plot_elements_sp (fun _ => Samples.f1) 3%nat
    [Samples.f1; Samples.f2; Samples.f3; Samples.f1] Samples.f3 S754_nan
    "/data/values.png" "high" "low" "Value" "value" 10 Samples.world3
  = (Raise ValueError, Samples.world3).
Proof.
  apply (plot_elements_sp_needs_flagged_first_record (fun _ => Samples.f1)
           Samples.world3 3%nat
           {| Analysis.data := Some [Samples.rec false; Samples.rec true;
                            Samples.rec false; Samples.rec false];
              Analysis.config := 0%nat; Analysis.img_fmt := "pdf" |}
           (Samples.rec false)
           [Samples.rec true; Samples.rec false; Samples.rec false]);
    reflexivity.
Defined.

(** The analysis of [world4] holds one episode; the default batch size. *)
Lemma plot_elements_sp_single_panel_raises_witness :
  fst (Analysis._plot_elements_sp (fun _ => Samples.f2) 4%nat
         [Samples.f1; Samples.f2; Samples.f3] Samples.f3 Samples.f1
         "/data/values.png" "high" "low" "Value" "value" 10 Samples.world4)
  = Raise TypeError.
Proof.
  rewrite (plot_elements_sp_single_panel_raises (fun _ => Samples.f2)
             Samples.world4 4%nat
             {| Analysis.data := Some [Samples.rec true; Samples.rec false;
                              Samples.rec false];
                Analysis.config := 0%nat; Analysis.img_fmt := "pdf" |}
             (Samples.rec true) [Samples.rec false; Samples.rec false]);
    [reflexivity | reflexivity | reflexivity | reflexivity | reflexivity
    | repeat constructor | lia].
Defined.

(** ** Worked examples *)

Example str2int_examples :
  Env.str2int EmptyString = Ok None
  /\ Env.str2int " +4_2 " = Ok (Some 42)
  /\ Env.str2int "-7" = Ok (Some (-7))
  /\ Env.str2int "0" = Raise AssertionError
  /\ Env.str2int "-0" = Raise AssertionError
  /\ Env.str2int "ten" = Raise ValueError
  /\ Env.str2int " " = Raise ValueError
  /\ Env.str2int "1__0" = Raise ValueError
  /\ Env.str2int (String (ascii_of_nat 9) "7") = Ok (Some 7)
  /\ Env.str2int (String (ascii_of_nat 28) "7") = Raise ValueError
  /\ Env.str2int (String (ascii_of_nat 28) "0") = Raise ValueError
  /\ Env.str2int (String (ascii_of_nat 160) "7") = Ok (Some 7).
Proof. repeat split; reflexivity. Qed.

(** Four frames at ratio [0.5]: two fade steps.  With both effects the
    middle is untouched here (frames are numbers, fading adds 100); with
    fade-in only, the two remaining frames are faded as well. *)
Example fade_video_examples :
  let fade := fun (frame : nat) (_ : float) => (frame + 100)%nat in
  Video.fade_video nat fade [1; 2; 3; 4]%nat Samples.one_half true true
  = Ok [101; 102; 103; 104]%nat
  /\ Video.fade_video nat fade [1; 2; 3; 4; 5; 6]%nat Samples.one_half
       false true
     = Ok [1; 2; 3; 104; 105; 106]%nat
  /\ Video.fade_video nat fade [1; 2; 3; 4; 5; 6]%nat
       (S754_finite false 6004799503160661 (-54)) true true
     = Ok [101; 102; 3; 4; 105; 106]%nat
  /\ Video.fade_video nat fade [1; 2; 3; 4]%nat Samples.one_half true false
     = Ok [101; 102; 103; 104]%nat
  /\ Video.fade_video nat fade [1; 2; 3]%nat S754_nan true true
     = Raise ValueError.
Proof. repeat split; reflexivity. Qed.

(** The export over the twelve records: episodes start at 0, 1, 4 and 8 and
    last 1, 3, 4 and 4 steps. *)
Example index_from_twelve :
  Analysis.index_from (-1) 0 Samples.twelve
  = [(0, 0); (1, 0); (1, 1); (1, 2); (2, 0); (2, 1); (2, 2); (2, 3);
     (3, 0); (3, 1); (3, 2); (3, 3)].
Proof. reflexivity. Qed.

(** Two episodes, default batch size: one figure with two panels. *)
Example plot_elements_sp_two_episodes :
  let run :=
    Analysis._plot_elements_sp (fun _ => Samples.f2) 5%nat
      [Samples.f1; Samples.f3; Samples.f2; Samples.f1] Samples.f3 S754_nan
      "/data/values.png" "high" "low" "Value" "value" 10 Samples.world5 in
  fst run = Ok tt
  /\ map (fun fig => map Analysis.series (Analysis.panels fig))
       (Analysis.saved_figures (Analysis.effects (snd run)))
     = [[[Samples.f1; Samples.f3]; [Samples.f2; Samples.f1]]]
  /\ map (fun fig => map Analysis.high_marks (Analysis.panels fig))
       (Analysis.saved_figures (Analysis.effects (snd run)))
     = [[Some [(1%nat, Samples.f3)]; None]].
Proof. repeat split; reflexivity. Qed.

(** ** Strings: [lower], [split], [join] *)

Section TextFacts.
Import Text.

Lemma split_not_nil (sep : ascii) (s : string) : split sep s <> [].
Proof.
  destruct s as [|c r]; cbn [split]; [discriminate|].
  destruct (Ascii.eqb c sep); [discriminate|].
  destruct (split sep r); discriminate.
Qed.

Lemma split_cons_other (sep c : ascii) (r : string) :
  Ascii.eqb c sep = false ->
  exists head tail,
    split sep r = head :: tail /\ split sep (String c r) = String c head :: tail.
Proof.
  intros Hc. cbn [split]. rewrite Hc.
  destruct (split sep r) as [|head tail] eqn:E.
  - exfalso. exact (split_not_nil sep r E).
  - exists head, tail. split; reflexivity.
Qed.

(** Joining what [split] returned gives the string back. *)
Lemma join_split (sep : ascii) (s : string) :
  join (String sep EmptyString) (split sep s) = s.
Proof.
  induction s as [|c r IH]; [reflexivity|].
  destruct (Ascii.eqb c sep) eqn:Hc.
  - cbn [split]. rewrite Hc. apply Ascii.eqb_eq in Hc. subst c.
    destruct (split sep r) as [|head tail] eqn:E.
    + exfalso. exact (split_not_nil sep r E).
    + cbn [join] in *. rewrite <- IH. reflexivity.
  - destruct (split_cons_other sep c r Hc) as (head & tail & E & ->).
    rewrite E in IH. destruct tail as [|p tail]; cbn [join] in *.
    + rewrite IH. reflexivity.
    + rewrite <- IH. reflexivity.
Qed.

Lemma split_length (sep : ascii) (s : string) :
  length (split sep s) = S (count sep s).
Proof.
  induction s as [|c r IH]; [reflexivity|].
  destruct (Ascii.eqb c sep) eqn:Hc.
  - cbn [split count]. rewrite Hc. cbn [length]. rewrite IH. reflexivity.
  - destruct (split_cons_other sep c r Hc) as (head & tail & E & ->).
    cbn [count]. rewrite Hc. rewrite E in IH. cbn [length] in *. exact IH.
Qed.

Lemma split_parts_clean (sep : ascii) (s : string) :
  List.Forall (fun p => count sep p = 0%nat) (split sep s).
Proof.
  induction s as [|c r IH]; [repeat constructor|].
  destruct (Ascii.eqb c sep) eqn:Hc.
  - cbn [split]. rewrite Hc. constructor; [reflexivity|exact IH].
  - destruct (split_cons_other sep c r Hc) as (head & tail & E & ->).
    rewrite E in IH. inversion IH as [|? ? Hhead Htail]; subst.
    constructor; [|exact Htail]. cbn [count]. rewrite Hc. exact Hhead.
Qed.

(** A separator between two strings separates their parts. *)
Lemma split_app (sep : ascii) (a b : string) :
  split sep (a ++ String sep b) = split sep a ++ split sep b.
Proof.
  induction a as [|c r IH].
  - change (EmptyString ++ String sep b)%string with (String sep b).
    cbn [split]. rewrite Ascii.eqb_refl. reflexivity.
  - change (String c r ++ String sep b)%string
      with (String c (r ++ String sep b)).
    destruct (Ascii.eqb c sep) eqn:Hc.
    + cbn [split]. rewrite Hc, IH. reflexivity.
    + destruct (split_cons_other sep c r Hc) as (head & tail & E & ->).
      cbn [split]. rewrite Hc, IH, E. reflexivity.
Qed.

(** A string without separator is its own single part. *)
Lemma split_clean (sep : ascii) (s : string) :
  count sep s = 0%nat -> split sep s = [s].
Proof.
  induction s as [|c r IH]; intros H; [reflexivity|].
  cbn [count] in H. destruct (Ascii.eqb c sep) eqn:Hc; [discriminate|].
  cbn [split]. rewrite Hc, IH by exact H. reflexivity.
Qed.

Lemma lower_char_idem (c : ascii) : lower_char (lower_char c) = lower_char c.
Proof.
  unfold lower_char.
  destruct ((65 <=? nat_of_ascii c)%nat && (nat_of_ascii c <=? 90)%nat)
    eqn:Hup.
  - apply andb_true_iff in Hup as [Hlo Hhi].
    apply Nat.leb_le in Hlo. apply Nat.leb_le in Hhi.
    rewrite nat_ascii_embedding by lia.
    destruct (Nat.leb_spec (nat_of_ascii c + 32) 90) as [?|_]; [lia|].
    rewrite andb_false_r. reflexivity.
  - rewrite Hup. reflexivity.
Qed.

Lemma lower_idem (s : string) : lower (lower s) = lower s.
Proof.
  induction s as [|c r IH]; [reflexivity|].
  cbn [lower]. rewrite lower_char_idem, IH. reflexivity.
Qed.

Lemma lower_empty (s : string) : lower s = EmptyString <-> s = EmptyString.
Proof. destruct s; cbn; split; congruence. Qed.

End TextFacts.

(** ** [str2list], [str2framework], [str2bool] *)

Section CliStrings.
Import Text EnvCli.

(** X1: [str2list]: the empty string gives [None]; any other string gives its
    comma-separated parts, one more than it has commas, none of them holding
    a comma, and joining them with commas gives the string back.  The
    assertion of the function never fails. *)
Theorem str2list_splits_and_joins_back (s : string) :
  (s = EmptyString -> str2list s = Ok None)
  /\ (s <> EmptyString ->
      exists parts,
        str2list s = Ok (Some parts)
        /\ join "," parts = s
        /\ length parts = S (count "," s)
        /\ List.Forall (fun p => count "," p = 0%nat) parts).
Proof.
  split.
  - intros ->. reflexivity.
  - intros Hs. exists (split "," s). unfold str2list.
    destruct (String.eqb_spec s EmptyString) as [?|_]; [contradiction|].
    cbn [orb]. rewrite split_length. cbn [Nat.ltb Nat.leb].
    split; [reflexivity|]. split; [apply join_split|].
    split; [reflexivity|apply split_parts_clean].
Qed.

Lemma str2list_splits_and_joins_back_witness :
  exists parts,
    str2list "rgb_only,partial_obs.5," = Ok (Some parts)
    /\ join "," parts = "rgb_only,partial_obs.5,"%string
    /\ length parts = 3%nat.
Proof.
  destruct (str2list_splits_and_joins_back "rgb_only,partial_obs.5,")
    as [_ H].
  destruct H as (parts & Hrun & Hjoin & Hlen & _); [discriminate|].
  exists parts. split; [exact Hrun|]. split; [exact Hjoin|exact Hlen].
Defined.

(** X2: [str2framework]: a non-empty string is accepted exactly when it spells
    tf, tf2 or torch in some letter case; the answer is that word in lower
    case, and giving it back to the function returns it again.  Two strings
    that differ in letter case only get the same answer. *)
Theorem str2framework_accepts_by_lower_case (s : string) :
  (forall r, str2framework s = Ok (Some r) ->
     r = lower s
     /\ In r ["tf"; "tf2"; "torch"]%string
     /\ str2framework r = Ok (Some r))
  /\ (s <> EmptyString -> In (lower s) ["tf"; "tf2"; "torch"]%string ->
      str2framework s = Ok (Some (lower s)))
  /\ (s <> EmptyString -> ~ In (lower s) ["tf"; "tf2"; "torch"]%string ->
      str2framework s = Raise AssertionError)
  /\ (forall s', s <> EmptyString -> s' <> EmptyString ->
      lower s = lower s' -> str2framework s = str2framework s').
Proof.
  assert (Hmem : forall x, mem x ["tf"; "tf2"; "torch"]%string = true
                           <-> In x ["tf"; "tf2"; "torch"]%string).
  { intros x. unfold mem. rewrite existsb_exists. split.
    - intros (y & Hy & Hxy). apply String.eqb_eq in Hxy. subst. exact Hy.
    - intros Hx. exists x. split; [exact Hx|apply String.eqb_refl]. }
  assert (Hrun : forall x, x <> EmptyString ->
            str2framework x
            = if mem (lower x) ["tf"; "tf2"; "torch"]%string
              then Ok (Some (lower x)) else Raise AssertionError).
  { intros x Hx. unfold str2framework.
    destruct (String.eqb_spec x EmptyString); [contradiction|reflexivity]. }
  split; [|split; [|split]].
  - intros r Hr.
    assert (Hs : s <> EmptyString) by (intros ->; discriminate Hr).
    rewrite (Hrun s Hs) in Hr.
    destruct (mem (lower s) _) eqn:Hm; [|discriminate].
    injection Hr as <-. apply Hmem in Hm.
    split; [reflexivity|]. split; [exact Hm|].
    destruct Hm as [<-|[<-|[<-|[]]]]; reflexivity.
  - intros Hs Hin. rewrite (Hrun s Hs). apply Hmem in Hin. rewrite Hin.
    reflexivity.
  - intros Hs Hout. rewrite (Hrun s Hs).
    destruct (mem (lower s) _) eqn:Hm; [|reflexivity].
    apply Hmem in Hm. contradiction.
  - intros s' Hs Hs' Heq. rewrite (Hrun s Hs), (Hrun s' Hs'), Heq.
    reflexivity.
Qed.

Lemma str2framework_accepts_by_lower_case_witness :
  str2framework "Torch" = Ok (Some "torch"%string)
  /\ str2framework "jax" = Raise AssertionError.
Proof.
  destruct (str2framework_accepts_by_lower_case "Torch") as (_ & Hin & _).
  destruct (str2framework_accepts_by_lower_case "jax") as (_ & _ & Hout & _).
  split.
  - apply Hin; [discriminate|]. right. right. left. reflexivity.
  - apply Hout; [discriminate|].
    intros [H|[H|[H|[]]]]; discriminate H.
Defined.

(** X3: [str2bool]: a [bool] passes through; a string is read without regard to
    letter case, as true for the five yes-words and as false for the five
    no-words, and anything else fails the assertion.  What Python prints for
    a [bool] is read back as that [bool]. *)
Theorem str2bool_reads_words (v : string) :
  (forall b, str2bool (inl b) = Ok b)
  /\ (forall b, str2bool (inr (str_of_bool b)) = Ok b)
  /\ (str2bool (inr v) = Ok true
      <-> In (lower v) ["yes"; "true"; "t"; "y"; "1"]%string)
  /\ (str2bool (inr v) = Ok false
      <-> In (lower v) ["no"; "false"; "f"; "n"; "0"]%string)
  /\ (str2bool (inr v) = Raise AssertionError
      <-> ~ In (lower v)
            ["yes"; "true"; "t"; "y"; "1";
             "no"; "false"; "f"; "n"; "0"]%string)
  /\ (forall v', lower v = lower v' -> str2bool (inr v) = str2bool (inr v')).
Proof.
  assert (Hmem : forall x words, mem x words = true <-> In x words).
  { intros x words. unfold mem. rewrite existsb_exists. split.
    - intros (y & Hy & Hxy). apply String.eqb_eq in Hxy. subst. exact Hy.
    - intros Hx. exists x. split; [exact Hx|apply String.eqb_refl]. }
  assert (Hdisjoint :
            In (lower v) ["yes"; "true"; "t"; "y"; "1"]%string ->
            In (lower v) ["no"; "false"; "f"; "n"; "0"]%string -> False).
  { intros Hy Hn. cbn [In] in Hy, Hn.
    repeat (destruct Hy as [Hy|Hy]; [rewrite <- Hy in Hn;
      repeat (destruct Hn as [Hn|Hn]; [discriminate Hn|]); exact Hn|]).
    exact Hy. }
  split; [reflexivity|]. split; [intros []; reflexivity|].
  cbn [str2bool].
  destruct (mem (lower v) ["yes"; "true"; "t"; "y"; "1"]%string) eqn:Hy.
  - apply Hmem in Hy. split; [tauto|]. split; [|split].
    + split; [discriminate|]. intros Hn. exfalso. exact (Hdisjoint Hy Hn).
    + split; [discriminate|]. intros Hout. exfalso. apply Hout.
      change (In (lower v)
                (List.app ["yes"; "true"; "t"; "y"; "1"]%string
                   ["no"; "false"; "f"; "n"; "0"]%string)).
      apply in_or_app. left. exact Hy.
    + intros v' <-. cbn [str2bool]. apply Hmem in Hy. rewrite Hy.
      reflexivity.
  - assert (Hy' : ~ In (lower v) ["yes"; "true"; "t"; "y"; "1"]%string).
    { intros H. apply Hmem in H. congruence. }
    destruct (mem (lower v) ["no"; "false"; "f"; "n"; "0"]%string) eqn:Hn.
    + apply Hmem in Hn. split; [split; [discriminate|tauto]|].
      split; [tauto|]. split.
      * split; [discriminate|]. intros Hout. exfalso. apply Hout.
        change (In (lower v)
                (List.app ["yes"; "true"; "t"; "y"; "1"]%string
                   ["no"; "false"; "f"; "n"; "0"]%string)).
        apply in_or_app. right. exact Hn.
      * intros v' <-. cbn [str2bool]. apply Hmem in Hn. rewrite Hy, Hn.
        reflexivity.
    + assert (Hn' : ~ In (lower v) ["no"; "false"; "f"; "n"; "0"]%string).
      { intros H. apply Hmem in H. congruence. }
      split; [split; [discriminate|tauto]|].
      split; [split; [discriminate|tauto]|]. split.
      * split; [|reflexivity]. intros _ Hin.
        change (In (lower v)
                (List.app ["yes"; "true"; "t"; "y"; "1"]%string
                   ["no"; "false"; "f"; "n"; "0"]%string)) in Hin.
        apply in_app_or in Hin. tauto.
      * intros v' <-. cbn [str2bool]. rewrite Hy, Hn. reflexivity.
Qed.

Lemma str2bool_reads_words_witness :
  str2bool (inr "YES"%string) = Ok true
  /\ str2bool (inr "maybe"%string) = Raise AssertionError.
Proof.
  destruct (str2bool_reads_words "YES") as (_ & _ & [_ Hyes] & _).
  destruct (str2bool_reads_words "maybe") as (_ & _ & _ & _ & [_ Hno] & _).
  split.
  - apply Hyes. left. reflexivity.
  - apply Hno. cbn [In lower lower_char].
    intros H. repeat (destruct H as [H|H]; [discriminate H|]). exact H.
Defined.

End CliStrings.

(** ** [update_config] *)

Section UpdateConfig.
Import EnvCli.

Variable V : Type.

Lemma update_config_cons (config : gmap string V) (k : string) (v : V)
  (items : list (string * V)) :
  update_config config ((k, v) :: items)
  = update_config (<[k := v]> config) items.
Proof. reflexivity. Qed.

Lemma update_config_other (items : list (string * V)) :
  forall (config : gmap string V) (k : string),
    ~ In k (map fst items) ->
    update_config config items !! k = config !! k.
Proof.
  induction items as [|[k0 v0] rest IH]; intros config k Hk; [reflexivity|].
  rewrite update_config_cons, IH.
  - apply lookup_insert_ne. intros ->. apply Hk. left. reflexivity.
  - intros H. apply Hk. right. exact H.
Qed.

Lemma update_config_given (items : list (string * V)) :
  forall (config : gmap string V) (k : string) (v : V),
    List.NoDup (map fst items) ->
    In (k, v) items ->
    update_config config items !! k = Some v.
Proof.
  induction items as [|[k0 v0] rest IH]; intros config k v Hnd Hin;
    [contradiction|].
  cbn [map fst] in Hnd. apply List.NoDup_cons_iff in Hnd as [Hfresh Hnd].
  rewrite update_config_cons. destruct Hin as [Heq|Hin].
  - injection Heq as -> ->. rewrite update_config_other by exact Hfresh.
    apply lookup_insert_eq.
  - apply IH; assumption.
Qed.

(** X4: [update_config]: afterwards every key of the update holds the update's
    value, every other key holds what it held before, and updating a second
    time with the same update changes nothing. *)
Theorem update_config_overrides_and_keeps (config : gmap string V)
  (items : list (string * V)) :
  List.NoDup (map fst items) ->
  (forall k v, In (k, v) items -> update_config config items !! k = Some v)
  /\ (forall k, ~ In k (map fst items) ->
        update_config config items !! k = config !! k)
  /\ update_config (update_config config items) items
     = update_config config items.
Proof.
  intros Hnd.
  split; [intros k v; apply update_config_given; exact Hnd|].
  split; [intros k; apply update_config_other|].
  apply map_eq. intros k.
  destruct (in_dec string_dec k (map fst items)) as [Hin|Hout].
  - apply in_map_iff in Hin as ([k' v] & Hk & Hin). cbn in Hk. subst k'.
    rewrite !(update_config_given items _ k v Hnd Hin). reflexivity.
  - rewrite (update_config_other items _ k Hout). reflexivity.
Qed.

End UpdateConfig.

Lemma update_config_overrides_and_keeps_witness :
  let config : gmap string Z := {[ "lr"%string := 1; "gamma"%string := 2 ]} in
  let items := [("lr"%string, 5); ("seed"%string, 7)] in
  EnvCli.update_config config items !! "lr"%string = Some 5
  /\ EnvCli.update_config config items !! "seed"%string = Some 7
  /\ EnvCli.update_config config items !! "gamma"%string
     = config !! "gamma"%string.
Proof.
  intros config items.
  destruct (update_config_overrides_and_keeps Z config items)
    as (Hgiven & Hother & _).
  { repeat constructor; cbn; intros H;
      repeat (destruct H as [H|H]; [discriminate H|]); exact H. }
  split; [apply Hgiven; left; reflexivity|].
  split; [apply Hgiven; right; left; reflexivity|].
  apply Hother. cbn. intros H.
  repeat (destruct H as [H|H]; [discriminate H|]). exact H.
Defined.

(** ** [str2wrapper] and [wrap_env] *)

Section Wrappers.
Import Text EnvCli.

Lemma wrappers_loop_ok (items : list string) :
  forall acc entries,
    List.Forall2 (fun w entry => wrapper_of_item w = Ok entry) items entries ->
    wrappers_loop items acc = Ok (acc ++ entries).
Proof.
  induction items as [|w rest IH]; intros acc entries H;
    inversion H as [|? entry ? entries' Hw Hrest]; subst.
  - cbn. rewrite app_nil_r. reflexivity.
  - cbn [wrappers_loop]. rewrite Hw. cbn [rbind].
    rewrite (IH _ _ Hrest), <- app_assoc. reflexivity.
Qed.

Lemma wrappers_loop_inv (items : list string) :
  forall acc out,
    wrappers_loop items acc = Ok out ->
    exists entries,
      out = acc ++ entries
      /\ List.Forall2 (fun w entry => wrapper_of_item w = Ok entry)
           items entries.
Proof.
  induction items as [|w rest IH]; intros acc out H; cbn [wrappers_loop] in H.
  - injection H as <-. exists []. rewrite app_nil_r. split; constructor.
  - destruct (wrapper_of_item w) as [entry|e] eqn:Hw; [|discriminate].
    cbn [rbind] in H. apply IH in H as (entries & -> & Hrest).
    exists (entry :: entries). rewrite <- app_assoc. split; [reflexivity|].
    constructor; assumption.
Qed.

(** The first item that cannot be read decides the error. *)
Lemma wrappers_loop_raises (before : list string) (w : string)
  (after : list string) (e : exn) :
  forall acc entries,
    List.Forall2 (fun w entry => wrapper_of_item w = Ok entry) before entries ->
    wrapper_of_item w = Raise e ->
    wrappers_loop (before ++ w :: after) acc = Raise e.
Proof.
  induction before as [|w0 rest IH]; intros acc entries H Hw;
    inversion H as [|? entry ? entries' Hw0 Hrest]; subst.
  - cbn. rewrite Hw. reflexivity.
  - cbn [app wrappers_loop]. rewrite Hw0. cbn [rbind].
    apply (IH _ _ Hrest Hw).
Qed.

(** X5: [str2wrapper]: the empty string gives the empty list; any other string
    is read item by item between commas, and it is accepted exactly when
    every item is, with one entry per item in the order written, so one
    more entry than the string has commas. *)
Theorem str2wrapper_reads_item_by_item (wrappers : string)
  (entries : list wrapper_entry) :
  wrappers <> EmptyString ->
  (str2wrapper wrappers = Ok entries
   <-> List.Forall2 (fun w entry => wrapper_of_item w = Ok entry)
         (split "," wrappers) entries)
  /\ (str2wrapper wrappers = Ok entries ->
      length entries = S (count "," wrappers)).
Proof.
  intros Hne.
  assert (Hrun : str2wrapper wrappers = wrappers_loop (split "," wrappers) []).
  { unfold str2wrapper.
    destruct (String.eqb_spec wrappers EmptyString); [contradiction|].
    reflexivity. }
  assert (Hiff : str2wrapper wrappers = Ok entries
                 <-> List.Forall2
                       (fun w entry => wrapper_of_item w = Ok entry)
                       (split "," wrappers) entries).
  { rewrite Hrun. split.
    - intros H. apply wrappers_loop_inv in H as (es & -> & Hes). exact Hes.
    - intros H. apply (wrappers_loop_ok _ [] _ H). }
  split; [exact Hiff|].
  intros H. apply Hiff in H. apply List.Forall2_length in H.
  rewrite <- H. apply split_length.
Qed.

Lemma str2wrapper_items_app (a b : string)
  (first second : list wrapper_entry) :
  a <> EmptyString ->
  b <> EmptyString ->
  str2wrapper a = Ok first ->
  str2wrapper b = Ok second ->
  str2wrapper (a ++ String "," b) = Ok (first ++ second).
Proof.
  intros Ha Hb Hfirst Hsecond. unfold str2wrapper in *.
  destruct (String.eqb_spec a EmptyString); [contradiction|].
  destruct (String.eqb_spec b EmptyString); [contradiction|].
  destruct (String.eqb_spec (a ++ String "," b) EmptyString) as [Hab|_].
  { destruct a; discriminate Hab. }
  apply wrappers_loop_inv in Hfirst as (es1 & -> & H1).
  apply wrappers_loop_inv in Hsecond as (es2 & -> & H2).
  rewrite split_app. apply (wrappers_loop_ok _ []).
  apply List.Forall2_app; assumption.
Qed.

Lemma str2wrapper_reads_item_by_item_witness :
  str2wrapper "rgb_only,partial_obs.5"
  = Ok [(RGBImgObsWrapper, None); (PartialObsWrapper, Some 5)].
Proof.
  apply (str2wrapper_reads_item_by_item "rgb_only,partial_obs.5"
           [(RGBImgObsWrapper, None); (PartialObsWrapper, Some 5)]).
  - discriminate.
  - repeat constructor.
Defined.

(** X6: A tuple entry reads its size before its name: an item whose second tag
    is no integer raises the [ValueError] of [int], whatever its first tag
    is, and tags after the second are not read. *)
Theorem wrapper_of_item_reads_size_first (name size more : string) :
  count "." name = 0%nat ->
  count "." size = 0%nat ->
  more = EmptyString \/ (exists rest, more = String "." rest) ->
  wrapper_of_item (name ++ String "." (size ++ more))
  = match Builtins.int_of_str size with
    | Raise e => Raise e
    | Ok n =>
        match wrapper_zoo name with
        | Raise e => Raise e
        | Ok w => Ok (w, Some n)
        end
    end.
Proof.
  intros Hname Hsize Hmore. unfold wrapper_of_item.
  rewrite split_app, (split_clean "." name Hname).
  assert (Htags : exists tail, split "." (size ++ more) = size :: tail).
  { destruct Hmore as [->|[rest ->]].
    - exists []. replace (size ++ EmptyString)%string with size.
      + apply split_clean. exact Hsize.
      + clear. induction size as [|c r IH]; [reflexivity|].
        change (String c r = String c (r ++ EmptyString)%string).
        congruence.
    - exists (split "." rest). rewrite split_app, (split_clean "." size Hsize).
      reflexivity. }
  destruct Htags as [tail ->]. cbn [app length Nat.ltb Nat.leb].
  unfold tag. cbn [nth_error rbind].
  destruct (Builtins.int_of_str size); cbn [rbind]; [|reflexivity].
  destruct (wrapper_zoo name); reflexivity.
Qed.

Lemma wrapper_of_item_reads_size_first_witness :
  wrapper_of_item "no_such_wrapper.five" = Raise ValueError
  /\ wrapper_of_item "no_such_wrapper.5" = Raise KeyError
  /\ wrapper_of_item "partial_obs.5.7" = Ok (PartialObsWrapper, Some 5).
Proof.
  split; [|split].
  - apply (wrapper_of_item_reads_size_first "no_such_wrapper" "five"
             EmptyString); [reflexivity|reflexivity|left; reflexivity].
  - apply (wrapper_of_item_reads_size_first "no_such_wrapper" "5"
             EmptyString); [reflexivity|reflexivity|left; reflexivity].
  - apply (wrapper_of_item_reads_size_first "partial_obs" "5" ".7");
      [reflexivity|reflexivity|right; eexists; reflexivity].
Defined.

Section Wrapping.

Variable GymEnv : Type.
Variable construct : wrapper -> option Z -> GymEnv -> result GymEnv.

Lemma wrap_env_app (first second : list wrapper_entry) :
  forall env,
    wrap_env GymEnv construct env (first ++ second)
    = rbind (wrap_env GymEnv construct env first)
        (fun env' => wrap_env GymEnv construct env' second).
Proof.
  induction first as [|[w size] rest IH]; intros env; [reflexivity|].
  cbn [app wrap_env]. destruct (construct w size env) as [env'|e];
    cbn [rbind]; [apply IH|reflexivity].
Qed.

(** X7: [str2wrapper] and [wrap_env] together: wrapping by two wrapper strings
    written one after the other with a comma between them is wrapping by
    the first and then by the second, so the wrapper written first ends up
    innermost; wrapping by the empty string leaves the environment as it
    is. *)
Theorem wrap_env_of_joined_strings (a b : string)
  (first second : list wrapper_entry) (env : GymEnv) :
  a <> EmptyString ->
  b <> EmptyString ->
  str2wrapper a = Ok first ->
  str2wrapper b = Ok second ->
  str2wrapper (a ++ String "," b) = Ok (first ++ second)
  /\ wrap_env GymEnv construct env (first ++ second)
     = rbind (wrap_env GymEnv construct env first)
         (fun env' => wrap_env GymEnv construct env' second)
  /\ rbind (str2wrapper EmptyString) (wrap_env GymEnv construct env)
     = Ok env.
Proof.
  intros Ha Hb Hfirst Hsecond.
  split; [|split; [apply wrap_env_app|reflexivity]].
  apply (str2wrapper_items_app a b); assumption.
Qed.

End Wrapping.

End Wrappers.

(** A size is read as [int] reads it: blanks around it are skipped, the
    separator [chr(28)] is not. *)
Example str2wrapper_examples :
  EnvCli.str2wrapper "rgb_only,partial_obs. 7"
  = Ok [(EnvCli.RGBImgObsWrapper, None); (EnvCli.PartialObsWrapper, Some 7)]
  /\ EnvCli.str2wrapper ("partial_obs." ++ String (ascii_of_nat 28) "7")
     = Raise ValueError
  /\ EnvCli.str2wrapper "partial_obs.seven" = Raise ValueError
  /\ EnvCli.str2wrapper "full_obs.7" = Raise KeyError
  /\ EnvCli.str2wrapper "rgb_only," = Raise KeyError.
Proof. repeat split; reflexivity. Qed.

(** ** [fade_video]: which frames are faded *)

Section FadeVideoFrames.
Import Video.

Variable Image : Type.
Variable fade_image : Image -> float -> Image.

(** With no fade steps on either side the loop copies every frame. *)
Lemma fade_loop_copies (total steps fin fout : Z) (frames : list Image) :
  fin <= 0 ->
  fout <= 0 ->
  forall t acc,
    0 <= t ->
    t + Z.of_nat (length frames) <= total ->
    fade_loop Image fade_image total steps fin fout t frames acc
    = Ok (acc ++ frames).
Proof.
  intros Hfin Hfout.
  induction frames as [|frame rest IH]; intros t acc Ht Hlen.
  - cbn. rewrite app_nil_r. reflexivity.
  - cbn [fade_loop length] in *. unfold fade_frame.
    destruct (Z.ltb_spec t fin) as [?|_]; [lia|].
    destruct (Z.geb_spec t (total - fout)) as [?|_]; [lia|].
    cbn [rbind]. rewrite IH by lia. rewrite <- app_assoc. reflexivity.
Qed.

(** X8: [fade_video] with a fade-out requested and a ratio too small (or
    negative) to give a single fade step returns the buffer as it is,
    with or without fade-in. *)
Theorem fade_video_without_steps_is_identity (buffer : list Image)
  (fade_ratio prod : float) (fade_steps : Z) (fade_in : bool) :
  fmul_int fade_ratio (Z.of_nat (length buffer)) = Ok prod ->
  int_of_float prod = Ok fade_steps ->
  fade_steps <= 0 ->
  fade_video Image fade_image buffer fade_ratio fade_in true = Ok buffer.
Proof.
  intros Hprod Hsteps Hle. unfold fade_video. rewrite orb_true_r.
  cbn [negb]. rewrite Hprod. cbn [rbind]. rewrite Hsteps. cbn [rbind].
  apply (fade_loop_copies _ _ _ _ buffer); [destruct fade_in; lia|lia|lia|lia].
Qed.

(** What the loop leaves at each position. *)
Lemma fade_loop_lookup (total steps fin fout : Z) (frames : list Image) :
  forall t acc out,
    fade_loop Image fade_image total steps fin fout t frames acc = Ok out ->
    forall i frame,
      frames !! i = Some frame ->
      exists frame',
        fade_frame Image fade_image total steps fin fout
          (t + Z.of_nat i) frame = Ok frame'
        /\ out !! (length acc + i)%nat = Some frame'.
Proof.
  induction frames as [|frame0 rest IH]; intros t acc out Hrun i frame Hi;
    [discriminate|].
  cbn [fade_loop] in Hrun.
  destruct (fade_frame Image fade_image total steps fin fout t frame0)
    as [frame0'|e] eqn:H0; [|discriminate]. cbn [rbind] in Hrun.
  destruct i as [|i].
  - injection Hi as <-. exists frame0'. rewrite Z.add_0_r.
    split; [exact H0|].
    assert (Hpre : forall fs t' acc' out',
               fade_loop Image fade_image total steps fin fout t' fs acc'
               = Ok out' ->
               forall j x, acc' !! j = Some x -> out' !! j = Some x).
    { clear. induction fs as [|f fs IHfs]; intros t' acc' out' H j x Hj.
      - injection H as <-. exact Hj.
      - cbn [fade_loop] in H.
        destruct (fade_frame Image fade_image total steps fin fout t' f);
          [|discriminate].
        cbn [rbind] in H. apply (IHfs _ _ _ H).
        apply lookup_app_l_Some. exact Hj. }
    apply (Hpre _ _ _ _ Hrun). rewrite Nat.add_0_r.
    apply list_lookup_middle. reflexivity.
  - destruct (IH _ _ _ Hrun i frame Hi) as (frame' & Hf & Hout).
    exists frame'. split.
    + replace (t + Z.of_nat (S i)) with (t + 1 + Z.of_nat i) by lia.
      exact Hf.
    + rewrite length_app in Hout. cbn [length] in Hout.
      replace (length acc + S i)%nat with (length acc + 1 + i)%nat by lia.
      exact Hout.
Qed.

(** X9: whenever [fade_video] returns, each output frame is the input frame
    at the same position or a faded copy of it; with both effects requested,
    the frames from position [fade_steps] up to [total - fade_steps] are the
    input frames themselves. *)
Theorem fade_video_fades_in_place (buffer out : list Image)
  (fade_ratio prod : float) (fade_steps : Z) (fade_in fade_out : bool) :
  fmul_int fade_ratio (Z.of_nat (length buffer)) = Ok prod ->
  int_of_float prod = Ok fade_steps ->
  fade_video Image fade_image buffer fade_ratio fade_in fade_out = Ok out ->
  forall t frame,
    buffer !! t = Some frame ->
    (out !! t = Some frame
     \/ exists alpha, out !! t = Some (fade_image frame alpha))
    /\ (fade_in = true -> fade_out = true ->
        fade_steps <= Z.of_nat t < Z.of_nat (length buffer) - fade_steps ->
        out !! t = Some frame).
Proof.
  intros Hprod Hsteps Hrun t frame Ht. unfold fade_video in Hrun.
  destruct (negb (fade_in || fade_out)) eqn:Hflags.
  - injection Hrun as <-. split; [left; exact Ht|intros _ _ _; exact Ht].
  - rewrite Hprod in Hrun. cbn [rbind] in Hrun.
    rewrite Hsteps in Hrun. cbn [rbind] in Hrun.
    destruct (fade_loop_lookup _ _ _ _ _ _ _ _ Hrun t frame Ht)
      as (frame' & Hf & Hout).
    cbn [length Nat.add] in Hout. rewrite Z.add_0_l in Hf.
    unfold fade_frame in Hf. split.
    + destruct (Z.of_nat t <? _).
      { destruct (int_truediv _ _) as [q|]; [|discriminate].
        cbn [rbind] in Hf. destruct (int_fsub 1 q) as [a|]; [|discriminate].
        injection Hf as <-. right. eexists. exact Hout. }
      destruct (Z.of_nat t >=? _).
      { destruct (int_truediv _ _) as [a|]; [|discriminate].
        injection Hf as <-. right. eexists. exact Hout. }
      injection Hf as <-. left. exact Hout.
    + intros -> -> Hmid.
      destruct (Z.ltb_spec (Z.of_nat t) fade_steps) as [?|_]; [lia|].
      destruct (Z.geb_spec (Z.of_nat t)
                  (Z.of_nat (length buffer) - fade_steps)) as [?|_]; [lia|].
      injection Hf as <-. exact Hout.
Qed.

(** X10: with fade-in requested and fade-out not, no frame is returned as it
    came: whenever [fade_video] returns, every output frame is a faded copy
    of the input frame at its position, also after the fade-in steps. *)
Theorem fade_video_fade_in_only_fades_all (buffer out : list Image)
  (fade_ratio : float) :
  fade_video Image fade_image buffer fade_ratio true false = Ok out ->
  forall t frame,
    buffer !! t = Some frame ->
    exists alpha, out !! t = Some (fade_image frame alpha).
Proof.
  intros Hrun t frame Ht. unfold fade_video in Hrun. cbn [orb negb] in Hrun.
  destruct (fmul_int fade_ratio _) as [prod|]; [|discriminate].
  cbn [rbind] in Hrun.
  destruct (int_of_float prod) as [fade_steps|]; [|discriminate].
  cbn [rbind] in Hrun.
  destruct (fade_loop_lookup _ _ _ _ _ _ _ _ Hrun t frame Ht)
    as (frame' & Hf & Hout).
  cbn [length Nat.add] in Hout. rewrite Z.add_0_l in Hf.
  unfold fade_frame in Hf.
  destruct (Z.of_nat t <? fade_steps).
  - destruct (int_truediv _ _) as [q|]; [|discriminate].
    cbn [rbind] in Hf. destruct (int_fsub 1 q) as [a|]; [|discriminate].
    injection Hf as <-. eexists. exact Hout.
  - destruct (Z.geb_spec (Z.of_nat t)
                (Z.of_nat (length buffer) - Z.of_nat (length buffer)))
      as [_|?]; [|lia].
    destruct (int_truediv _ _) as [a|]; [|discriminate].
    injection Hf as <-. eexists. exact Hout.
Qed.

End FadeVideoFrames.

(** Three frames at ratio [0.25]: no fade step. *)
Lemma fade_video_without_steps_is_identity_witness :
  Video.fade_video nat (fun frame _ => (frame + 100)%nat) [1; 2; 3]%nat
    (S754_finite false 4503599627370496 (-54)) true true
  = Ok [1; 2; 3]%nat.
Proof.
  eapply (fade_video_without_steps_is_identity nat _ [1; 2; 3]%nat
            (S754_finite false 4503599627370496 (-54)) _ 0 true);
    [reflexivity | reflexivity | lia].
Defined.

(** Six frames at ratio one third, both effects: two fade steps on each
    side, the third frame is untouched. *)
Lemma fade_video_fades_in_place_witness :
  [101; 102; 3; 4; 105; 106]%nat !! 2%nat = Some 3%nat.
Proof.
  eapply (fade_video_fades_in_place nat (fun frame _ => (frame + 100)%nat)
            [1; 2; 3; 4; 5; 6]%nat [101; 102; 3; 4; 105; 106]%nat
            (S754_finite false 6004799503160661 (-54)) _ 2 true true);
    [reflexivity | reflexivity | reflexivity | reflexivity
    | reflexivity | reflexivity | cbn; lia].
Defined.

(** Four frames at ratio [0.5], fade-in only: the last frame is faded too. *)
Lemma fade_video_fade_in_only_fades_all_witness :
  exists alpha : float,
    [101; 102; 103; 104]%nat !! 3%nat
    = Some ((fun (frame : nat) (_ : float) => (frame + 100)%nat) 4%nat alpha).
Proof.
  apply (fade_video_fade_in_only_fades_all nat
           (fun frame _ => (frame + 100)%nat)
           [1; 2; 3; 4]%nat [101; 102; 103; 104]%nat Samples.one_half);
    reflexivity.
Defined.

(** Environments as the stack of wrappers put around them. *)
Lemma wrap_env_of_joined_strings_witness :
  EnvCli.str2wrapper "rgb_only,partial_obs.5"
  = Ok [(EnvCli.RGBImgObsWrapper, None); (EnvCli.PartialObsWrapper, Some 5)].
Proof.
  apply (wrap_env_of_joined_strings
           (list EnvCli.wrapper_entry)
           (fun w size env => Ok ((w, size) :: env))
           "rgb_only" "partial_obs.5"
           [(EnvCli.RGBImgObsWrapper, None)]
           [(EnvCli.PartialObsWrapper, Some 5)] []);
    [discriminate | discriminate | reflexivity | reflexivity].
Defined.

(** ** More on the analysis object *)

Section ObjectsMore.
Import Analysis.

(** Saving to a path of [world2] that can be written. *)
Lemma save_restores_on_success_witness :
  save 1%nat "/data/analysis.pkl.gz" Samples.world2
  = (Ok tt,
     with_effects Samples.world2
       [GzipOpen "/data/analysis.pkl.gz";
        PickleDump "/data/analysis.pkl.gz"
          {| data := None; config := 0%nat; img_fmt := "pdf" |}
          (Some {| num_processes := 4 |})]).
Proof.
  apply (save_restores_on_success Samples.world2 1%nat
           {| data := Some [Samples.rec true; Samples.rec false;
                            Samples.rec true];
              config := 0%nat; img_fmt := "pdf" |}
           "/data/analysis.pkl.gz"); reflexivity.
Defined.

(** X16: [_get_mp_pool] on a host that cannot tell its number of cores
    ([os.cpu_count()] is [None]): a pool of one worker is created, and then
    the log statement raises [NotImplementedError], so the pool is never
    handed to the caller; the configuration is left with [-1]. *)
Theorem get_mp_pool_without_core_count (w : World) (self : loc)
  (o : AnalysisBase) (cfg : AnalysisConfiguration) :
  objects w !! self = Some o ->
  configs w !! config o = Some cfg ->
  os_cpu_count (host w) = None ->
  _get_mp_pool self w
  = (Raise NotImplementedError,
     {| host := host w;
        configs := <[config o := {| num_processes := -1 |}]> (configs w);
        objects := objects w;
        effects := effects w ++ [NewPool 1] |}).
Proof.
  intros Hself Hcfg Hcpu.
  unfold _get_mp_pool, bind at 1, get_self. rewrite Hself.
  unfold bind at 1, set_num_processes. rewrite Hcfg.
  set (w1 := with_configs w _).
  assert (H1 : configs w1 !! config o = Some {| num_processes := -1 |})
    by apply lookup_insert_eq.
  unfold bind at 1, get_num_processes at 1. rewrite H1. cbn [num_processes].
  change (-1 >? 1) with false. cbv iota.
  unfold bind at 1, mp_Pool, bind at 1, bind at 1, gets at 1.
  cbn [host w1 with_configs]. rewrite Hcpu. unfold ret at 1.
  change (1 <? 1) with false. cbv iota.
  unfold bind at 1, emit, modify, ret at 1.
  set (w2 := with_effects w1 _).
  unfold bind at 1, get_num_processes.
  assert (H2 : configs w2 !! config o = Some {| num_processes := -1 |})
    by exact H1.
  rewrite H2. cbn [num_processes]. change (-1 >? 1) with false. cbv iota.
  unfold bind at 1, mp_cpu_count, bind at 1, gets.
  cbn [host w2 w1 with_effects with_configs]. rewrite Hcpu.
  unfold raise. reflexivity.
Qed.

End ObjectsMore.

(** [world2] moved to a host without a core count. *)
Lemma get_mp_pool_without_core_count_witness :
  let w :=
    {| Analysis.host :=
         {| Analysis.os_cpu_count := None;
            Analysis.can_open := fun _ => true;
            Analysis.picklable := fun _ => true |};
       Analysis.configs := Analysis.configs Samples.world2;
       Analysis.objects := Analysis.objects Samples.world2;
       Analysis.effects := [] |} in
  fst (Analysis._get_mp_pool 1%nat w) = Raise NotImplementedError
  /\ Analysis.effects (snd (Analysis._get_mp_pool 1%nat w))
     = [Analysis.NewPool 1].
Proof.
  intros w.
  rewrite (get_mp_pool_without_core_count w 1%nat
             {| Analysis.data :=
                  Some [Samples.rec true; Samples.rec false;
                        Samples.rec true];
                Analysis.config := 0%nat; Analysis.img_fmt := "pdf" |}
             {| Analysis.num_processes := 4 |});
    [split; reflexivity | reflexivity | reflexivity | reflexivity].
Defined.

(** ** More on the multi-panel plot *)

Section PanelsMore.
Import Analysis.

Variable np_mean : list float -> float.

Lemma arange_from_descending_empty (fuel : nat) (stop step : Z) :
  0 <= stop -> step < 0 -> Numpy.arange_from fuel 0 stop step = [].
Proof.
  intros Hstop Hstep. destruct fuel as [|fuel]; [reflexivity|].
  cbn [Numpy.arange_from].
  destruct (Z.ltb_spec 0 step) as [?|_]; [lia|].
  destruct (Z.ltb_spec stop 0) as [?|_]; [lia|]. reflexivity.
Qed.

(** X19: [_plot_elements_sp] with a negative batch size (and the first record
    flagged) returns normally without drawing or saving anything. *)
Theorem plot_elements_sp_negative_batch_draws_nothing (w : World)
  (self : loc) (o : AnalysisBase) (d : InteractionDataPoint)
  (rest : list InteractionDataPoint) (series : list float)
  (high_limit low_limit : float)
  (output_img high_label low_label title y_label : string)
  (eps_per_plot : Z) :
  objects w !! self = Some o ->
  data o = Some (d :: rest) ->
  new_episode d = true ->
  eps_per_plot < 0 ->
  _plot_elements_sp np_mean self series high_limit low_limit output_img
    high_label low_label title y_label eps_per_plot w
  = (Ok tt, w).
Proof.
  intros Hself Hdata Hflag Hb.
  unfold _plot_elements_sp, bind at 1, get_self. rewrite Hself.
  unfold bind at 1, lift at 1, iter_data. rewrite Hdata.
  unfold bind at 1, lift at 1, Numpy.where_. cbn [map Numpy.where_from].
  rewrite Hflag. cbn [PyList.remove Nat.eqb].
  unfold bind at 1, lift at 1, Numpy.arange.
  destruct (Z.eqb_spec eps_per_plot 0) as [?|_]; [lia|].
  rewrite arange_from_descending_empty by lia. reflexivity.
Qed.

End PanelsMore.

Lemma plot_elements_sp_negative_batch_draws_nothing_witness :
  Analysis._plot_elements_sp (fun _ => Samples.f2) 5%nat
    [Samples.f1; Samples.f3; Samples.f2; Samples.f1] Samples.f3 S754_nan
    "/data/values.png" "high" "low" "Value" "value" (-1) Samples.world5
  = (Ok tt, Samples.world5).
Proof.
  apply (plot_elements_sp_negative_batch_draws_nothing (fun _ => Samples.f2)
           Samples.world5 5%nat
           {| Analysis.data :=
                Some [Samples.rec true; Samples.rec false; Samples.rec true;
                      Samples.rec false];
              Analysis.config := 0%nat; Analysis.img_fmt := "pdf" |}
           (Samples.rec true)
           [Samples.rec false; Samples.rec true; Samples.rec false]);
    [reflexivity | reflexivity | reflexivity | lia].
Defined.

(** ** Episodes as cut by [_plot_elements_sp] *)

Section EpisodeSplit.
Import Analysis AnalysisRest.

Lemma where_from_sorted (flags : list bool) :
  forall i, StronglySorted lt (Numpy.where_from i flags).
Proof.
  induction flags as [|b r IH]; intros i; [constructor|].
  cbn [Numpy.where_from]. destruct b; [|apply IH].
  constructor; [apply IH|]. apply List.Forall_forall. intros t Ht.
  apply where_from_ge in Ht. lia.
Qed.

Lemma where_from_below (flags : list bool) :
  forall i t, In t (Numpy.where_from i flags) -> (t < i + length flags)%nat.
Proof.
  induction flags as [|b r IH]; intros i t Ht; [contradiction|].
  cbn [Numpy.where_from length] in *. destruct b.
  - destruct Ht as [<-|Ht]; [lia|]. apply IH in Ht. lia.
  - apply IH in Ht. lia.
Qed.

Lemma where_from_length (records : list InteractionDataPoint) :
  forall i,
    length (Numpy.where_from i (map new_episode records)) = flagged records.
Proof.
  unfold flagged.
  induction records as [|d r IH]; intros i; [reflexivity|].
  cbn [map Numpy.where_from List.filter]. destruct (new_episode d);
    cbn [length]; rewrite IH; reflexivity.
Qed.

(** Cutting at ascending positions inside the array. *)
Lemma split_from_partitions {A : Type} (ary : list A) (indices : list nat) :
  forall prev,
    (prev < length ary)%nat ->
    StronglySorted lt indices ->
    List.Forall (fun i => (prev < i < length ary)%nat) indices ->
    concat (Numpy.split_from ary prev indices) = skipn prev ary
    /\ List.Forall (fun piece => piece <> []) (Numpy.split_from ary prev indices)
    /\ length (Numpy.split_from ary prev indices) = S (length indices).
Proof.
  induction indices as [|i r IH]; intros prev Hprev Hsorted Hin.
  - cbn [Numpy.split_from concat length]. unfold slice.
    rewrite app_nil_r, List.firstn_all2 by (rewrite List.length_skipn; lia).
    split; [reflexivity|]. split; [|reflexivity].
    constructor; [|constructor]. intros Hnil.
    apply (f_equal (@length A)) in Hnil.
    rewrite List.length_skipn in Hnil. cbn in Hnil. lia.
  - inversion Hsorted as [|? ? Hsorted' Hlt]; subst.
    inversion Hin as [|? ? Hi Hin']; subst.
    destruct (IH i) as (Hcat & Hpieces & Hlen); [lia|exact Hsorted'| |].
    { rewrite List.Forall_forall in *. intros j Hj.
      specialize (Hlt j Hj). specialize (Hin' j Hj). lia. }
    cbn [Numpy.split_from concat length]. rewrite Hcat, Hlen.
    split; [|split; [|reflexivity]].
    + unfold slice.
      replace (skipn i ary) with (skipn (i - prev) (skipn prev ary)).
      * apply List.firstn_skipn.
      * rewrite List.skipn_skipn. f_equal. lia.
    + constructor; [|exact Hpieces]. unfold slice. intros Hnil.
      apply (f_equal (@length A)) in Hnil.
      rewrite List.length_firstn, List.length_skipn in Hnil. cbn in Hnil.
      lia.
Qed.

(** X17: the episodes of [_plot_elements_sp].  With the first record flagged
    and one value per record, removing position 0 from the flagged
    positions succeeds, and cutting the series at the remaining ones gives
    one episode per flagged record, none of them empty, which laid end to
    end are the series. *)
Theorem episode_split_partitions_series (d : InteractionDataPoint)
  (rest : list InteractionDataPoint) (series : list float) :
  new_episode d = true ->
  length series = length (d :: rest) ->
  exists ep_breaks,
    PyList.remove 0%nat (Numpy.where_ (map new_episode (d :: rest)))
    = Ok ep_breaks
    /\ concat (Numpy.split series ep_breaks) = series
    /\ List.Forall (fun ep_data => ep_data <> [])
         (Numpy.split series ep_breaks)
    /\ length (Numpy.split series ep_breaks) = flagged (d :: rest).
Proof.
  intros Hflag Hlen. exists (Numpy.where_from 1 (map new_episode rest)).
  split.
  { unfold Numpy.where_. cbn [map Numpy.where_from]. rewrite Hflag.
    reflexivity. }
  cbn [length] in Hlen.
  destruct (split_from_partitions series
              (Numpy.where_from 1 (map new_episode rest)) 0%nat)
    as (Hcat & Hpieces & Hcount).
  - lia.
  - apply where_from_sorted.
  - apply List.Forall_forall. intros t Ht.
    pose proof (where_from_ge _ _ _ Ht).
    pose proof (where_from_below _ _ _ Ht) as Hb.
    rewrite length_map in Hb. lia.
  - unfold Numpy.split. split; [exact Hcat|]. split; [exact Hpieces|].
    rewrite Hcount, where_from_length. unfold flagged.
    cbn [List.filter]. rewrite Hflag. reflexivity.
Qed.

Lemma episode_split_partitions_series_witness :
  exists ep_breaks,
    PyList.remove 0%nat
      (Numpy.where_
         (map new_episode
            [Samples.rec true; Samples.rec false; Samples.rec true;
             Samples.rec false]))
    = Ok ep_breaks
    /\ concat
         (Numpy.split [Samples.f1; Samples.f3; Samples.f2; Samples.f1]
            ep_breaks)
       = [Samples.f1; Samples.f3; Samples.f2; Samples.f1].
Proof.
  destruct (episode_split_partitions_series (Samples.rec true)
              [Samples.rec false; Samples.rec true; Samples.rec false]
              [Samples.f1; Samples.f3; Samples.f2; Samples.f1])
    as (ep_breaks & Hbreaks & Hcat & _); [reflexivity|reflexivity|].
  exists ep_breaks. split; [exact Hbreaks|exact Hcat].
Defined.

End EpisodeSplit.

(** ** What [_plot_elements_sp] saves *)

Section SavedPanels.
Import Analysis AnalysisRest.

Variable np_mean : list float -> float.

(** With one value per record, no episode is empty. *)
Lemma episodes_nonempty (d : InteractionDataPoint)
  (rest : list InteractionDataPoint) (series : list float) :
  length series = length (d :: rest) ->
  List.Forall (fun ep_data => ep_data <> [])
    (Numpy.split series (Numpy.where_from 1 (map new_episode rest))).
Proof.
  intros Hlen. cbn [length] in Hlen.
  destruct (split_from_partitions series
              (Numpy.where_from 1 (map new_episode rest)) 0%nat)
    as (_ & Hpieces & _).
  - lia.
  - apply where_from_sorted.
  - apply List.Forall_forall. intros t Ht.
    pose proof (where_from_ge _ _ _ Ht).
    pose proof (where_from_below _ _ _ Ht) as Hb.
    rewrite length_map in Hb. lia.
  - exact Hpieces.
Qed.

Lemma rows_where_member (keep : float -> bool) (ep_data : list float)
  (t : nat) (v : float) :
  In (t, v) (rows_where keep ep_data)
  <-> ep_data !! t = Some v /\ keep v = true.
Proof.
  split; [apply rows_where_values|]. intros [Hv Hk].
  unfold rows_where. apply in_flat_map. exists t. split.
  - apply in_seq. apply lookup_lt_Some in Hv. lia.
  - rewrite Hv, Hk. left. reflexivity.
Qed.

Lemma marked_marks_of (keep : float -> bool) (ep_data : list float) :
  marked (marks_of keep ep_data) = rows_where keep ep_data.
Proof.
  unfold marks_of. destruct (rows_where keep ep_data); reflexivity.
Qed.

Lemma marks_of_exactly (keep : float -> bool) (ep_data : list float) :
  marks_exactly keep ep_data (marks_of keep ep_data).
Proof.
  unfold marks_exactly. rewrite marked_marks_of. split; [|split].
  - intros t v. apply rows_where_member.
  - rewrite rows_where_fst. apply filter_seq_ascending.
  - unfold marks_of. split.
    + intros Hnone t v Hv.
      destruct (keep v) eqn:Hk; [|reflexivity].
      assert (Hin : In (t, v) (rows_where keep ep_data))
        by (apply rows_where_member; auto).
      destruct (rows_where keep ep_data); [contradiction|discriminate].
    + intros Hnever.
      destruct (rows_where keep ep_data) as [|[t v] rows] eqn:Hrows;
        [reflexivity|].
      assert (Hin : In (t, v) (rows_where keep ep_data))
        by (rewrite Hrows; left; reflexivity).
      apply rows_where_member in Hin as [Hv Hk].
      rewrite (Hnever t v Hv) in Hk. discriminate.
Qed.

Lemma marks_of_never (keep : float -> bool) (ep_data : list float) :
  (forall v, keep v = false) -> marks_of keep ep_data = None.
Proof.
  intros Hk. unfold marks_of. rewrite rows_where_never by exact Hk.
  reflexivity.
Qed.

(** The panel of an episode carries exactly its outliers. *)
Lemma panel_of_outliers_marked (data : list float)
  (high_limit low_limit : float) (ep_data : list float) :
  outliers_marked high_limit low_limit
    (panel_of np_mean data high_limit low_limit ep_data).
Proof.
  unfold outliers_marked.
  cbn [Analysis.series high_marks low_marks panel_of].
  split; [apply marks_of_exactly|]. split; [apply marks_of_exactly|].
  split; [|split; [|split]].
  - intros Hnan. destruct high_limit; try discriminate.
    apply marks_of_never, fge_nan.
  - intros Hnan. destruct low_limit; try discriminate.
    apply marks_of_never, fle_nan.
  - intros t Hnan Ht. rewrite marked_marks_of. apply rows_where_member.
    split; [exact Ht|apply fge_refl; exact Hnan].
  - intros t Hnan Ht. rewrite marked_marks_of. apply rows_where_member.
    split; [exact Ht|apply fle_refl; exact Hnan].
Qed.

Lemma concat_panel_series (figs : list Figure) :
  concat (map (fun fig => map Analysis.series (panels fig)) figs)
  = map Analysis.series (concat (map panels figs)).
Proof. rewrite concat_map, map_map. reflexivity. Qed.

Lemma panel_of_series (data : list float) (high_limit low_limit : float)
  (eps_data : list (list float)) :
  map Analysis.series
    (map (panel_of np_mean data high_limit low_limit) eps_data)
  = eps_data.
Proof. rewrite map_map. cbn. apply map_id. Qed.


(** C6. The outlier marks of the multi-panel plot.  On a panel, the
    positions marked above are exactly those with
    [series[t] >= high_limit] and the positions marked below exactly those
    with [series[t] <= low_limit], in ascending order and each with its own
    value; a value sitting on a limit is marked, an undefined (NaN) limit
    marks nothing, and the marking step does not raise.  This holds of the
    marking step on every series, of the loop body of [_plot_elements_sp]
    on every panel over an episode with values, and so of every panel of
    every figure that a run of the method saves. *)
Theorem outlier_marks_exact (w : World) (self : loc) (o : AnalysisBase)
  (d : InteractionDataPoint) (rest : list InteractionDataPoint)
  (series : list float) (high_limit low_limit : float)
  (output_img high_label low_label title y_label : string)
  (eps_per_plot : Z) :
  (forall ep_data : list float,
     exists highs lows,
       scatter_where (fun v => fge v high_limit) ep_data = Ok highs
       /\ scatter_where (fun v => fle v low_limit) ep_data = Ok lows
       /\ marks_exactly (fun v => fge v high_limit) ep_data highs
       /\ marks_exactly (fun v => fle v low_limit) ep_data lows)
  /\ (forall (plot_eps_data : list (list float)) (ep : nat)
        (ep_data : list float),
        plot_eps_data !! ep = Some ep_data ->
        ep_data <> [] ->
        exists panel,
          plot_panel np_mean series high_limit low_limit plot_eps_data ep
          = Ok panel
          /\ Analysis.series panel = ep_data
          /\ outliers_marked high_limit low_limit panel)
  /\ (objects w !! self = Some o ->
      data o = Some (d :: rest) ->
      length series = length (d :: rest) ->
      new_episode d = true ->
      2 <= eps_per_plot ->
      let eps_data :=
        Numpy.split series (Numpy.where_from 1 (map new_episode rest)) in
      Z.of_nat (length eps_data) mod eps_per_plot <> 1 ->
      can_open (host w) output_img = true ->
      exists (w' : World) (figs : list Figure),
        _plot_elements_sp np_mean self series high_limit low_limit
          output_img high_label low_label title y_label eps_per_plot w
        = (Ok tt, w')
        /\ saved_figures (effects w') = saved_figures (effects w) ++ figs
        /\ concat (map (fun fig => map Analysis.series (panels fig)) figs)
           = eps_data
        /\ forall fig panel,
             In fig figs ->
             In panel (panels fig) ->
             outliers_marked high_limit low_limit panel).
Proof.
  split; [|split].
  - intros ep_data.
    exists (marks_of (fun v => fge v high_limit) ep_data),
      (marks_of (fun v => fle v low_limit) ep_data).
    split; [apply scatter_where_ok|]. split; [apply scatter_where_ok|].
    split; apply marks_of_exactly.
  - intros plot_eps_data ep ep_data Hep Hne.
    exists (panel_of np_mean series high_limit low_limit ep_data).
    split; [apply plot_panel_eq; assumption|]. split; [reflexivity|].
    apply panel_of_outliers_marked.
  - intros Hself Hdata Hlen Hflag Hb eps_data Hmod Hopen.
    pose proof (episodes_nonempty d rest series Hlen) as Hne.
    destruct (plot_elements_sp_figures np_mean w self o d rest series
                high_limit low_limit output_img high_label low_label title
                y_label eps_per_plot Hself Hdata Hflag Hb Hmod Hne Hopen)
      as (w' & figs & Hrun & Hsaved & _ & Hpanels).
    exists w', figs. split; [exact Hrun|]. split; [exact Hsaved|]. split.
    + rewrite concat_panel_series, Hpanels. apply panel_of_series.
    + intros fig panel Hfig Hpanel.
      assert (Hin : In panel (concat (map panels figs))).
      { apply in_concat. exists (panels fig). split; [|exact Hpanel].
        apply in_map. exact Hfig. }
      fold eps_data in Hpanels. rewrite Hpanels in Hin.
      apply in_map_iff in Hin as (ep_data & <- & _).
      apply panel_of_outliers_marked.
Qed.

End SavedPanels.


(** The two episodes of [world5], [1.0, 3.0] and [2.0, 1.0], against the
    high limit [3.0] and no low limit. *)
Lemma outlier_marks_exact_witness :
  exists (w' : Analysis.World) (figs : list Analysis.Figure),
    Analysis._plot_elements_sp (fun _ => Samples.f2) 5%nat
      [Samples.f1; Samples.f3; Samples.f2; Samples.f1] Samples.f3 S754_nan
      "/data/values.png" "high" "low" "Value" "value" 10 Samples.world5
    = (Ok tt, w')
    /\ Analysis.saved_figures (Analysis.effects w') = figs
    /\ forall fig panel,
         In fig figs ->
         In panel (Analysis.panels fig) ->
         AnalysisRest.outliers_marked Samples.f3 S754_nan panel.
Proof.
  destruct (outlier_marks_exact (fun _ => Samples.f2) Samples.world5 5%nat
              {| Analysis.data :=
                   Some [Samples.rec true; Samples.rec false;
                         Samples.rec true; Samples.rec false];
                 Analysis.config := 0%nat; Analysis.img_fmt := "pdf" |}
              (Samples.rec true)
              [Samples.rec false; Samples.rec true; Samples.rec false]
              [Samples.f1; Samples.f3; Samples.f2; Samples.f1]
              Samples.f3 S754_nan "/data/values.png" "high" "low" "Value"
              "value" 10)
    as (_ & _ & Hrun).
  destruct Hrun as (w' & figs & Hrun & Hfigs & _ & Hmarks);
    [reflexivity | reflexivity | reflexivity | reflexivity | lia
    | discriminate | reflexivity |].
  exists w', figs. split; [exact Hrun|]. split; [exact Hfigs|exact Hmarks].
Defined.

(** ** The rows of the exported table *)

Section ExportRows.
Import Analysis AnalysisRest.

Lemma row_lt_trans (p q r : Z * Z) : row_lt p q -> row_lt q r -> row_lt p r.
Proof. unfold row_lt. lia. Qed.

Lemma row_lt_irrefl (p : Z * Z) : ~ row_lt p p.
Proof. unfold row_lt. lia. Qed.

Lemma index_from_sorted (records : list InteractionDataPoint) :
  forall ep ep_t, -1 <= ep -> Sorted row_lt (index_from ep ep_t records).
Proof.
  induction records as [|d r IH]; intros ep ep_t Hep; [constructor|].
  cbn [index_from].
  pose proof (index_from_head_nonneg ep ep_t d Hep) as Hnn.
  destruct (if new_episode d || (ep =? -1) then (ep + 1, 0) else (ep, ep_t))
    as [e0 t0]. cbn [fst] in Hnn.
  constructor; [apply IH; lia|].
  destruct r as [|d1 r]; [constructor|]. cbn [index_from].
  destruct (Z.eqb_spec e0 (-1)) as [?|_]; [lia|]. rewrite orb_false_r.
  destruct (new_episode d1); constructor; unfold row_lt; cbn; lia.
Qed.

Lemma index_from_nonneg (records : list InteractionDataPoint) :
  forall ep ep_t,
    -1 <= ep -> 0 <= ep_t ->
    List.Forall (fun p => 0 <= fst p /\ 0 <= snd p)
      (index_from ep ep_t records).
Proof.
  induction records as [|d r IH]; intros ep ep_t Hep Ht; [constructor|].
  cbn [index_from].
  destruct (new_episode d || (ep =? -1)) eqn:Hnew.
  - constructor; [cbn; lia|apply IH; lia].
  - apply orb_false_iff in Hnew as [_ Hne]. apply Z.eqb_neq in Hne.
    constructor; [cbn; lia|apply IH; lia].
Qed.

Lemma StronglySorted_row_lt_NoDup (rows : list (Z * Z)) :
  StronglySorted row_lt rows -> List.NoDup rows.
Proof.
  induction 1 as [|p rows _ IH Hall]; constructor; [|exact IH].
  intros Hin. rewrite List.Forall_forall in Hall.
  exact (row_lt_irrefl p (Hall p Hin)).
Qed.

(** The episode of a row counts the flagged records up to it. *)
Lemma index_from_counts (records : list InteractionDataPoint) :
  forall ep ep_t i p,
    0 <= ep ->
    index_from ep ep_t records !! i = Some p ->
    fst p = ep + Z.of_nat (flagged (firstn (S i) records)).
Proof.
  unfold flagged.
  induction records as [|d r IH]; intros ep ep_t i p Hep Hp; [discriminate|].
  cbn [index_from] in Hp.
  destruct (Z.eqb_spec ep (-1)) as [?|_]; [lia|]. rewrite orb_false_r in Hp.
  rewrite List.firstn_cons. cbn [List.filter].
  destruct (new_episode d); destruct i as [|i].
  - injection Hp as <-. rewrite List.firstn_O. cbn. lia.
  - apply IH in Hp; [|lia]. rewrite Hp. cbn [length]. lia.
  - injection Hp as <-. rewrite List.firstn_O. cbn. lia.
  - apply IH in Hp; [|lia]. rewrite Hp. lia.
Qed.

(** X20: the rows of the exported table come in strictly ascending order of
    (episode, local timestep), both counted from 0, so no two rows carry
    the same pair. *)
Theorem exported_rows_are_ordered (w : World) (self : loc)
  (o : AnalysisBase) (records : list InteractionDataPoint)
  (element_data : list float) (dimension file_name : string) :
  objects w !! self = Some o ->
  data o = Some records ->
  length element_data = length records ->
  dimension <> EPISODE_STR ->
  dimension <> TIME_STEP_STR ->
  can_open (host w) file_name = true ->
  exists (df : DataFrame) (rows : list (Z * Z)),
    _save_time_dataset_csv self element_data dimension file_name w
    = (Ok tt,
       with_effects w
         ((effects w ++ [ToCsv file_name df])
          ++ [LogInfo CSV_SAVED_MSG [FStr dimension; FStr file_name]]))
    /\ columns df
       = [(EPISODE_STR, map (fun p => CInt (fst p)) rows);
          (TIME_STEP_STR, map (fun p => CInt (snd p)) rows);
          (dimension, map CFloat element_data)]
    /\ StronglySorted row_lt rows
    /\ List.NoDup rows
    /\ List.Forall (fun p => 0 <= fst p /\ 0 <= snd p) rows.
Proof.
  intros Hself Hdata Hlen HdE HdT Hopen.
  pose proof (save_time_dataset_csv_run w self o records element_data
                dimension file_name Hself Hdata Hlen HdE HdT Hopen) as Hrun.
  eexists. exists (index_from (-1) 0 records).
  split; [exact Hrun|]. split; [reflexivity|].
  assert (Hsorted : StronglySorted row_lt (index_from (-1) 0 records)).
  { apply Sorted_StronglySorted.
    - intros p q r. apply row_lt_trans.
    - apply index_from_sorted. lia. }
  split; [exact Hsorted|].
  split; [apply StronglySorted_row_lt_NoDup; exact Hsorted|].
  apply index_from_nonneg; lia.
Qed.

(** X21: in the exported table, the episode of the row of record [i] is the
    number of flagged records among records 1 to [i]; the flag of the very
    first record does not count. *)
Theorem exported_episode_counts_flags (w : World) (self : loc)
  (o : AnalysisBase) (records : list InteractionDataPoint)
  (element_data : list float) (dimension file_name : string) :
  objects w !! self = Some o ->
  data o = Some records ->
  length element_data = length records ->
  dimension <> EPISODE_STR ->
  dimension <> TIME_STEP_STR ->
  can_open (host w) file_name = true ->
  exists (df : DataFrame) (rows : list (Z * Z)),
    _save_time_dataset_csv self element_data dimension file_name w
    = (Ok tt,
       with_effects w
         ((effects w ++ [ToCsv file_name df])
          ++ [LogInfo CSV_SAVED_MSG [FStr dimension; FStr file_name]]))
    /\ columns df
       = [(EPISODE_STR, map (fun p => CInt (fst p)) rows);
          (TIME_STEP_STR, map (fun p => CInt (snd p)) rows);
          (dimension, map CFloat element_data)]
    /\ forall i p,
         rows !! i = Some p ->
         fst p = Z.of_nat (flagged (firstn i (tail records))).
Proof.
  intros Hself Hdata Hlen HdE HdT Hopen.
  pose proof (save_time_dataset_csv_run w self o records element_data
                dimension file_name Hself Hdata Hlen HdE HdT Hopen) as Hrun.
  eexists. exists (index_from (-1) 0 records).
  split; [exact Hrun|]. split; [reflexivity|].
  intros i p Hp. destruct records as [|d rest]; [discriminate|].
  cbn [index_from tail] in *. rewrite orb_true_r in Hp.
  destruct i as [|i].
  - injection Hp as <-. reflexivity.
  - change (index_from (-1 + 1) (0 + 1) rest !! i = Some p) in Hp.
    apply index_from_counts in Hp; [|lia]. rewrite Hp. lia.
Qed.

End ExportRows.

(** Four records, the first one not flagged (see [world3]). *)
Lemma exported_rows_are_ordered_witness :
  exists (df : Analysis.DataFrame) (rows : list (Z * Z)),
    fst (Analysis._save_time_dataset_csv 3%nat
           [Samples.f1; Samples.f2; Samples.f3; Samples.f1]
           "Value" "/data/value.csv" Samples.world3) = Ok tt
    /\ List.NoDup rows
    /\ length (Analysis.columns df) = 3%nat.
Proof.
  destruct (exported_rows_are_ordered Samples.world3 3%nat
              {| Analysis.data :=
                   Some [Samples.rec false; Samples.rec true;
                         Samples.rec false; Samples.rec false];
                 Analysis.config := 0%nat; Analysis.img_fmt := "pdf" |}
              [Samples.rec false; Samples.rec true;
               Samples.rec false; Samples.rec false]
              [Samples.f1; Samples.f2; Samples.f3; Samples.f1]
              "Value" "/data/value.csv")
    as (df & rows & Hrun & Hcols & _ & Hnodup & _);
    [reflexivity | reflexivity | reflexivity | discriminate | discriminate
    | reflexivity |].
  exists df, rows. rewrite Hrun, Hcols.
  split; [reflexivity|]. split; [exact Hnodup|reflexivity].
Defined.

Lemma exported_episode_counts_flags_witness :
  exists (df : Analysis.DataFrame) (rows : list (Z * Z)),
    fst (Analysis._save_time_dataset_csv 3%nat
           [Samples.f1; Samples.f2; Samples.f3; Samples.f1]
           "Value" "/data/value.csv" Samples.world3) = Ok tt
    /\ length (Analysis.columns df) = 3%nat
    /\ forall p, rows !! 3%nat = Some p -> fst p = 1.
Proof.
  destruct (exported_episode_counts_flags Samples.world3 3%nat
              {| Analysis.data :=
                   Some [Samples.rec false; Samples.rec true;
                         Samples.rec false; Samples.rec false];
                 Analysis.config := 0%nat; Analysis.img_fmt := "pdf" |}
              [Samples.rec false; Samples.rec true;
               Samples.rec false; Samples.rec false]
              [Samples.f1; Samples.f2; Samples.f3; Samples.f1]
              "Value" "/data/value.csv")
    as (df & rows & Hrun & Hcols & Hcount);
    [reflexivity | reflexivity | reflexivity | discriminate | discriminate
    | reflexivity |].
  exists df, rows. rewrite Hrun, Hcols.
  split; [reflexivity|]. split; [reflexivity|].
  intros p Hp. rewrite (Hcount 3%nat p Hp). reflexivity.
Defined.

(** ** The export when the series or the column name does not fit *)

Section ExportEdges.
Import Analysis AnalysisRest.

Lemma csv_loop_app (element_data : list float) (dimension : string)
  (first : list (nat * InteractionDataPoint)) :
  forall st second,
    csv_loop element_data dimension st (first ++ second)
    = rbind (csv_loop element_data dimension st first)
        (fun st' => csv_loop element_data dimension st' second).
Proof.
  induction first as [|[t d] rest IH]; intros st second; [reflexivity|].
  cbn [app csv_loop].
  destruct (csv_body element_data dimension st t d); cbn [rbind];
    [apply IH|reflexivity].
Qed.

Lemma combine_seq_app {A : Type} (first second : list A) :
  forall k,
    combine (seq k (length (first ++ second))) (first ++ second)
    = combine (seq k (length first)) first
      ++ combine (seq (k + length first) (length second)) second.
Proof.
  induction first as [|x rest IH]; intros k.
  - cbn. rewrite Nat.add_0_r. reflexivity.
  - cbn [app length seq combine]. rewrite IH.
    replace (S k + length rest)%nat with (k + S (length rest))%nat by lia.
    reflexivity.
Qed.

Lemma enumerate_app {A : Type} (first second : list A) :
  enumerate (first ++ second)
  = enumerate first ++ combine (seq (length first) (length second)) second.
Proof. unfold enumerate. exact (combine_seq_app first second 0%nat). Qed.

(** The dictionary the export starts from, for a value column named apart
    from the index columns. *)
Lemma export_table_start (dimension : string) :
  dimension <> EPISODE_STR ->
  dimension <> TIME_STEP_STR ->
  od_set dimension [] (od_set TIME_STEP_STR [] (od_set EPISODE_STR [] []))
  = [(EPISODE_STR, []); (TIME_STEP_STR, []); (dimension, [])].
Proof.
  intros HdE HdT.
  assert (E1 : String.eqb EPISODE_STR dimension = false)
    by (apply String.eqb_neq; congruence).
  assert (E2 : String.eqb TIME_STEP_STR dimension = false)
    by (apply String.eqb_neq; congruence).
  cbn [od_set]. change (String.eqb EPISODE_STR TIME_STEP_STR) with false.
  cbv iota. cbn [od_set]. rewrite E1. cbn [od_set]. rewrite E2. reflexivity.
Qed.

(** X22: the export of a series shorter than the record sequence stops with
    [IndexError] at the first record without a value, before any file is
    written. *)
Theorem export_short_series_raises (w : World) (self : loc)
  (o : AnalysisBase) (records : list InteractionDataPoint)
  (element_data : list float) (dimension file_name : string) :
  objects w !! self = Some o ->
  data o = Some records ->
  (length element_data < length records)%nat ->
  dimension <> EPISODE_STR ->
  dimension <> TIME_STEP_STR ->
  _save_time_dataset_csv self element_data dimension file_name w
  = (Raise IndexError, w).
Proof.
  intros Hself Hdata Hlen HdE HdT.
  assert (E1 : String.eqb EPISODE_STR dimension = false)
    by (apply String.eqb_neq; congruence).
  assert (E2 : String.eqb TIME_STEP_STR dimension = false)
    by (apply String.eqb_neq; congruence).
  unfold _save_time_dataset_csv, bind at 1, get_self. rewrite Hself.
  unfold bind at 1, lift at 1, iter_data. rewrite Hdata.
  rewrite export_table_start by assumption.
  set (m := length element_data) in *.
  assert (Hcut : records = firstn m records ++ skipn m records)
    by (symmetry; apply List.firstn_skipn).
  destruct (skipn m records) as [|d post] eqn:Hpost.
  { apply (f_equal (@length _)) in Hpost.
    rewrite List.length_skipn in Hpost. cbn in Hpost. lia. }
  assert (Hm : length (firstn m records) = m)
    by (rewrite List.length_firstn; lia).
  destruct (csv_loop_run element_data dimension HdE HdT (firstn m records)
              0%nat (-1) 0 [] [] [] ltac:(fold m; lia))
    as (ep' & ep_t' & Hrun).
  unfold bind at 1, lift at 1. rewrite Hcut, enumerate_app, csv_loop_app.
  unfold enumerate. rewrite Hrun. cbn [rbind]. rewrite Hm.
  cbn [length seq combine csv_loop]. unfold csv_body.
  cbn [Analysis.ep Analysis.ep_t Analysis.tbl].
  destruct (if new_episode d || (ep' =? -1) then (ep' + 1, 0)
            else (ep', ep_t')) as [e0 t0].
  cbn [od_append rbind]. rewrite String.eqb_refl. cbn [rbind od_append].
  change (String.eqb EPISODE_STR TIME_STEP_STR) with false. cbv iota.
  rewrite String.eqb_refl. cbn [rbind].
  unfold getitem. rewrite (lookup_ge_None_2 element_data m) by (fold m; lia).
  reflexivity.
Qed.

(** X23: the export of a series longer than the record sequence writes one
    row per record and leaves the surplus values out. *)
Theorem export_long_series_is_cut (w : World) (self : loc)
  (o : AnalysisBase) (records : list InteractionDataPoint)
  (element_data : list float) (dimension file_name : string) :
  objects w !! self = Some o ->
  data o = Some records ->
  (length records <= length element_data)%nat ->
  dimension <> EPISODE_STR ->
  dimension <> TIME_STEP_STR ->
  can_open (host w) file_name = true ->
  exists (df : DataFrame) (index_columns : odict),
    _save_time_dataset_csv self element_data dimension file_name w
    = (Ok tt,
       with_effects w
         ((effects w ++ [ToCsv file_name df])
          ++ [LogInfo CSV_SAVED_MSG [FStr dimension; FStr file_name]]))
    /\ nrows df = length records
    /\ columns df
       = index_columns
         ++ [(dimension, map CFloat (firstn (length records) element_data))].
Proof.
  intros Hself Hdata Hlen HdE HdT Hopen.
  unfold _save_time_dataset_csv, bind at 1, get_self. rewrite Hself.
  unfold bind at 1, lift at 1, iter_data. rewrite Hdata.
  rewrite export_table_start by assumption.
  destruct (csv_loop_run element_data dimension HdE HdT records 0%nat (-1) 0
              [] [] [] ltac:(lia)) as (ep' & ep_t' & Hrun).
  unfold bind at 1, lift at 1, enumerate. rewrite Hrun.
  cbn [Analysis.tbl app]. unfold slice.
  replace (0 + length records - 0)%nat with (length records) by lia.
  rewrite drop_0.
  unfold bind at 1, lift at 1, from_dict. cbn [forallb snd].
  rewrite !length_map, index_from_length, List.length_firstn.
  replace (Init.Nat.min (length records) (length element_data))
    with (length records) by lia.
  rewrite Nat.eqb_refl. cbn [andb].
  unfold bind at 1, to_csv, bind at 1, gets. rewrite Hopen.
  unfold emit, modify. eexists.
  exists [(EPISODE_STR,
           map (fun p => CInt (fst p)) (index_from (-1) 0 records));
          (TIME_STEP_STR,
           map (fun p => CInt (snd p)) (index_from (-1) 0 records))].
  split; [reflexivity|]. split; reflexivity.
Qed.

(** The loop when the value column is named like an index column: that
    column takes two cells per record, the other one. *)
Lemma csv_loop_colliding (element_data : list float) (dimension : string) :
  dimension = EPISODE_STR \/ dimension = TIME_STEP_STR ->
  forall records k ep ep_t a b,
    (k + length records <= length element_data)%nat ->
    exists ep' ep_t' a' b',
      csv_loop element_data dimension
        {| ep := ep; ep_t := ep_t;
           tbl := [(EPISODE_STR, a); (TIME_STEP_STR, b)] |}
        (combine (seq k (length records)) records)
      = Ok {| ep := ep'; ep_t := ep_t';
              tbl := [(EPISODE_STR, a'); (TIME_STEP_STR, b')] |}
      /\ (length a'
          = length a
            + (if String.eqb dimension EPISODE_STR then 2 else 1)
              * length records)%nat
      /\ (length b'
          = length b
            + (if String.eqb dimension EPISODE_STR then 1 else 2)
              * length records)%nat.
Proof.
  intros Hdim.
  induction records as [|d r IH]; intros k ep ep_t a b Hlen.
  - exists ep, ep_t, a, b. cbn [length seq combine csv_loop].
    split; [reflexivity|]. split; lia.
  - cbn [length seq combine csv_loop] in *. unfold csv_body.
    cbn [Analysis.ep Analysis.ep_t Analysis.tbl].
    destruct (if new_episode d || (ep =? -1) then (ep + 1, 0) else (ep, ep_t))
      as [e0 t0].
    cbn [od_append rbind]. rewrite String.eqb_refl. cbn [rbind od_append].
    change (String.eqb EPISODE_STR TIME_STEP_STR) with false. cbv iota.
    rewrite String.eqb_refl. cbn [rbind].
    destruct (lookup_lt_is_Some_2 element_data k ltac:(lia)) as [x Hx].
    unfold getitem. rewrite Hx. cbn [rbind].
    destruct Hdim as [Hd | Hd]; rewrite Hd in *.
    + cbn [od_append]. rewrite String.eqb_refl in *. cbn [rbind].
      destruct (IH (S k) e0 (t0 + 1) ((a ++ [CInt e0]) ++ [CFloat x])
                  (b ++ [CInt t0]) ltac:(lia))
        as (ep' & ep_t' & a' & b' & Hrun & Ha & Hb).
      exists ep', ep_t', a', b'. rewrite Hrun.
      rewrite !length_app in *. cbn [length] in *.
      split; [reflexivity|]. split; lia.
    + cbn [od_append].
      change (String.eqb EPISODE_STR TIME_STEP_STR) with false. cbv iota.
      change (String.eqb TIME_STEP_STR EPISODE_STR) with false in *.
      rewrite String.eqb_refl. cbn [rbind].
      destruct (IH (S k) e0 (t0 + 1) (a ++ [CInt e0])
                  ((b ++ [CInt t0]) ++ [CFloat x]) ltac:(lia))
        as (ep' & ep_t' & a' & b' & Hrun & Ha & Hb).
      exists ep', ep_t', a', b'. rewrite Hrun.
      rewrite !length_app in *. cbn [length] in *.
      split; [reflexivity|]. split; lia.
Qed.

(** X24: when the value column is named like one of the two index columns,
    the three columns share two lists; with at least one record they end up
    of different lengths, and the export stops with the [ValueError] of
    [DataFrame.from_dict] before any file is written. *)
Theorem export_colliding_column_name_raises (w : World) (self : loc)
  (o : AnalysisBase) (records : list InteractionDataPoint)
  (element_data : list float) (dimension file_name : string) :
  objects w !! self = Some o ->
  data o = Some records ->
  records <> [] ->
  (length records <= length element_data)%nat ->
  dimension = EPISODE_STR \/ dimension = TIME_STEP_STR ->
  _save_time_dataset_csv self element_data dimension file_name w
  = (Raise ValueError, w).
Proof.
  intros Hself Hdata Hne Hlen Hdim.
  unfold _save_time_dataset_csv, bind at 1, get_self. rewrite Hself.
  unfold bind at 1, lift at 1, iter_data. rewrite Hdata.
  assert (Hstart :
            od_set dimension []
              (od_set TIME_STEP_STR [] (od_set EPISODE_STR [] []))
            = [(EPISODE_STR, []); (TIME_STEP_STR, [])])
    by (destruct Hdim as [-> | ->]; reflexivity).
  rewrite Hstart.
  destruct (csv_loop_colliding element_data dimension Hdim records 0%nat
              (-1) 0 [] [] ltac:(lia))
    as (ep' & ep_t' & a' & b' & Hrun & Ha & Hb).
  unfold bind at 1, lift at 1, enumerate. rewrite Hrun.
  cbn [Analysis.tbl]. unfold bind at 1, lift at 1, from_dict.
  cbn [forallb snd]. cbn [length] in Ha, Hb.
  assert (Hpos : (0 < length records)%nat)
    by (destruct records; [congruence|cbn; lia]).
  destruct (Nat.eqb_spec (length b') (length a')) as [Heq|_];
    [|reflexivity].
  exfalso. destruct (String.eqb dimension EPISODE_STR); lia.
Qed.

End ExportEdges.

(** Four records (see [world3]) against three, five and four values. *)
Lemma export_short_series_raises_witness :
  Analysis._save_time_dataset_csv 3%nat [Samples.f1; Samples.f2; Samples.f3]
    "Value" "/data/value.csv" Samples.world3
  = (Raise IndexError, Samples.world3).
Proof.
  apply (export_short_series_raises Samples.world3 3%nat
           {| Analysis.data :=
                Some [Samples.rec false; Samples.rec true;
                      Samples.rec false; Samples.rec false];
              Analysis.config := 0%nat; Analysis.img_fmt := "pdf" |}
           [Samples.rec false; Samples.rec true;
            Samples.rec false; Samples.rec false]);
    [reflexivity | reflexivity | cbn; lia | discriminate | discriminate].
Defined.

Lemma export_long_series_is_cut_witness :
  exists (df : Analysis.DataFrame),
    fst (Analysis._save_time_dataset_csv 3%nat
           [Samples.f1; Samples.f2; Samples.f3; Samples.f1; Samples.f2]
           "Value" "/data/value.csv" Samples.world3) = Ok tt
    /\ Analysis.nrows df = 4%nat.
Proof.
  destruct (export_long_series_is_cut Samples.world3 3%nat
              {| Analysis.data :=
                   Some [Samples.rec false; Samples.rec true;
                         Samples.rec false; Samples.rec false];
                 Analysis.config := 0%nat; Analysis.img_fmt := "pdf" |}
              [Samples.rec false; Samples.rec true;
               Samples.rec false; Samples.rec false]
              [Samples.f1; Samples.f2; Samples.f3; Samples.f1; Samples.f2]
              "Value" "/data/value.csv")
    as (df & cols & Hrun & Hn & _);
    [reflexivity | reflexivity | cbn; lia | discriminate | discriminate
    | reflexivity |].
  exists df. rewrite Hrun. split; [reflexivity|exact Hn].
Defined.

Lemma export_colliding_column_name_raises_witness :
  Analysis._save_time_dataset_csv 3%nat
    [Samples.f1; Samples.f2; Samples.f3; Samples.f1]
    "Timestep" "/data/value.csv" Samples.world3
  = (Raise ValueError, Samples.world3).
Proof.
  apply (export_colliding_column_name_raises Samples.world3 3%nat
           {| Analysis.data :=
                Some [Samples.rec false; Samples.rec true;
                      Samples.rec false; Samples.rec false];
              Analysis.config := 0%nat; Analysis.img_fmt := "pdf" |}
           [Samples.rec false; Samples.rec true;
            Samples.rec false; Samples.rec false]);
    [reflexivity | reflexivity | discriminate | cbn; lia
    | right; reflexivity].
Defined.

(** ** After a failed [save]; the empty record sequence *)

Section Aftermath.
Import Analysis AnalysisRest.

Variable np_mean : list float -> float.
Variable Color : Type.
Variable distinct_colors : nat -> list Color.
Variable format_and_save_plot :
  Axes Color -> string -> string -> string -> string -> option bool ->
  M World unit.
Variable plt_xticks : list nat -> list string -> result unit.

(** [save] when the archive cannot be opened. *)
Lemma save_unopened_run (w : World) (self : loc) (o : AnalysisBase)
  (file_path : string) :
  objects w !! self = Some o ->
  can_open (host w) file_path = false ->
  save self file_path w
  = (Raise OSError, with_objects w (<[self := detached o]> (objects w))).
Proof.
  intros Hself Hopen. unfold save, bind at 1, get_self at 1.
  rewrite Hself. unfold bind at 1. rewrite (set_data_run w self o None Hself).
  fold (detached o). set (w1 := with_objects w _).
  unfold bind at 1, gzip_open_wb, bind at 1, gets at 1.
  cbn [host w1 with_objects]. rewrite Hopen. reflexivity.
Qed.

(** X15: after a [save] that failed, every operation that reads the records
    of that analysis raises [TypeError] and writes nothing: the tabular
    export, the multi-panel plot, the single-panel plot and the bar
    chart. *)
Theorem operations_after_failed_save_raise (w : World) (self : loc)
  (o : AnalysisBase) (file_path : string) :
  objects w !! self = Some o ->
  can_open (host w) file_path = false ->
  let w' := snd (save self file_path w) in
  fst (save self file_path w) = Raise OSError
  /\ (forall element_data dimension file_name,
        _save_time_dataset_csv self element_data dimension file_name w'
        = (Raise TypeError, w'))
  /\ (forall series high_limit low_limit output_img high_label low_label
        title y_label eps_per_plot,
        _plot_elements_sp np_mean self series high_limit low_limit
          output_img high_label low_label title y_label eps_per_plot w'
        = (Raise TypeError, w'))
  /\ (forall series above below high_limit low_limit output_img high_label
        low_label title y_label,
        _plot_elements np_mean Color format_and_save_plot self series above
          below high_limit low_limit output_img high_label low_label title
          y_label w'
        = (Raise TypeError, w'))
  /\ (forall divs output_img title y_label,
        _plot_action_factor_divs Color distinct_colors format_and_save_plot
          plt_xticks self divs output_img title y_label w'
        = (Raise TypeError, w')).
Proof.
  intros Hself Hopen. rewrite (save_unopened_run w self o file_path Hself Hopen).
  cbn [fst snd]. set (w' := with_objects w _).
  assert (H' : objects w' !! self = Some (detached o))
    by apply lookup_insert_eq.
  split; [reflexivity|]. split; [|split; [|split]]; intros.
  - unfold _save_time_dataset_csv, bind at 1, get_self. rewrite H'.
    reflexivity.
  - unfold _plot_elements_sp, bind at 1, get_self. rewrite H'. reflexivity.
  - unfold _plot_elements, bind at 1, get_self. rewrite H'. reflexivity.
  - unfold _plot_action_factor_divs, bind at 1, get_self. rewrite H'.
    reflexivity.
Qed.

(** X26: an analysis over no records at all.  The multi-panel plot raises
    [ValueError] (there is no position 0 to remove) and the bar chart raises
    [IndexError] (there is no first record), both without writing anything;
    the single-panel plot does not fail on the records and hands its axes,
    with no episode line and an x-axis ending at 0, over to be saved. *)
Theorem plots_of_empty_sequence (w : World) (self : loc) (o : AnalysisBase) :
  objects w !! self = Some o ->
  data o = Some [] ->
  (forall series high_limit low_limit output_img high_label low_label
     title y_label eps_per_plot,
     _plot_elements_sp np_mean self series high_limit low_limit
       output_img high_label low_label title y_label eps_per_plot w
     = (Raise ValueError, w))
  /\ (forall divs output_img title y_label,
        _plot_action_factor_divs Color distinct_colors format_and_save_plot
          plt_xticks self divs output_img title y_label w
        = (Raise IndexError, w))
  /\ (forall series high_limit low_limit output_img high_label low_label
        title y_label,
        exists plot,
          _plot_elements np_mean Color format_and_save_plot self series [] []
            high_limit low_limit output_img high_label low_label title
            y_label w
          = format_and_save_plot (Lines Color plot) title output_img
              "Timesteps" y_label None w
          /\ curve plot = series
          /\ vlines plot = []
          /\ x_max plot = 0%nat).
Proof.
  intros Hself Hdata. split; [|split]; intros.
  - unfold _plot_elements_sp, bind at 1, get_self. rewrite Hself.
    unfold bind at 1, lift at 1, iter_data. rewrite Hdata. reflexivity.
  - unfold _plot_action_factor_divs, bind at 1, get_self. rewrite Hself.
    unfold bind at 1, lift at 1, first_record. rewrite Hdata. reflexivity.
  - eexists. unfold _plot_elements, bind at 1, get_self. rewrite Hself.
    unfold bind at 1, lift at 1, iter_data. rewrite Hdata.
    unfold bind at 1, lift at 1. cbn [values_at].
    unfold bind at 1, lift at 1.
    split; [reflexivity|]. split; [reflexivity|]. split; reflexivity.
Qed.

End Aftermath.

Lemma operations_after_failed_save_raise_witness :
  let w' := snd (Analysis.save 1%nat "/missing/a.pkl.gz" Samples.world2) in
  Analysis._save_time_dataset_csv 1%nat [Samples.f1; Samples.f2; Samples.f3]
    "Value" "/data/value.csv" w'
  = (Raise TypeError, w').
Proof.
  intros w'.
  destruct (operations_after_failed_save_raise (fun _ => Samples.f1) unit
              (fun n => repeat tt n) (fun _ _ _ _ _ _ => ret tt)
              (fun _ _ => Ok tt) Samples.world2 1%nat
              {| Analysis.data :=
                   Some [Samples.rec true; Samples.rec false;
                         Samples.rec true];
                 Analysis.config := 0%nat; Analysis.img_fmt := "pdf" |}
              "/missing/a.pkl.gz")
    as (_ & Hexport & _); [reflexivity | reflexivity |].
  apply Hexport.
Defined.

Lemma plots_of_empty_sequence_witness :
  let w := snd (Analysis.__init__ 1%nat [] 0%nat "pdf" Samples.world0) in
  Analysis._plot_elements_sp (fun _ => Samples.f1) 1%nat [] Samples.f3
    Samples.f1 "/data/values.png" "high" "low" "Value" "value" 10 w
  = (Raise ValueError, w).
Proof.
  intros w.
  destruct (plots_of_empty_sequence (fun _ => Samples.f1) unit
              (fun n => repeat tt n) (fun _ _ _ _ _ _ => ret tt)
              (fun _ _ => Ok tt) w 1%nat
              {| Analysis.data := Some []; Analysis.config := 0%nat;
                 Analysis.img_fmt := "pdf" |})
    as (Hsp & _); [reflexivity | reflexivity |].
  apply Hsp.
Defined.

(** ** [load] *)

Section Archives.
Import Analysis AnalysisRest.

Variable disk : string -> option content.

Lemma file_after_app (es es' : list effect) (path : string)
  (before : option content) :
  file_after (es ++ es') path before
  = file_after es' path (file_after es path before).
Proof. unfold file_after. apply fold_left_app. Qed.

(** The archive a successful [save] leaves behind. *)
Lemma file_after_save (es : list effect) (file_path : string)
  (obj : AnalysisBase) (cfg : option AnalysisConfiguration) :
  file_after (es ++ [GzipOpen file_path; PickleDump file_path obj cfg])
    file_path (disk file_path)
  = Some (Pickled obj cfg).
Proof.
  rewrite file_after_app. cbn [file_after fold_left written].
  rewrite String.eqb_refl. reflexivity.
Qed.

(** [save] when nothing fails. *)
Lemma save_restores_on_success_run (w : World) (self : loc)
  (o : AnalysisBase) (file_path : string) :
  objects w !! self = Some o ->
  can_open (host w) file_path = true ->
  picklable (host w) (detached o) = true ->
  save self file_path w
  = (Ok tt,
     with_effects w
       (effects w ++ [GzipOpen file_path;
                      PickleDump file_path (detached o)
                        (configs w !! config o)])).
Proof.
  intros Hself Hopen Hpickle. unfold save, bind at 1, get_self at 1.
  rewrite Hself. unfold bind at 1. rewrite (set_data_run w self o None Hself).
  fold (detached o). set (w1 := with_objects w _).
  unfold bind at 1, gzip_open_wb, bind at 1, gets at 1.
  cbn [host w1 with_objects].
  rewrite Hopen. unfold bind at 1, emit, modify, ret.
  set (w2 := with_effects w1 _).
  unfold bind at 1, pickle_dump, bind at 1, get_self.
  assert (H2 : objects w2 !! self = Some (detached o))
    by apply lookup_insert_eq.
  rewrite H2. unfold bind at 1, gets at 1.
  cbn [host w2 w1 with_effects with_objects].
  rewrite Hpickle. unfold bind at 1, gets at 1.
  unfold emit, modify. set (w3 := with_effects w2 _).
  rewrite (set_data_run w3 self (detached o) (data o) H2).
  f_equal. unfold with_objects, with_effects, w3, w2, w1; cbn.
  rewrite insert_insert_eq. destruct o as [d c f]; cbn.
  rewrite insert_id by exact Hself.
  rewrite <- app_assoc. destruct w; reflexivity.
Qed.

(** What [load] does with an archive that holds an analysis and its
    configuration. *)
Lemma load_pickled_run (w : World) (file_path : string) (obj : AnalysisBase)
  (cfg : AnalysisConfiguration) :
  file_after (effects w) file_path (disk file_path)
  = Some (Pickled obj (Some cfg)) ->
  load disk file_path w
  = (Ok (fresh (dom (objects w))),
     {| host := host w;
        configs := <[fresh (dom (configs w)) := cfg]> (configs w);
        objects :=
          <[fresh (dom (objects w)) :=
              {| data := data obj; config := fresh (dom (configs w));
                 img_fmt := img_fmt obj |}]> (objects w);
        effects := effects w |}).
Proof.
  intros Hfile. unfold load, bind at 1, gets at 1. rewrite Hfile.
  unfold bind at 1, gets at 1. unfold bind at 1, modify at 1.
  unfold bind at 1, gets at 1. unfold bind at 1, modify at 1, ret.
  reflexivity.
Qed.

Lemma fresh_object_free (w : World) :
  objects w !! fresh (dom (objects w)) = None.
Proof. apply not_elem_of_dom. apply is_fresh. Qed.

Lemma fresh_config_free (w : World) :
  configs w !! fresh (dom (configs w)) = None.
Proof. apply not_elem_of_dom. apply is_fresh. Qed.

(** X12: [save] and then [load] of the same path.  What comes back is a new
    analysis, at a reference that held nothing before, with the image
    format of the saved one, no records, and a configuration object of its
    own that holds the values the saved configuration had; the saved
    analysis, every other object and every other configuration are as they
    were before the two calls. *)
Theorem load_after_save_round_trip (w : World) (self : loc)
  (o : AnalysisBase) (cfg : AnalysisConfiguration) (file_path : string) :
  objects w !! self = Some o ->
  configs w !! config o = Some cfg ->
  can_open (host w) file_path = true ->
  picklable (host w) (detached o) = true ->
  exists (loaded c : loc) (w' : World),
    bind (save self file_path) (fun _ => load disk file_path) w
    = (Ok loaded, w')
    /\ objects w !! loaded = None
    /\ configs w !! c = None
    /\ objects w' !! loaded
       = Some {| data := None; config := c; img_fmt := img_fmt o |}
    /\ configs w' !! c = Some cfg
    /\ (forall l, l <> loaded -> objects w' !! l = objects w !! l)
    /\ (forall l, l <> c -> configs w' !! l = configs w !! l).
Proof.
  intros Hself Hcfg Hopen Hpickle.
  exists (fresh (dom (objects w))), (fresh (dom (configs w))). eexists.
  unfold bind at 1.
  rewrite (save_restores_on_success_run w self o file_path Hself Hopen Hpickle).
  rewrite Hcfg.
  rewrite (load_pickled_run _ file_path (detached o) cfg)
    by (cbn [effects with_effects]; apply file_after_save).
  cbn [objects configs with_effects data detached img_fmt].
  split; [reflexivity|].
  split; [apply fresh_object_free|]. split; [apply fresh_config_free|].
  split; [apply lookup_insert_eq|]. split; [apply lookup_insert_eq|].
  split; intros l Hl; apply lookup_insert_ne; congruence.
Qed.

(** X13: the loaded analysis does not share its configuration with the saved
    one.  When the loaded analysis creates its pool, the worker count of
    the saved analysis's configuration stays what it was. *)
Theorem loaded_configuration_is_a_copy (w : World) (self : loc)
  (o : AnalysisBase) (cfg : AnalysisConfiguration) (file_path : string)
  (n : Z) :
  objects w !! self = Some o ->
  configs w !! config o = Some cfg ->
  can_open (host w) file_path = true ->
  picklable (host w) (detached o) = true ->
  os_cpu_count (host w) = Some n ->
  1 <= n ->
  exists (loaded : loc) (w1 w2 : World),
    bind (save self file_path) (fun _ => load disk file_path) w
    = (Ok loaded, w1)
    /\ _get_mp_pool loaded w1 = (Ok {| processes := n |}, w2)
    /\ configs w2 !! config o = Some cfg
    /\ objects w2 !! self = Some o.
Proof.
  intros Hself Hcfg Hopen Hpickle Hcpu Hn.
  exists (fresh (dom (objects w))). eexists. eexists.
  unfold bind at 1.
  rewrite (save_restores_on_success_run w self o file_path Hself Hopen Hpickle).
  rewrite Hcfg.
  rewrite (load_pickled_run _ file_path (detached o) cfg)
    by (cbn [effects with_effects]; apply file_after_save).
  cbn [objects configs with_effects data detached img_fmt host effects].
  split; [reflexivity|].
  assert (Hc : fresh (dom (configs w)) <> config o).
  { intros Heq. pose proof (fresh_config_free w) as Hfree.
    rewrite Heq, Hcfg in Hfree. discriminate. }
  assert (Hl : fresh (dom (objects w)) <> self).
  { intros Heq. pose proof (fresh_object_free w) as Hfree.
    rewrite Heq, Hself in Hfree. discriminate. }
  split.
  - apply (get_mp_pool_run _ _
             {| data := None; config := fresh (dom (configs w));
                img_fmt := img_fmt o |} cfg n);
      cbn [objects configs host config];
      [apply lookup_insert_eq | apply lookup_insert_eq | exact Hcpu
      | exact Hn].
  - cbn [configs objects config]. split.
    + rewrite !lookup_insert_ne by congruence. exact Hcfg.
    + rewrite lookup_insert_ne by congruence. exact Hself.
Qed.



End Archives.

(** Saving the first analysis of [world2] and loading the archive, on a disk
    that held no file before. *)
Lemma load_after_save_round_trip_witness :
  exists (loaded c : Analysis.loc) (w' : Analysis.World),
    bind (Analysis.save 1%nat "/data/analysis.pkl.gz")
      (fun _ => AnalysisRest.load (fun _ => None) "/data/analysis.pkl.gz")
      Samples.world2
    = (Ok loaded, w')
    /\ Analysis.objects w' !! loaded
       = Some {| Analysis.data := None; Analysis.config := c;
                 Analysis.img_fmt := "pdf" |}
    /\ Analysis.configs w' !! c = Some {| Analysis.num_processes := 4 |}.
Proof.
  destruct (load_after_save_round_trip (fun _ => None) Samples.world2 1%nat
              {| Analysis.data :=
                   Some [Samples.rec true; Samples.rec false;
                         Samples.rec true];
                 Analysis.config := 0%nat; Analysis.img_fmt := "pdf" |}
              {| Analysis.num_processes := 4 |} "/data/analysis.pkl.gz")
    as (loaded & c & w' & Hrun & _ & _ & Hobj & Hcfg & _);
    [reflexivity | reflexivity | reflexivity | reflexivity |].
  exists loaded, c, w'. split; [exact Hrun|]. split; [exact Hobj|exact Hcfg].
Defined.

Lemma loaded_configuration_is_a_copy_witness :
  exists (loaded : Analysis.loc) (w1 w2 : Analysis.World),
    bind (Analysis.save 1%nat "/data/analysis.pkl.gz")
      (fun _ => AnalysisRest.load (fun _ => None) "/data/analysis.pkl.gz")
      Samples.world2
    = (Ok loaded, w1)
    /\ Analysis._get_mp_pool loaded w1
       = (Ok {| Analysis.processes := 8 |}, w2)
    /\ Analysis.configs w2 !! 0%nat = Some {| Analysis.num_processes := 4 |}.
Proof.
  destruct (loaded_configuration_is_a_copy (fun _ => None) Samples.world2
              1%nat
              {| Analysis.data :=
                   Some [Samples.rec true; Samples.rec false;
                         Samples.rec true];
                 Analysis.config := 0%nat; Analysis.img_fmt := "pdf" |}
              {| Analysis.num_processes := 4 |} "/data/analysis.pkl.gz" 8)
    as (loaded & w1 & w2 & Hrun & Hpool & Hcfg & _);
    [reflexivity | reflexivity | reflexivity | reflexivity | reflexivity
    | lia |].
  exists loaded, w1, w2. split; [exact Hrun|]. split; [exact Hpool|exact Hcfg].
Defined.


(** ** The single-panel plot *)

Section SinglePanel.
Import Analysis AnalysisRest.

Variable np_mean : list float -> float.
Variable Color : Type.
Variable format_and_save_plot :
  Axes Color -> string -> string -> string -> string -> option bool ->
  M World unit.

Lemma values_at_in_range (data : list float) (ts : list nat) :
  List.Forall (fun t => (t < length data)%nat) ts ->
  exists vs,
    values_at data ts = Ok vs
    /\ List.Forall2 (fun t v => data !! t = Some v) ts vs.
Proof.
  induction 1 as [|t rest Ht _ (vs & Hvs & Hall)].
  - exists []. split; [reflexivity|constructor].
  - destruct (lookup_lt_is_Some_2 data t Ht) as [v Hv].
    exists (v :: vs). cbn [values_at]. unfold getitem. rewrite Hv.
    cbn [rbind]. rewrite Hvs. split; [reflexivity|].
    constructor; assumption.
Qed.

Lemma values_at_out_of_range (data : list float) (ts : list nat) :
  List.Exists (fun t => (length data <= t)%nat) ts ->
  values_at data ts = Raise IndexError.
Proof.
  induction ts as [|t rest IH]; intros H; [inversion H|].
  cbn [values_at]. unfold getitem.
  destruct (data !! t) as [v|] eqn:Hv; [|reflexivity]. cbn [rbind].
  inversion H as [? ? Hbad|? ? Hrest]; subst.
  - apply lookup_lt_Some in Hv. lia.
  - rewrite (IH Hrest). reflexivity.
Qed.

Lemma range_decided (data : list float) (ts : list nat) :
  List.Forall (fun t => (t < length data)%nat) ts
  \/ List.Exists (fun t => (length data <= t)%nat) ts.
Proof.
  induction ts as [|t rest [IH|IH]].
  - left. constructor.
  - destruct (Nat.lt_ge_cases t (length data)).
    + left. constructor; assumption.
    + right. constructor. assumption.
  - right. apply List.Exists_cons_tl. exact IH.
Qed.

Lemma where_from_iff (flags : list bool) :
  forall i t,
    In t (Numpy.where_from i flags)
    <-> exists j, t = (i + j)%nat /\ flags !! j = Some true.
Proof.
  induction flags as [|b r IH]; intros i t.
  - cbn. split; [contradiction|]. intros (j & _ & Hj). discriminate.
  - cbn [Numpy.where_from]. split.
    + intros H.
      assert (Hrest : In t (Numpy.where_from (S i) r) ->
                      exists j, t = (i + j)%nat /\ (b :: r) !! j = Some true).
      { intros Hin. apply IH in Hin as (j & -> & Hj).
        exists (S j). split; [lia|exact Hj]. }
      destruct b; [|exact (Hrest H)].
      destruct H as [<-|H]; [|exact (Hrest H)].
      exists 0%nat. split; [lia|reflexivity].
    + intros (j & -> & Hj). destruct j as [|j].
      * injection Hj as ->. left. lia.
      * assert (Hin : In (i + S j)%nat (Numpy.where_from (S i) r)).
        { apply IH. exists j. split; [lia|exact Hj]. }
        destruct b; [right|]; exact Hin.
Qed.

Lemma combine_fst_of_Forall2 {A B : Type} (P : A -> B -> Prop)
  (xs : list A) (ys : list B) :
  List.Forall2 P xs ys ->
  map fst (combine xs ys) = xs
  /\ forall x y, In (x, y) (combine xs ys) -> P x y.
Proof.
  induction 1 as [|x y xs ys Hxy _ [IHfst IHin]].
  - split; [reflexivity|]. intros x y [].
  - cbn [combine map fst]. rewrite IHfst. split; [reflexivity|].
    intros x' y' [Heq|Hin]; [injection Heq as <- <-; exact Hxy|].
    apply IHin. exact Hin.
Qed.

(** X25: [_plot_elements].  It raises [IndexError], before anything is
    handed over to be saved, as soon as one outlier position lies outside
    the series.  Otherwise it hands over axes that show the series, one
    vertical line at the position of each flagged record (the first record
    needs no flag, and there may be no record at all), the outliers in the
    order given, each at its own value, and an x-axis that ends at the
    number of records. *)
Theorem plot_elements_draws_or_raises (w : World) (self : loc)
  (o : AnalysisBase) (records : list InteractionDataPoint)
  (series : list float) (above below : list nat)
  (high_limit low_limit : float)
  (output_img high_label low_label title y_label : string) :
  objects w !! self = Some o ->
  data o = Some records ->
  (List.Exists (fun t => (length series <= t)%nat) (above ++ below) ->
   _plot_elements np_mean Color format_and_save_plot self series above below
     high_limit low_limit output_img high_label low_label title y_label w
   = (Raise IndexError, w))
  /\ (List.Forall (fun t => (t < length series)%nat) (above ++ below) ->
      exists plot,
        _plot_elements np_mean Color format_and_save_plot self series above
          below high_limit low_limit output_img high_label low_label title
          y_label w
        = format_and_save_plot (Lines Color plot) title output_img
            "Timesteps" y_label None w
        /\ curve plot = series
        /\ x_max plot = length records
        /\ (forall t, In t (vlines plot)
              <-> exists d, records !! t = Some d /\ new_episode d = true)
        /\ map fst (above_marks plot) = above
        /\ map fst (below_marks plot) = below
        /\ (forall t v,
              In (t, v) (above_marks plot ++ below_marks plot) ->
              series !! t = Some v)).
Proof.
  intros Hself Hdata.
  assert (Hstart :
              _plot_elements np_mean Color format_and_save_plot self series
                above below high_limit low_limit output_img high_label
                low_label title y_label w
              = bind (lift (values_at series above))
                  (fun high_means =>
                     bind (lift (values_at series below))
                       (fun low_means =>
                          format_and_save_plot
                            (Lines Color
                               {| curve := series;
                                  curve_label := y_label;
                                  hlines :=
                                    (if negb (isnan high_limit)
                                     then [(high_limit, high_label)] else [])
                                    ++ (if negb (isnan low_limit)
                                        then [(low_limit, low_label)]
                                        else [])
                                    ++ [(np_mean series,
                                         "Overall mean"%string)];
                                  vlines :=
                                    Numpy.where_ (map new_episode records);
                                  above_marks := combine above high_means;
                                  below_marks := combine below low_means;
                                  x_max := length records |})
                            title output_img "Timesteps" y_label None)) w).
  { unfold _plot_elements, bind at 1, get_self. rewrite Hself.
    unfold bind at 1, lift at 1, iter_data. rewrite Hdata. reflexivity. }
  rewrite Hstart. clear Hstart.
  split.
  - intros Hbad. apply List.Exists_app in Hbad.
    destruct (range_decided series above) as [Hgood|Hbad'].
    + destruct Hbad as [Hbad|Hbad].
      * rewrite (values_at_out_of_range series above Hbad). reflexivity.
      * destruct (values_at_in_range series above Hgood) as (vs & Hvs & _).
        unfold bind at 1, lift at 1. rewrite Hvs.
        unfold bind at 1, lift at 1.
        rewrite (values_at_out_of_range series below Hbad). reflexivity.
    + rewrite (values_at_out_of_range series above Hbad'). reflexivity.
  - intros Hgood. apply List.Forall_app in Hgood as [Ha Hb].
    destruct (values_at_in_range series above Ha) as (highs & Hhighs & H2a).
    destruct (values_at_in_range series below Hb) as (lows & Hlows & H2b).
    destruct (combine_fst_of_Forall2 _ _ _ H2a) as [Hfa Hina].
    destruct (combine_fst_of_Forall2 _ _ _ H2b) as [Hfb Hinb].
    eexists. unfold bind at 1, lift at 1. rewrite Hhighs.
    unfold bind at 1, lift at 1. rewrite Hlows.
    split; [reflexivity|]. cbn [curve x_max vlines above_marks below_marks].
    split; [reflexivity|]. split; [reflexivity|]. split.
    { intros t. unfold Numpy.where_. rewrite where_from_iff. split.
      - intros (j & -> & Hj). rewrite list_lookup_fmap in Hj.
        destruct (records !! j) as [d|] eqn:Hd; [|discriminate].
        injection Hj as Hflag. exists d. split; [exact Hd|exact Hflag].
      - intros (d & Hd & Hflag). exists t. split; [reflexivity|].
        rewrite list_lookup_fmap, Hd. cbn. rewrite Hflag. reflexivity. }
    split; [exact Hfa|]. split; [exact Hfb|].
    intros t v Hin. apply in_app_or in Hin as [Hin|Hin];
      [exact (Hina t v Hin)|exact (Hinb t v Hin)].
Qed.

End SinglePanel.

(** The records of [world3], whose first record is not flagged, with one
    outlier above. *)
Lemma plot_elements_draws_or_raises_witness :
  Analysis.effects
    (snd (AnalysisRest._plot_elements (fun _ => Samples.f2) unit
            (fun axes _ output_img _ _ _ =>
               Analysis.emit (Analysis.LogInfo output_img []))
            3%nat [Samples.f1; Samples.f2; Samples.f3; Samples.f1] [7%nat] []
            Samples.f3 S754_nan "/data/values.png" "high" "low" "Value"
            "value" Samples.world3))
  = [].
Proof.
  destruct (plot_elements_draws_or_raises (fun _ => Samples.f2) unit
              (fun axes _ output_img _ _ _ =>
                 Analysis.emit (Analysis.LogInfo output_img []))
              Samples.world3 3%nat
              {| Analysis.data :=
                   Some [Samples.rec false; Samples.rec true;
                         Samples.rec false; Samples.rec false];
                 Analysis.config := 0%nat; Analysis.img_fmt := "pdf" |}
              [Samples.rec false; Samples.rec true;
               Samples.rec false; Samples.rec false]
              [Samples.f1; Samples.f2; Samples.f3; Samples.f1] [7%nat] []
              Samples.f3 S754_nan "/data/values.png" "high" "low" "Value"
              "value") as (Hraise & _); [reflexivity | reflexivity |].
  rewrite Hraise; [reflexivity|].
  constructor. cbn. lia.
Defined.
